(** * depmanager: package-manager detection and audit dispatch

    A shallow embedding of [src/depmanager.ts] and of the security audit
    of [src/cli.ts], followed by the properties of the specification.

    Conventions of the model.
    - A JavaScript string is a [string]; a character stands for one
      code unit below 256.  [null] and [undefined] are both [None].
    - Node's [fs], [path], [child_process] and [JSON] are not part of the
      repository: they are the fields of the class [Host].  The world the
      program runs in is an abstract type [W]; file-system probes read
      it, and running a command may change it.  A property that needs the
      files to stay as they are says so ([commands_keep]).
    - Effects are written in the monad [M]: a computation takes the
      current world and the trace of what happened so far, and either
      returns or throws.  An [await] is sequencing, a rejected promise is
      a throw.
    - The trace records the commands run, with their directories, and
      the lines printed.  The lines of the dispatch code are the
      constructors of [Message]; so are the lines of
      [displayYarnAuditResults], which are computed from the output of
      the command.  [displayNpmAuditResults] formats the fields of a
      report with the coercions of the language and runs no command: it
      is taken from the host, as the lines it prints and whether the
      call throws on a report that lacks the fields it reads. *)

From Stdlib Require Import String Ascii List ZArith QArith Bool Lia.
Import ListNotations.
Local Open Scope string_scope.
Local Open Scope Z_scope.

(** ** JavaScript primitives used by the code *)

Module JS.

(** White space and line terminators of ECMAScript among the code units
    below 256: TAB, LF, VT, FF, CR, SP and NBSP. *)
Definition is_white_space (c : ascii) : bool :=
  let n := nat_of_ascii c in
  (Nat.eqb n 9 || Nat.eqb n 10 || Nat.eqb n 11 || Nat.eqb n 12 ||
   Nat.eqb n 13 || Nat.eqb n 32 || Nat.eqb n 160)%bool.

Definition is_digit (c : ascii) : bool :=
  let n := nat_of_ascii c in (Nat.leb 48 n && Nat.leb n 57)%bool.

Definition digit_value (c : ascii) : Z := Z.of_nat (nat_of_ascii c) - 48.

Fixpoint trimStart (s : string) : string :=
  match s with
  | String c r => if is_white_space c then trimStart r else s
  | EmptyString => EmptyString
  end.

Fixpoint trimEnd (s : string) : string :=
  match s with
  | String c r =>
      match trimEnd r with
      | EmptyString => if is_white_space c then EmptyString else String c EmptyString
      | r' => String c r'
      end
  | EmptyString => EmptyString
  end.

(** [String.prototype.trim]. *)
Definition trim (s : string) : string := trimEnd (trimStart s).

(** The longest prefix of decimal digits, most significant first. *)
Fixpoint digit_prefix (s : string) : list ascii :=
  match s with
  | String c r => if is_digit c then c :: digit_prefix r else []
  | EmptyString => []
  end.

Definition digits_to_Z (ds : list ascii) : Z :=
  fold_left (fun acc c => 10 * acc + digit_value c) ds 0.

(** [parseInt(s, 10)]: leading white space is skipped, one sign is read,
    then the longest run of decimal digits; [None] is [NaN].  The result
    is the mathematical integer; the Number that JavaScript returns is
    the double nearest to it, which compares with [2] in the same way. *)
Definition parseInt10 (s : string) : option Z :=
  let s1 := trimStart s in
  let '(negative, s2) :=
    match s1 with
    | String "-" r => (true, r)
    | String "+" r => (false, r)
    | _ => (false, s1)
    end in
  match digit_prefix s2 with
  | [] => None
  | ds => Some (if negative then - digits_to_Z ds else digits_to_Z ds)
  end.

(** [x >= k] on Numbers: every comparison with [NaN] is false. *)
Definition number_ge (x : option Z) (k : Z) : bool :=
  match x with
  | Some n => k <=? n
  | None => false
  end.

(** [s.split('.')[0]]: the text before the first dot, all of [s] when it
    has none. *)
Fixpoint split_dot_head (s : string) : string :=
  match s with
  | String c r => if Ascii.eqb c "." then EmptyString else String c (split_dot_head r)
  | EmptyString => EmptyString
  end.

(** [s.replace(pat, rep)] for a string pattern and a replacement without
    dollar patterns: the first occurrence of [pat] is replaced, and [s] is
    returned as it is when [pat] does not occur. *)
Fixpoint replace_first (pat rep s : string) : string :=
  if prefix pat s
  then rep ++ substring (String.length pat) (String.length s - String.length pat) s
  else match s with
       | String c r => String c (replace_first pat rep r)
       | EmptyString => EmptyString
       end.

(** [s.includes(pat)]. *)
Fixpoint includes (pat s : string) : bool :=
  (prefix pat s ||
   match s with
   | String _ r => includes pat r
   | EmptyString => false
   end)%bool.

(** Truthiness of a string or null value: [!v] holds for [null],
    [undefined] and the empty string. *)
Definition falsy_string (v : option string) : bool :=
  match v with
  | None => true
  | Some EmptyString => true
  | Some _ => false
  end.

(** A string-or-null value inside a template literal. *)
Definition template (v : option string) : string :=
  match v with
  | Some s => s
  | None => "null"
  end.

End JS.

(** ** src/types.ts *)

Inductive YarnType := yarn1 | yarn2plus.

(** [YarnVersionType = 'yarn1' | 'yarn2+' | null]. *)
Definition YarnVersionType := option YarnType.

(** ** src/depmanager.ts: getYarnVersionType *)

Definition getYarnVersionType (version : option string) : YarnVersionType :=
  if JS.falsy_string version then None
  else
    let majorVersion := JS.parseInt10 (JS.split_dot_head (JS.template version)) in
    if JS.number_ge majorVersion 2 then Some yarn2plus else Some yarn1.

(** ** JSON values, as [JSON.parse] returns them *)

#[warnings="-register-all"]
Inductive JSON :=
| JNull
| JBool (b : bool)
| JNumber (q : Q)
| JString (s : string)
| JArray (items : list JSON)
| JObject (fields : list (string * JSON)).

Module Json.

(** Own property of an object; [JSON.parse] yields distinct keys. *)
Fixpoint lookup (key : string) (fields : list (string * JSON)) : option JSON :=
  match fields with
  | (k, v) :: rest => if String.eqb k key then Some v else lookup key rest
  | [] => None
  end.

(** [v.key] for a key that no built-in prototype defines (such as
    [workspaces] and [packages]): [None] when reading a property of
    [null] throws a TypeError, [Some None] when the value is
    [undefined]. *)
Definition get (v : JSON) (key : string) : option (option JSON) :=
  match v with
  | JNull => None
  | JObject fields => Some (lookup key fields)
  | _ => Some None
  end.

(** Truthiness of a value that may be [undefined]. *)
Definition truthy (v : option JSON) : bool :=
  match v with
  | None => false
  | Some JNull => false
  | Some (JBool b) => b
  | Some (JNumber q) => negb (Qnum q =? 0)
  | Some (JString s) => negb (String.eqb s "")
  | Some (JArray _) => true
  | Some (JObject _) => true
  end.

(** [Array.isArray]. *)
Definition isArray (v : JSON) : bool :=
  match v with
  | JArray _ => true
  | _ => false
  end.

(** The values a [for ... of] loop visits: the elements of an array, the
    characters of a string; [None] when the value is not iterable. *)
Fixpoint chars (s : string) : list JSON :=
  match s with
  | String c r => JString (String c EmptyString) :: chars r
  | EmptyString => []
  end.

Definition iterate (v : JSON) : option (list JSON) :=
  match v with
  | JArray items => Some items
  | JString s => Some (chars s)
  | _ => None
  end.

End Json.

(** ** src/types.ts, continued *)

Inductive Manager := npm | yarn.

(** The [type] field; [type_null] is the [null] that [detectPackageManager]
    stores there when the yarn version is not known. *)
Inductive ManagerType := type_npm | type_yarn1 | type_yarn2plus | type_null.

Record PackageManagerInfo := {
  manager : Manager;
  version : option string;
  type : ManagerType;
  displayName : string
}.

(** [packages] is whatever value the manifest holds there. *)
Record WorkspaceInfo := {
  hasWorkspaces : bool;
  packages : JSON
}.

Definition type_of_yarn (t : YarnVersionType) : ManagerType :=
  match t with
  | Some yarn1 => type_yarn1
  | Some yarn2plus => type_yarn2plus
  | None => type_null
  end.

(** [pmInfo.type === 'npm' ? null : pmInfo.type]. *)
Definition yarn_of_type (t : ManagerType) : YarnVersionType :=
  match t with
  | type_npm => None
  | type_yarn1 => Some yarn1
  | type_yarn2plus => Some yarn2plus
  | type_null => None
  end.

(** ** src/cli.ts: the report of a yarn audit *)

(** [displayYarnAuditResults] computes the lines it prints from the
    output of the command.  A line is a constructor of [Line], with its
    text beside it; the pictograph in front of a text is left out. *)

Module Printer.

(** The number that [parseInt] reads from a run of decimal digits.  An
    integer up to 2^53 is a Number and is read as it is.  Beyond that
    the result is the Number that the integer spelled by the digits
    rounds to, infinite for a very long run (past twenty digits the
    engine may round an approximation of the integer instead): the
    model keeps the digits and does not compute that Number, which is
    positive in any case. *)
Inductive Count :=
| Exactly (n : Z)
| Rounded (digits : list ascii).

Definition count_of (digits : list ascii) : Count :=
  if JS.digits_to_Z digits <=? 2 ^ 53
  then Exactly (JS.digits_to_Z digits)
  else Rounded digits.

(** [count > 0] *)
Definition positive (count : Count) : bool :=
  match count with
  | Exactly n => 0 <? n
  | Rounded _ => true
  end.

(** The lines that [displayYarnAuditResults] prints. *)
Inductive Line :=
| NoVulnerabilities        (* 'No vulnerabilities found!' *)
| VulnerabilitiesHeader    (* 'Vulnerabilities found:\n' *)
| Output (stdout : string) (* the output of the command, as it is *)
| Found (count : Count)    (* '\nFound <count> vulnerabilities' *)
| YarnUpgradeTip.          (* '\n Run yarn upgrade to update vulnerable dependencies' *)

(** [s.split('\n')] *)
Fixpoint split_lines (s : string) : list string :=
  match s with
  | String c r =>
      if Ascii.eqb c (ascii_of_nat 10) then EmptyString :: split_lines r
      else match split_lines r with
           | line :: rest => String c line :: rest
           | [] => [String c EmptyString]
           end
  | EmptyString => [EmptyString]
  end.

Fixpoint after_digits (s : string) : string :=
  match s with
  | String c r => if JS.is_digit c then after_digits r else s
  | EmptyString => EmptyString
  end.

Definition starts_with_space (s : string) : bool :=
  match s with
  | String c _ => JS.is_white_space c
  | EmptyString => false
  end.

(** The regular expression [(\d+)\s+vulnerabilit] tried at the start of
    [s]: the digits it captures.  Both repetitions are greedy, and giving
    a character back never helps: the next one would have to be a space
    after the digits, and the letter [v] after the spaces. *)
Definition match_here (s : string) : option (list ascii) :=
  match JS.digit_prefix s with
  | [] => None
  | digits =>
      let rest := after_digits s in
      if (starts_with_space rest && prefix "vulnerabilit" (JS.trimStart rest))%bool
      then Some digits
      else None
  end.

(** [line.match(/(\d+)\s+vulnerabilit/)]: the capture of the leftmost
    match. *)
Fixpoint match_count (line : string) : option (list ascii) :=
  match match_here line with
  | Some digits => Some digits
  | None =>
      match line with
      | String _ r => match_count r
      | EmptyString => None
      end
  end.

(** The body of [lines.forEach]: the new value of [vulnCount]. *)
Definition count_line (vulnCount : Count) (line : string) : Count :=
  if (JS.includes "vulnerabilities found" line || JS.includes "vulnerability found" line)%bool
  then match match_count line with
       | Some digits => count_of digits
       | None => vulnCount
       end
  else vulnCount.

Definition displayYarnAuditResults (stdout stderr : string) : list Line :=
  if (JS.includes "No known vulnerabilities found" stdout ||
      JS.includes "No known vulnerabilities found" stderr ||
      JS.includes "0 vulnerabilities found" stdout)%bool
  then [NoVulnerabilities]
  else
    VulnerabilitiesHeader ::
    let lines := split_lines stdout in
    let vulnCount := fold_left count_line lines (Exactly 0) in
    if positive vulnCount
    then [Output stdout; Found vulnCount; YarnUpgradeTip]
    else [NoVulnerabilities].

End Printer.

(** ** What the program prints and runs *)

(** Console lines of the dispatch code, in the order of the source. *)
Inductive Message :=
| CreatingPackageLock          (* 'Creating package-lock.json for security audit...' *)
| CouldNotCreatePackageLock    (* 'Could not create package-lock.json. Audit may not work properly.' *)
| DetectedWorkspaceProject     (* 'Detected workspace project\n' *)
| CheckingRootProject          (* 'Checking root project...' *)
| CheckingWorkspace (rel : string) (* '\nChecking workspace: <relative path>' *)
| YarnNotFound                 (* 'Yarn not found or not properly installed.' *)
| FallingBackToNpm             (* 'Falling back to npm audit...\n' *)
| YarnAuditFailed              (* 'Yarn audit failed. Falling back to npm audit...\n' *)
| AuditNotCompleted            (* 'Security audit could not be completed for this configuration.' *)
| AuditNotCompletedHint        (* 'This may be due to workspace setup or missing lock files.' *)
| AuditNotCompletedAdvice      (* '   Try running the security audit directly with your package manager.' *)
| AuditNotAvailable            (* 'Security audit not available for this workspace configuration.' *)
| AuditNotAvailableAdvice      (* 'Try running the audit directly with yarn or check individual workspace packages.' *)
| Report (line : string)       (* a line printed by [displayNpmAuditResults] *)
| YarnReport (line : Printer.Line). (* a line printed by [displayYarnAuditResults] *)

Inductive Event :=
| Exec (command : string) (dir : option string)  (* execPromise(command, {cwd: dir}) *)
| Log (m : Message).                             (* console.log *)

(** ** The host: Node's modules and the npm report printer *)

Class Host (W : Type) := {
  (** [process.cwd()] *)
  cwd : string;
  (** [path.join(...)] and [path.relative(from, to)] *)
  path_join : list string -> string;
  path_relative : string -> string -> string;
  (** [fs.existsSync(p)] *)
  existsSync : string -> W -> bool;
  (** [fs.readFileSync(p, 'utf8')]; [None] when it throws *)
  readFileSync : string -> W -> option string;
  (** [fs.readdirSync(p)]; [None] when it throws *)
  readdirSync : string -> W -> option (list string);
  (** [fs.statSync(p).isDirectory()]; [None] when [statSync] throws *)
  statSync_isDirectory : string -> W -> option bool;
  (** [JSON.parse(text)]; [None] when it throws a SyntaxError *)
  JSON_parse : string -> option JSON;
  (** [util.promisify(exec)(command, {cwd})]: stdout and stderr, or
      [None] when the promise rejects; the command may change the world *)
  exec : string -> option string -> W -> option (string * string) * W;
  (** [displayNpmAuditResults(result)]: the lines printed, and [false]
      when the call ends by throwing *)
  displayNpmAuditResults_lines : JSON -> list string * bool
}.

(** ** The monad of effects *)

Record State (W : Type) := mkState {
  world : W;
  trace : list Event
}.
Arguments mkState {W}.
Arguments world {W}.
Arguments trace {W}.

Inductive Outcome (A : Type) :=
| Return (a : A)
| Throw.
Arguments Return {A}.
Arguments Throw {A}.

Definition M (W A : Type) : Type := State W -> Outcome A * State W.

Definition ret {W A} (a : A) : M W A := fun st => (Return a, st).

Definition bind {W A B} (c : M W A) (k : A -> M W B) : M W B :=
  fun st =>
    match c st with
    | (Return a, st1) => k a st1
    | (Throw, st1) => (Throw, st1)
    end.

Definition throw {W A} : M W A := fun st => (Throw, st).

(** [try { body } catch (error) { handler }] *)
Definition try_catch {W A} (body handler : M W A) : M W A :=
  fun st =>
    match body st with
    | (Return a, st1) => (Return a, st1)
    | (Throw, st1) => handler st1
    end.

Declare Scope js_scope.
Delimit Scope js_scope with js.
Notation "x <- c ;; k" := (bind c (fun x => k))
  (at level 61, c at next level, right associativity) : js_scope.
Notation "c ;; k" := (bind c (fun _ => k))
  (at level 61, right associativity) : js_scope.
Local Open Scope js_scope.

(** A value read from the world. *)
Definition probe {W A} (f : W -> A) : M W A :=
  fun st => (Return (f (world st)), st).

(** A host call that returns or throws. *)
Definition of_option {W A} (v : option A) : M W A :=
  match v with
  | Some a => ret a
  | None => throw
  end.

Definition emit {W} (e : Event) : M W unit :=
  fun st => (Return tt, mkState (world st) (trace st ++ [e])).

Definition console_log {W} (m : Message) : M W unit := emit (Log m).

(** [for (const x of xs) { body x }] over the values visited. *)
Fixpoint for_of {W A} (xs : list A) (body : A -> M W unit) : M W unit :=
  match xs with
  | x :: rest => body x ;; for_of rest body
  | [] => ret tt
  end.

Section Program.
Context {W : Type} {host : Host W}.

Definition execPromise (command : string) (dir : option string) : M W (string * string) :=
  fun st =>
    let '(result, w) := exec command dir (world st) in
    let st1 := mkState w (trace st ++ [Exec command dir]) in
    match result with
    | Some output => (Return output, st1)
    | None => (Throw, st1)
    end.

(** ** src/depmanager.ts *)

Definition getYarnVersion : M W (option string) :=
  try_catch
    (output <- execPromise "yarn --version" None ;;
     ret (Some (JS.trim (fst output))))
    (ret None).

Definition no_workspaces : WorkspaceInfo :=
  {| hasWorkspaces := false; packages := JArray [] |}.

Definition getWorkspaceInfo (projectDir : string) : M W WorkspaceInfo :=
  try_catch
    (let packageJsonPath := path_join [projectDir; "package.json"] in
     present <- probe (existsSync packageJsonPath) ;;
     if negb present then ret no_workspaces
     else
       packageJsonContent <- (text <- probe (readFileSync packageJsonPath) ;; of_option text) ;;
       packageJson <- of_option (JSON_parse packageJsonContent) ;;
       workspaces <- of_option (Json.get packageJson "workspaces") ;;
       match workspaces with
       | Some ws =>
           if Json.truthy workspaces then
             if Json.isArray ws
             then ret {| hasWorkspaces := true; packages := ws |}
             else
               pkgs <- of_option (Json.get ws "packages") ;;
               match pkgs with
               | Some ps =>
                   if Json.truthy pkgs
                   then ret {| hasWorkspaces := true; packages := ps |}
                   else ret no_workspaces
               | None => ret no_workspaces
               end
           else ret no_workspaces
       | None => ret no_workspaces
       end)
    (ret no_workspaces).

Definition detectPackageManager (projectDir : string) : M W PackageManagerInfo :=
  hasYarnLock <- probe (existsSync (path_join [projectDir; "yarn.lock"])) ;;
  hasPackageLock <- probe (existsSync (path_join [projectDir; "package-lock.json"])) ;;
  if hasYarnLock : bool then
    yarnVersion <- getYarnVersion ;;
    let yarnType := getYarnVersionType yarnVersion in
    ret {| manager := yarn;
           version := yarnVersion;
           type := type_of_yarn yarnType;
           displayName :=
             match yarnType with
             | Some yarn2plus => "yarn " ++ JS.template yarnVersion ++ " (2+)"
             | _ => "yarn " ++ JS.template yarnVersion ++ " (1.x)"
             end |}
  else if hasPackageLock : bool then
    ret {| manager := npm; version := None; type := type_npm; displayName := "npm" |}
  else
    ret {| manager := npm; version := None; type := type_npm;
           displayName := "npm (default)" |}.

(** [try { ... } catch (error) { throw error; }] rethrows what it
    caught: it is the body. *)
Definition runNpmAudit (directory : string) : M W JSON :=
  try_catch
    (locked <- probe (existsSync (path_join [directory; "package-lock.json"])) ;;
     (if negb locked then
        console_log CreatingPackageLock ;;
        try_catch
          (_ <- execPromise "npm i --package-lock-only --ignore-scripts" (Some directory) ;;
           ret tt)
          (console_log CouldNotCreatePackageLock)
      else ret tt) ;;
     output <- execPromise "npm audit --json" (Some directory) ;;
     result <- of_option (JSON_parse (fst output)) ;;
     ret result)
    throw.

Definition runYarnAudit (directory : string) (yarnType : YarnVersionType)
  : M W (string * string) :=
  try_catch
    (let auditCommand :=
       match yarnType with
       | Some yarn2plus => "yarn npm audit"
       | _ => "yarn audit"
       end in
     output <- execPromise auditCommand (Some directory) ;;
     ret output)
    throw.

(** ** src/cli.ts *)

Definition displayNpmAuditResults (result : JSON) : M W unit :=
  let '(lines, completes) := displayNpmAuditResults_lines result in
  for_of lines (fun line => console_log (Report line)) ;;
  if completes : bool then ret tt else throw.

Definition displayYarnAuditResults (stdout stderr : string) : M W unit :=
  for_of (Printer.displayYarnAuditResults stdout stderr)
         (fun line => console_log (YarnReport line)).

Definition auditNotCompleted : M W unit :=
  console_log AuditNotCompleted ;;
  console_log AuditNotCompletedHint ;;
  console_log AuditNotCompletedAdvice.

Definition runSecurityAuditForDirectory (directory : string) (pmInfo : PackageManagerInfo)
  : M W unit :=
  match manager pmInfo with
  | yarn =>
      try_catch
        (if JS.falsy_string (version pmInfo) then
           console_log YarnNotFound ;;
           console_log FallingBackToNpm ;;
           result <- runNpmAudit directory ;;
           displayNpmAuditResults result
         else
           result <- runYarnAudit directory (yarn_of_type (type pmInfo)) ;;
           displayYarnAuditResults (fst result) (snd result))
        (workspaceInfo <- getWorkspaceInfo cwd ;;
         if (negb (String.eqb directory cwd) || negb (hasWorkspaces workspaceInfo))%bool then
           console_log YarnAuditFailed ;;
           try_catch
             (result <- runNpmAudit directory ;;
              displayNpmAuditResults result)
             auditNotCompleted
         else
           console_log AuditNotAvailable ;;
           console_log AuditNotAvailableAdvice)
  | npm =>
      try_catch
        (result <- runNpmAudit directory ;;
         displayNpmAuditResults result)
        auditNotCompleted
  end.

(** [pattern.replace('/*', '')] *)
Definition basePath (pattern : string) : string := JS.replace_first "/*" "" pattern.

(** The body of the loop over the entries of a base directory. *)
Definition auditEntry (pmInfo : PackageManagerInfo) (base entry : string) : M W unit :=
  let packagePath := path_join [cwd; base; entry] in
  isDir <- (d <- probe (statSync_isDirectory packagePath) ;; of_option d) ;;
  hasManifest <- (if isDir : bool
                  then probe (existsSync (path_join [packagePath; "package.json"]))
                  else ret false) ;;
  if hasManifest : bool then
    console_log (CheckingWorkspace (path_relative cwd packagePath)) ;;
    runSecurityAuditForDirectory packagePath pmInfo
  else ret tt.

(** The body of the loop over the workspace patterns.  [pattern.replace]
    throws a TypeError on a value that is not a string. *)
Definition auditPattern (pmInfo : PackageManagerInfo) (pattern : JSON) : M W unit :=
  match pattern with
  | JString p =>
      let base := basePath p in
      present <- probe (existsSync (path_join [cwd; base])) ;;
      if present : bool then
        entries <- (es <- probe (readdirSync (path_join [cwd; base])) ;; of_option es) ;;
        for_of entries (auditEntry pmInfo base)
      else ret tt
  | _ => throw
  end.

(** Iterating a value that is not iterable throws a TypeError. *)
Definition runSecurityAudit (pmInfo : PackageManagerInfo) : M W unit :=
  workspaceInfo <- getWorkspaceInfo cwd ;;
  if hasWorkspaces workspaceInfo then
    console_log DetectedWorkspaceProject ;;
    console_log CheckingRootProject ;;
    runSecurityAuditForDirectory cwd pmInfo ;;
    patterns <- of_option (Json.iterate (packages workspaceInfo)) ;;
    for_of patterns (auditPattern pmInfo)
  else
    runSecurityAuditForDirectory cwd pmInfo.

End Program.

(** ** Observations of the walk *)

Section Observations.
Context {W : Type} {host : Host W}.

(** The member directories of one pattern, as world [w] shows them: the
    children of the base directory that are directories holding a
    manifest, in listing order.  [None] when listing the base directory
    or inspecting one of its children throws. *)
Fixpoint keep_members (w : W) (base : string) (entries : list string)
  : option (list string) :=
  match entries with
  | entry :: rest =>
      let packagePath := path_join [cwd; base; entry] in
      match statSync_isDirectory packagePath w, keep_members w base rest with
      | Some isDir, Some members =>
          if (isDir && existsSync (path_join [packagePath; "package.json"]) w)%bool
          then Some (packagePath :: members)
          else Some members
      | _, _ => None
      end
  | [] => Some []
  end.

(** The test the walk applies to an entry of a base directory. *)
Definition is_member (w : W) (base entry : string) : bool :=
  let packagePath := path_join [cwd; base; entry] in
  match statSync_isDirectory packagePath w with
  | Some isDir => (isDir && existsSync (path_join [packagePath; "package.json"]) w)%bool
  | None => false
  end.

Definition member_dirs (w : W) (pattern : string) : option (list string) :=
  let base := basePath pattern in
  if existsSync (path_join [cwd; base]) w then
    match readdirSync (path_join [cwd; base]) w with
    | Some entries => keep_members w base entries
    | None => None
    end
  else Some [].

Fixpoint workspace_dirs (w : W) (patterns : list string) : option (list string) :=
  match patterns with
  | p :: rest =>
      match member_dirs w p, workspace_dirs w rest with
      | Some ds, Some dss => Some (ds ++ dss)%list
      | _, _ => None
      end
  | [] => Some []
  end.

(** The base directory as the specification words it: a trailing [/*]
    is stripped, and a pattern without one is used as it is. *)
Fixpoint strip_trailing_star (pattern : string) : string :=
  match pattern with
  | String c r => if String.eqb pattern "/*" then EmptyString
                  else String c (strip_trailing_star r)
  | EmptyString => EmptyString
  end.

(** Two worlds show the same files on the paths in [P]. *)
Definition same_files (P : string -> Prop) (w1 w2 : W) : Prop :=
  forall p, P p ->
    existsSync p w1 = existsSync p w2 /\
    readdirSync p w1 = readdirSync p w2 /\
    statSync_isDirectory p w1 = statSync_isDirectory p w2.

(** No command changes what the paths in [P] show. *)
Definition commands_keep (P : string -> Prop) : Prop :=
  forall command dir w, same_files P (snd (exec command dir w)) w.

(** The computation [c] changes nothing that the paths in [P] show. *)
Definition keeps_files {A} (P : string -> Prop) (c : M W A) : Prop :=
  forall st, same_files P (world (snd (c st))) (world st).

(** The paths the walk over [patterns] looks at in world [w]: the base
    directories, their entries, and the manifests of the entries. *)
Definition walked (w : W) (patterns : list string) (path : string) : Prop :=
  exists p, In p patterns /\
    (path = path_join [cwd; basePath p] \/
     exists entries entry,
       readdirSync (path_join [cwd; basePath p]) w = Some entries /\
       In entry entries /\
       (path = path_join [cwd; basePath p; entry] \/
        path = path_join [path_join [cwd; basePath p; entry]; "package.json"])).

End Observations.

(** Events appended by a run from [st] to [st1]. *)
Definition appended {W} (st st1 : State W) (events : list Event) : Prop :=
  trace st1 = (trace st ++ events)%list.

Definition is_exec (e : Event) : bool :=
  match e with
  | Exec _ _ => true
  | Log _ => false
  end.

Definition is_audit_command (command : string) : bool :=
  (String.eqb command "npm audit --json" || String.eqb command "yarn audit" ||
   String.eqb command "yarn npm audit")%bool.

(** An audit command, in any directory. *)
Definition is_audit (e : Event) : bool :=
  match e with
  | Exec command _ => is_audit_command command
  | Log _ => false
  end.

(** An audit command run in [directory]. *)
Definition is_audit_in (directory : string) (e : Event) : bool :=
  match e with
  | Exec command (Some d) => (is_audit_command command && String.eqb d directory)%bool
  | _ => false
  end.

Definition is_yarn_audit (e : Event) : bool :=
  match e with
  | Exec command _ => (String.eqb command "yarn audit" || String.eqb command "yarn npm audit")%bool
  | Log _ => false
  end.

(** The audit commands among [events], in order. *)
Definition audits (events : list Event) : list Event := filter is_audit events.

Definition npm_audit_in (directory : string) : Event :=
  Exec "npm audit --json" (Some directory).

(** The lines that tell the user that an audit failed. *)
Definition is_diagnostic (m : Message) : bool :=
  match m with
  | AuditNotCompleted | AuditNotCompletedHint | AuditNotCompletedAdvice
  | AuditNotAvailable | AuditNotAvailableAdvice => true
  | _ => false
  end.

Definition ends_with_diagnostic (events : list Event) : Prop :=
  exists before m, events = (before ++ [Log m])%list /\ is_diagnostic m = true.

Section Parts.
Context {W : Type} {host : Host W}.

(** The parts of [runSecurityAuditForDirectory], named. *)

(** An npm audit and the display of its report. *)
Definition npm_attempt (directory : string) : M W unit :=
  (result <- runNpmAudit directory ;;
   displayNpmAuditResults result)%js.

(** A yarn audit and the display of its output. *)
Definition yarn_attempt (directory : string) (yarnType : YarnVersionType) : M W unit :=
  (result <- runYarnAudit directory yarnType ;;
   displayYarnAuditResults (fst result) (snd result))%js.

(** The [catch] block of the yarn branch. *)
Definition yarn_catch (directory : string) : M W unit :=
  (workspaceInfo <- getWorkspaceInfo cwd ;;
   if (negb (String.eqb directory cwd) || negb (hasWorkspaces workspaceInfo))%bool then
     console_log YarnAuditFailed ;;
     try_catch (npm_attempt directory) auditNotCompleted
   else
     console_log AuditNotAvailable ;;
     console_log AuditNotAvailableAdvice)%js.

(** The command that [runYarnAudit] runs. *)
Definition yarn_command (yarnType : YarnVersionType) : string :=
  match yarnType with
  | Some yarn2plus => "yarn npm audit"
  | _ => "yarn audit"
  end.

(** The step ended with an audit whose report was displayed. *)
Definition audit_displayed (directory : string) (pmInfo : PackageManagerInfo)
           (st1 : State W) : Prop :=
  exists st0,
    npm_attempt directory st0 = (Return tt, st1) \/
    yarn_attempt directory (yarn_of_type (type pmInfo)) st0 = (Return tt, st1).

(** What the walk does for a member directory. *)
Definition auditMember (pmInfo : PackageManagerInfo) (packagePath : string) : M W unit :=
  (console_log (CheckingWorkspace (path_relative cwd packagePath)) ;;
   runSecurityAuditForDirectory packagePath pmInfo)%js.

(** The records that [detectPackageManager] reports. *)
Definition npm_info (name : string) : PackageManagerInfo :=
  {| manager := npm; version := None; type := type_npm; displayName := name |}.

Definition yarn_info (yarnVersion : option string) : PackageManagerInfo :=
  {| manager := yarn;
     version := yarnVersion;
     type := type_of_yarn (getYarnVersionType yarnVersion);
     displayName :=
       match getYarnVersionType yarnVersion with
       | Some yarn2plus => "yarn " ++ JS.template yarnVersion ++ " (2+)"
       | _ => "yarn " ++ JS.template yarnVersion ++ " (1.x)"
       end |}.

End Parts.

(** ** What a computation adds to the trace *)

(** The computation [c] appends to the trace, and only events that
    satisfy [Q]. *)
Definition adds_only {W A} (Q : Event -> Prop) (c : M W A) : Prop :=
  forall st, exists events, appended st (snd (c st)) events /\ Forall Q events.

(** A line, or a command run in [directory]. *)
Definition runs_in (directory : string) (e : Event) : Prop :=
  match e with
  | Exec _ dir => dir = Some directory
  | Log _ => True
  end.

(** The command lines that occur in the source. *)
Definition command_lines : list string :=
  [ "yarn --version";
    "npm i --package-lock-only --ignore-scripts";
    "npm audit --json";
    "yarn audit";
    "yarn npm audit" ].

(** A line, or one of those commands. *)
Definition is_known (e : Event) : Prop :=
  match e with
  | Exec command _ => In command command_lines
  | Log _ => True
  end.

(** The command lines of the audit of a directory. *)
Definition audit_command_lines : list string :=
  [ "npm i --package-lock-only --ignore-scripts";
    "npm audit --json";
    "yarn audit";
    "yarn npm audit" ].

(** A line, or one of those commands run with a working directory. *)
Definition runs_audit_line (e : Event) : Prop :=
  match e with
  | Exec command dir => In command audit_command_lines /\ dir <> None
  | Log _ => True
  end.

(** A line, or a command run in one of [dirs]. *)
Definition runs_in_one_of (dirs : list string) (e : Event) : Prop :=
  match e with
  | Exec _ dir => exists d, In d dirs /\ dir = Some d
  | Log _ => True
  end.

(** How a loop that stopped ends. *)
Definition ends_as {W} (r : Outcome unit) : M W unit :=
  match r with
  | Return _ => ret tt
  | Throw => throw
  end.

(** A line, or a command that is not a yarn command. *)
Definition not_yarn (e : Event) : Prop :=
  match e with
  | Exec command _ => prefix "yarn" command = false
  | Log _ => True
  end.

(** The one-character strings of a string, as a loop over it visits
    them. *)
Fixpoint letters (s : string) : list string :=
  match s with
  | String c r => String c EmptyString :: letters r
  | EmptyString => []
  end.

(** ** The walk, entry by entry *)

Section Walking.
Context {W : Type} {host : Host W}.
Variable pmInfo : PackageManagerInfo.

(** [entries_walk base entries st dirs r]: from [st], the loop over the
    entries of [base] audits the directories [dirs], in this order, and
    ends as [r].  An entry is inspected in the world that the audits
    before it have left: it is audited when it is then a directory with
    a manifest, and passed over when it is not; an entry that cannot be
    inspected ends the loop. *)
Inductive entries_walk (base : string) :
  list string -> State W -> list string -> Outcome unit * State W -> Prop :=
| entries_done st :
    entries_walk base [] st [] (Return tt, st)
| entry_audited entry rest st st1 dirs r :
    is_member (world st) base entry = true ->
    auditMember pmInfo (path_join [cwd; base; entry]) st = (Return tt, st1) ->
    entries_walk base rest st1 dirs r ->
    entries_walk base (entry :: rest) st (path_join [cwd; base; entry] :: dirs) r
| entry_passed entry rest st isDir dirs r :
    statSync_isDirectory (path_join [cwd; base; entry]) (world st) = Some isDir ->
    is_member (world st) base entry = false ->
    entries_walk base rest st dirs r ->
    entries_walk base (entry :: rest) st dirs r
| entry_not_inspected entry rest st :
    statSync_isDirectory (path_join [cwd; base; entry]) (world st) = None ->
    entries_walk base (entry :: rest) st [] (Throw, st).

(** [pattern_walk pattern st dirs r]: the walk of one pattern from [st].
    The base directory is listed once, when the walk reaches the
    pattern; a base directory that does not exist is passed over; a
    pattern that is not a string and a base directory that cannot be
    listed end the walk. *)
Inductive pattern_walk :
  JSON -> State W -> list string -> Outcome unit * State W -> Prop :=
| pattern_missing pattern st :
    existsSync (path_join [cwd; basePath pattern]) (world st) = false ->
    pattern_walk (JString pattern) st [] (Return tt, st)
| pattern_listed pattern st entries dirs r :
    existsSync (path_join [cwd; basePath pattern]) (world st) = true ->
    readdirSync (path_join [cwd; basePath pattern]) (world st) = Some entries ->
    entries_walk (basePath pattern) entries st dirs r ->
    pattern_walk (JString pattern) st dirs r
| pattern_not_listed pattern st :
    existsSync (path_join [cwd; basePath pattern]) (world st) = true ->
    readdirSync (path_join [cwd; basePath pattern]) (world st) = None ->
    pattern_walk (JString pattern) st [] (Throw, st)
| pattern_not_a_string value st :
    (forall pattern, value <> JString pattern) ->
    pattern_walk value st [] (Throw, st).

(** [patterns_walk patterns st dirs r]: the patterns in the order of the
    declaration, each from the state that the one before it left; the
    walk ends where a pattern ends it. *)
Inductive patterns_walk :
  list JSON -> State W -> list string -> Outcome unit * State W -> Prop :=
| patterns_done st :
    patterns_walk [] st [] (Return tt, st)
| pattern_walked pattern rest st dirs st1 more r :
    pattern_walk pattern st dirs (Return tt, st1) ->
    patterns_walk rest st1 more r ->
    patterns_walk (pattern :: rest) st (dirs ++ more)%list r
| pattern_stopped pattern rest st dirs st1 :
    pattern_walk pattern st dirs (Throw, st1) ->
    patterns_walk (pattern :: rest) st dirs (Throw, st1).

(** The directories that the walk audits, computed by running it. *)
Fixpoint audited_entries (base : string) (entries : list string) (st : State W)
  : list string :=
  match entries with
  | entry :: rest =>
      let dir := path_join [cwd; base; entry] in
      match statSync_isDirectory dir (world st) with
      | Some _ =>
          if is_member (world st) base entry
          then dir :: audited_entries base rest (snd (auditMember pmInfo dir st))
          else audited_entries base rest st
      | None => []
      end
  | [] => []
  end.

Definition audited_pattern (pattern : JSON) (st : State W) : list string :=
  match pattern with
  | JString p =>
      if existsSync (path_join [cwd; basePath p]) (world st) then
        match readdirSync (path_join [cwd; basePath p]) (world st) with
        | Some entries => audited_entries (basePath p) entries st
        | None => []
        end
      else []
  | _ => []
  end.

Fixpoint audited_patterns (patterns : list JSON) (st : State W) : list string :=
  match patterns with
  | pattern :: rest =>
      (audited_pattern pattern st ++
       match auditPattern pmInfo pattern st with
       | (Return _, st1) => audited_patterns rest st1
       | (Throw, _) => []
       end)%list
  | [] => []
  end.

End Walking.

(** ** The rest of src/depmanager.ts: errors with a message *)

(** The messages of the errors that reach the commands. *)
Inductive ErrorMessage :=
| NoPackageJsonFound           (* 'No package.json found in the current directory' *)
| ErrorReadingPackageJson      (* 'Error reading package.json: <message of the cause>' *)
| FailedToParsePackageJson (filePath : string)
                               (* 'Failed to parse package.json at <filePath>: <message of the cause>' *)
| OtherError.                  (* an error thrown by the host or by the language *)

(** A computation that returns or throws an error with its message. *)
Inductive Attempt (A : Type) :=
| Ok (a : A)
| Failed (message : ErrorMessage).
Arguments Ok {A}.
Arguments Failed {A}.

Definition E (W A : Type) : Type := State W -> Attempt A * State W.

Definition e_ret {W A} (a : A) : E W A := fun st => (Ok a, st).

Definition e_bind {W A B} (c : E W A) (k : A -> E W B) : E W B :=
  fun st =>
    match c st with
    | (Ok a, st1) => k a st1
    | (Failed message, st1) => (Failed message, st1)
    end.

(** [throw new Error(message)] *)
Definition fail {W A} (message : ErrorMessage) : E W A := fun st => (Failed message, st).

(** [try { body } catch (error) { handler }] *)
Definition e_catch {W A} (body handler : E W A) : E W A :=
  fun st =>
    match body st with
    | (Ok a, st1) => (Ok a, st1)
    | (Failed _, st1) => handler st1
    end.

(** A computation of [M] among those: what it throws is an error of the
    host or of the language. *)
Definition lift {W A} (c : M W A) : E W A :=
  fun st =>
    match c st with
    | (Return a, st1) => (Ok a, st1)
    | (Throw, st1) => (Failed OtherError, st1)
    end.

Declare Scope e_scope.
Delimit Scope e_scope with E.
Notation "x <- c ;; k" := (e_bind c (fun x => k))
  (at level 61, c at next level, right associativity) : e_scope.
Notation "c ;; k" := (e_bind c (fun _ => k))
  (at level 61, right associativity) : e_scope.

(** The result of [getProjectInfo]. *)
Record ProjectInfo := {
  packageManager : PackageManagerInfo;
  workspace : WorkspaceInfo;
  packageJson : JSON
}.

Section Project.
Context {W : Type} {host : Host W}.

Definition checkProjectValidity (projectDir : string) : E W JSON :=
  (let packageJsonPath := path_join [projectDir; "package.json"] in
   present <- lift (probe (existsSync packageJsonPath)) ;;
   if negb present then fail NoPackageJsonFound
   else
     e_catch
       (packageJsonContent <- lift (text <- probe (readFileSync packageJsonPath) ;;
                                    of_option text)%js ;;
        packageJson <- lift (of_option (JSON_parse packageJsonContent)) ;;
        e_ret packageJson)
       (fail ErrorReadingPackageJson))%E.

Definition parsePackageJson (filePath : string) : E W JSON :=
  (e_catch
     (content <- lift (text <- probe (readFileSync filePath) ;; of_option text)%js ;;
      parsed <- lift (of_option (JSON_parse content)) ;;
      e_ret parsed)
     (fail (FailedToParsePackageJson filePath)))%E.

Definition fileExists (filePath : string) : M W bool :=
  try_catch (probe (existsSync filePath)) (ret false).

Definition getProjectInfo (projectDir : string) : E W ProjectInfo :=
  (packageJson <- checkProjectValidity projectDir ;;
   packageManager <- lift (detectPackageManager projectDir) ;;
   workspace <- lift (getWorkspaceInfo projectDir) ;;
   e_ret {| packageManager := packageManager;
            workspace := workspace;
            packageJson := packageJson |})%E.

End Project.

(** ** src/cli.ts: the security command *)

(** The lines of the command itself. *)
Inductive CommandLine :=
| DetectedPackageManager (name : string)  (* console.log 'Detected package manager: <name>' *)
| CheckingForVulnerabilities              (* console.log 'Checking for vulnerabilities...\n' *)
| ErrorRunningSecurityCheck (message : ErrorMessage).
                                          (* console.error 'Error running security check:' <message> *)

(** What happened in a run of the command: the events of the code it
    calls, and its own lines, in order. *)
Inductive CommandEvent :=
| Core (e : Event)
| Said (line : CommandLine).

Record Session (W : Type) := mkSession {
  session_world : W;
  session_trace : list CommandEvent
}.
Arguments mkSession {W}.
Arguments session_world {W}.
Arguments session_trace {W}.

(** How a command ends: it returns, or [process.exit(code)] ends the
    process. *)
Inductive Ending :=
| Finished
| Exited (code : nat).

(** A computation run inside a command: its events follow those of the
    session. *)
Definition run_in {W A} (c : E W A) (s : Session W) : Attempt A * Session W :=
  let '(r, st) := c (mkState (session_world s) []) in
  (r, mkSession (world st) (session_trace s ++ map Core (trace st))).

Definition say {W} (line : CommandLine) (s : Session W) : Session W :=
  mkSession (session_world s) (session_trace s ++ [Said line]).

Section Commands.
Context {W : Type} {host : Host W}.

(** The [catch] block of [securityCommand]. *)
Definition securityCommand_catch (message : ErrorMessage) (s : Session W)
  : Ending * Session W :=
  (Exited 1, say (ErrorRunningSecurityCheck message) s).

Definition securityCommand (s : Session W) : Ending * Session W :=
  match run_in (checkProjectValidity cwd) s with
  | (Failed message, s1) => securityCommand_catch message s1
  | (Ok _, s1) =>
      match run_in (getProjectInfo cwd) s1 with
      | (Failed message, s2) => securityCommand_catch message s2
      | (Ok info, s2) =>
          let pmInfo := packageManager info in
          let s3 := say (DetectedPackageManager (displayName pmInfo)) s2 in
          let s4 := say CheckingForVulnerabilities s3 in
          match run_in (lift (runSecurityAudit pmInfo)) s4 with
          | (Failed message, s5) => securityCommand_catch message s5
          | (Ok _, s5) => (Finished, s5)
          end
      end
  end.

End Commands.

(** ** A small host to run the model on *)

Module Demo.

Inductive Node :=
| File (content : string)
| Dir (entries : list string).

(** The files of the world, and the commands that fail in it. *)
Record World := {
  nodes : list (string * Node);
  failing : list string
}.

Fixpoint find (path : string) (ns : list (string * Node)) : option Node :=
  match ns with
  | (p, n) :: rest => if String.eqb p path then Some n else find path rest
  | [] => None
  end.

Fixpoint mem (s : string) (l : list string) : bool :=
  match l with
  | x :: rest => (String.eqb x s || mem s rest)%bool
  | [] => false
  end.

(** The segments that are not empty, joined by a slash.  The paths of
    the examples are in normal form, where [path.join] does no more than
    this. *)
Fixpoint join (parts : list string) : string :=
  match parts with
  | [] => "."
  | EmptyString :: rest => join rest
  | p :: rest =>
      match join rest with
      | "." => p
      | r => p ++ "/" ++ r
      end
  end.

(** [to] relative to a directory [from] above it. *)
Definition relative (from to : string) : string :=
  if prefix (from ++ "/") to
  then substring (S (String.length from)) (String.length to - S (String.length from)) to
  else to.

Definition quote : string := String (ascii_of_nat 34) EmptyString.

(** The manifest of the workspace root: [{"workspaces":["packages/*"]}]. *)
Definition root_manifest : string :=
  "{" ++ quote ++ "workspaces" ++ quote ++ ":[" ++ quote ++ "packages/*" ++ quote ++ "]}".

(** A manifest with the record form:
    [{"workspaces":{"packages":["packages/*","tools/*"],"nohoist":["**/react-native"]}}]. *)
Definition nohoist_manifest : string :=
  "{" ++ quote ++ "workspaces" ++ quote ++ ":{" ++ quote ++ "packages" ++ quote ++ ":["
      ++ quote ++ "packages/*" ++ quote ++ "," ++ quote ++ "tools/*" ++ quote ++ "],"
      ++ quote ++ "nohoist" ++ quote ++ ":[" ++ quote ++ "**/react-native" ++ quote ++ "]}}".

(** The manifest of a member: [{"name":"a"}]. *)
Definition member_manifest : string :=
  "{" ++ quote ++ "name" ++ quote ++ ":" ++ quote ++ "a" ++ quote ++ "}".

(** An audit report without findings: [{"vulnerabilities":{}}]. *)
Definition clean_report : string :=
  "{" ++ quote ++ "vulnerabilities" ++ quote ++ ":{}}".

(** [JSON.parse] on the texts of this world; the text [invalid json] and
    any other text is rejected. *)
Definition parse (text : string) : option JSON :=
  if String.eqb text root_manifest then
    Some (JObject [("workspaces", JArray [JString "packages/*"])])
  else if String.eqb text nohoist_manifest then
    Some (JObject [("workspaces",
            JObject [("packages", JArray [JString "packages/*"; JString "tools/*"]);
                     ("nohoist", JArray [JString "**/react-native"])])])
  else if String.eqb text member_manifest then
    Some (JObject [("name", JString "a")])
  else if String.eqb text clean_report then
    Some (JObject [("vulnerabilities", JObject [])])
  else None.

(** What a command prints when it succeeds. *)
Definition stdout_of (command : string) : string :=
  if String.eqb command "yarn --version" then "1.22.19" ++ String (ascii_of_nat 10) EmptyString
  else if String.eqb command "npm audit --json" then clean_report
  else if String.eqb command "yarn audit" then
    "0 vulnerabilities found - Packages audited: 2" ++ String (ascii_of_nat 10) EmptyString
  else "".

Definition is_dir (path : string) (w : list (string * Node)) : bool :=
  match find path w with
  | Some (Dir _) => true
  | _ => false
  end.

(** The files [ns] with [name] among the entries of the directory
    [dir]. *)
Fixpoint add_entry (dir name : string) (ns : list (string * Node)) : list (string * Node) :=
  match ns with
  | (p, n) :: rest =>
      if String.eqb p dir then
        match n with
        | Dir entries => (p, Dir (if mem name entries then entries else entries ++ [name])) :: rest
        | File _ => ns
        end
      else (p, n) :: add_entry dir name rest
  | [] => []
  end.

(** A command in [failing] rejects, and so does a command whose working
    directory is not a directory.  [npm i --package-lock-only] writes
    the lock file of its directory, which then lists it; no other
    command touches a file. *)
Definition run (command : string) (dir : option string) (w : World)
  : option (string * string) * World :=
  if mem command (failing w) then (None, w)
  else
    match dir with
    | Some d =>
        if negb (is_dir d (nodes w)) then (None, w)
        else if String.eqb command "npm i --package-lock-only --ignore-scripts"
        then (Some (stdout_of command, ""),
              {| nodes := (join [d; "package-lock.json"], File "{}")
                          :: add_entry d "package-lock.json" (nodes w);
                 failing := failing w |})
        else (Some (stdout_of command, ""), w)
    | None => (Some (stdout_of command, ""), w)
    end.

(** [displayNpmAuditResults] on the reports of this world, the texts
    without their pictograph: a report without findings is one line;
    reading [vulnerabilities] of [null] throws before a line is printed;
    a value without [vulnerabilities] throws after the header, in
    [Object.entries].  No command of this world prints a report with
    findings. *)
Definition report_lines (result : JSON) : list string * bool :=
  match Json.get result "vulnerabilities" with
  | None => ([], false)
  | Some (Some (JObject [])) => (["No vulnerabilities found!"], true)
  | Some _ => (["Vulnerabilities found:"], false)
  end.

#[export] Instance host : Host World := {
  cwd := "/repo";
  path_join := join;
  path_relative := relative;
  existsSync := fun p w => match find p (nodes w) with Some _ => true | None => false end;
  readFileSync := fun p w => match find p (nodes w) with Some (File c) => Some c | _ => None end;
  readdirSync := fun p w => match find p (nodes w) with Some (Dir es) => Some es | _ => None end;
  statSync_isDirectory := fun p w =>
    match find p (nodes w) with
    | Some (Dir _) => Some true
    | Some (File _) => Some false
    | None => None
    end;
  JSON_parse := parse;
  exec := run;
  displayNpmAuditResults_lines := report_lines
}.

(** A yarn workspace: two members under [packages/], and a file beside
    them. *)
Definition workspace_files : list (string * Node) :=
  [ ("/repo", Dir ["package.json"; "packages"; "yarn.lock"]);
    ("/repo/package.json", File root_manifest);
    ("/repo/yarn.lock", File "");
    ("/repo/packages", Dir ["a"; "b"; "README.md"]);
    ("/repo/packages/a", Dir ["package.json"]);
    ("/repo/packages/a/package.json", File member_manifest);
    ("/repo/packages/b", Dir ["package.json"]);
    ("/repo/packages/b/package.json", File member_manifest);
    ("/repo/packages/README.md", File "") ].

Definition workspace_world (failing_commands : list string) : World :=
  {| nodes := workspace_files; failing := failing_commands |}.

(** A project without workspaces, with an npm lock file. *)
Definition plain_world : World :=
  {| nodes := [ ("/repo", Dir ["package.json"; "package-lock.json"]);
                ("/repo/package.json", File member_manifest);
                ("/repo/package-lock.json", File "{}") ];
     failing := [] |}.

(** A project whose manifest is not JSON, and one without a manifest. *)
Definition broken_world : World :=
  {| nodes := [ ("/repo", Dir ["package.json"]);
                ("/repo/package.json", File "invalid json") ];
     failing := ["yarn --version"] |}.

Definition empty_world : World :=
  {| nodes := [ ("/repo", Dir []) ]; failing := [] |}.

Definition nohoist_world : World :=
  {| nodes := [ ("/repo", Dir ["package.json"]);
                ("/repo/package.json", File nohoist_manifest) ];
     failing := [] |}.

Definition start (w : World) : State World := mkState w [].

Definition yarn_1_22 : PackageManagerInfo :=
  {| manager := yarn; version := Some "1.22.19"; type := type_yarn1;
     displayName := "yarn 1.22.19 (1.x)" |}.

Definition yarn_unknown : PackageManagerInfo :=
  {| manager := yarn; version := None; type := type_null;
     displayName := "yarn null (1.x)" |}.

Definition npm_default : PackageManagerInfo :=
  {| manager := npm; version := None; type := type_npm; displayName := "npm (default)" |}.

End Demo.

(** ** More worlds: manifests out of the ordinary *)

Module Cases.
Import Demo.

(** [null] *)
Definition null_manifest : string := "null".

(** [{"workspaces":{"nohoist":[]}}] *)
Definition nohoist_only_manifest : string :=
  "{" ++ quote ++ "workspaces" ++ quote ++ ":{" ++ quote ++ "nohoist" ++ quote ++ ":[]}}".

(** [{"workspaces":{"packages":"ab"}}] *)
Definition string_packages_manifest : string :=
  "{" ++ quote ++ "workspaces" ++ quote ++ ":{" ++ quote ++ "packages" ++ quote ++ ":"
      ++ quote ++ "ab" ++ quote ++ "}}".

(** [{"workspaces":{"packages":{"a":1}}}] *)
Definition object_packages_manifest : string :=
  "{" ++ quote ++ "workspaces" ++ quote ++ ":{" ++ quote ++ "packages" ++ quote ++ ":{"
      ++ quote ++ "a" ++ quote ++ ":1}}}".

(** [{"workspaces":[5,"packages/*"]}] *)
Definition number_pattern_manifest : string :=
  "{" ++ quote ++ "workspaces" ++ quote ++ ":[5," ++ quote ++ "packages/*" ++ quote ++ "]}".

(** [{"workspaces":["README.md","a/*"]}] *)
Definition file_pattern_manifest : string :=
  "{" ++ quote ++ "workspaces" ++ quote ++ ":[" ++ quote ++ "README.md" ++ quote ++ ","
      ++ quote ++ "a/*" ++ quote ++ "]}".

(** [JSON.parse] on these texts and on those of [Demo]. *)
Definition parse (text : string) : option JSON :=
  if String.eqb text null_manifest then Some JNull
  else if String.eqb text nohoist_only_manifest then
    Some (JObject [("workspaces", JObject [("nohoist", JArray [])])])
  else if String.eqb text string_packages_manifest then
    Some (JObject [("workspaces", JObject [("packages", JString "ab")])])
  else if String.eqb text object_packages_manifest then
    Some (JObject [("workspaces",
            JObject [("packages", JObject [("a", JNumber (1 # 1))])])])
  else if String.eqb text number_pattern_manifest then
    Some (JObject [("workspaces", JArray [JNumber (5 # 1); JString "packages/*"])])
  else if String.eqb text file_pattern_manifest then
    Some (JObject [("workspaces", JArray [JString "README.md"; JString "a/*"])])
  else Demo.parse text.

(** The host of [Demo], reading these manifests too. *)
Definition host : Host World := {|
  cwd := "/repo";
  path_join := join;
  path_relative := relative;
  existsSync := existsSync (Host := Demo.host);
  readFileSync := readFileSync (Host := Demo.host);
  readdirSync := readdirSync (Host := Demo.host);
  statSync_isDirectory := statSync_isDirectory (Host := Demo.host);
  JSON_parse := parse;
  exec := run;
  displayNpmAuditResults_lines := report_lines
|}.

(** A project with the manifest [text], a file [README.md], and the
    directories [a] and [b], each with one package in it. *)
Definition project (text : string) : World :=
  {| nodes := [ ("/repo", Dir ["package.json"; "README.md"; "a"; "b"; "yarn.lock"]);
                ("/repo/package.json", File text);
                ("/repo/README.md", File "");
                ("/repo/yarn.lock", File "");
                ("/repo/a", Dir ["x"]);
                ("/repo/a/x", Dir ["package.json"]);
                ("/repo/a/x/package.json", File member_manifest);
                ("/repo/b", Dir ["y"]);
                ("/repo/b/y", Dir ["package.json"]);
                ("/repo/b/y/package.json", File member_manifest) ];
     failing := [] |}.

(** A project whose manifest is a directory. *)
Definition unreadable_world : World :=
  {| nodes := [ ("/repo", Dir ["package.json"]);
                ("/repo/package.json", Dir []) ];
     failing := [] |}.

End Cases.

(** * Properties

    ** Version classification *)

Lemma number_ge_true (x : option Z) (k : Z) :
  JS.number_ge x k = true <-> exists n, x = Some n /\ k <= n.
Proof.
  destruct x as [n|]; simpl.
  - rewrite Z.leb_le. split.
    + intros H. exists n. auto.
    + intros [m [E H]]. inversion E. subst. exact H.
  - split; [discriminate | intros [m [E _]]; discriminate].
Qed.

Lemma number_ge_false (x : option Z) (k : Z) :
  JS.number_ge x k = false <-> forall n, x = Some n -> n < k.
Proof.
  destruct x as [n|]; simpl.
  - rewrite Z.leb_gt. split.
    + intros H m E. inversion E. subst. exact H.
    + intros H. apply H. reflexivity.
  - split; [intros _ m E; discriminate | reflexivity].
Qed.

Lemma getYarnVersionType_nonempty (c : ascii) (s : string) :
  getYarnVersionType (Some (String c s)) =
  if JS.number_ge (JS.parseInt10 (JS.split_dot_head (String c s))) 2
  then Some yarn2plus else Some yarn1.
Proof. reflexivity. Qed.

(** C1, as the code has it.  [getYarnVersionType(v)] is ['yarn2+'] exactly
    when the text of [v] before its first dot parses to an integer that
    is at least 2; it is [null] exactly when [v] is [null], [undefined] or
    the empty string; and it is ['yarn1'] for every other input, that is,
    for every non-empty string whose leading component parses to an
    integer below 2 (a negative one included) or does not parse at
    all. *)
Theorem getYarnVersionType_classification (v : option string) :
  (getYarnVersionType v = Some yarn2plus <->
     exists s n, v = Some s /\ JS.parseInt10 (JS.split_dot_head s) = Some n /\ 2 <= n) /\
  (getYarnVersionType v = None <-> v = None \/ v = Some "") /\
  (getYarnVersionType v = Some yarn1 <->
     exists s, v = Some s /\ s <> "" /\
       forall n, JS.parseInt10 (JS.split_dot_head s) = Some n -> n < 2).
Proof.
  destruct v as [[|c s]|].
  - (* the empty string *)
    split; [|split].
    + split; [discriminate|]. intros [s [n [E [P _]]]]. inversion E. subst. discriminate.
    + split; auto.
    + split; [discriminate|]. intros [s [E [N _]]]. inversion E. subst. contradiction.
  - rewrite getYarnVersionType_nonempty.
    destruct (JS.number_ge _ 2) eqn:G.
    + apply number_ge_true in G. destruct G as [n [P Hn]].
      split; [|split].
      * split; auto. intros _. exists (String c s), n. auto.
      * split; [discriminate|]. intros [E|E]; discriminate.
      * split; [discriminate|]. intros [s' [E [_ H]]]. inversion E. subst s'.
        specialize (H n P). lia.
    + split; [|split].
      * split; [discriminate|]. intros [s' [n [E [P Hn]]]]. inversion E. subst s'.
        rewrite number_ge_false in G. specialize (G n P). lia.
      * split; [discriminate|]. intros [E|E]; discriminate.
      * split; auto. intros _. exists (String c s). split; [reflexivity|]. split; [discriminate|].
        apply number_ge_false. exact G.
  - split; [|split].
    + split; [discriminate|]. intros [s [n [E _]]]. discriminate.
    + split; auto.
    + split; [discriminate|]. intros [s [E _]]. discriminate.
Qed.

(** C1 as stated fails on ["abc"]: the string is not empty, its leading
    component does not parse, and it classifies as ['yarn1'], not as
    [null].  It fails on ["-1.0"] as well: the integer is not in [0,2)
    and the classification is ['yarn1']. *)
Lemma getYarnVersionType_unparsable_is_yarn1 :
  "abc" <> "" /\
  JS.parseInt10 (JS.split_dot_head "abc") = None /\
  getYarnVersionType (Some "abc") = Some yarn1 /\
  getYarnVersionType (Some "abc") <> None /\
  JS.parseInt10 (JS.split_dot_head "-1.0") = Some (-1) /\
  getYarnVersionType (Some "-1.0") = Some yarn1.
Proof. repeat split; try reflexivity; discriminate. Qed.

Example getYarnVersionType_examples :
  getYarnVersionType (Some "2.4.3") = Some yarn2plus /\
  getYarnVersionType (Some "1.22.19") = Some yarn1 /\
  getYarnVersionType (Some "4.0.0") = Some yarn2plus /\
  getYarnVersionType (Some "0.27.5") = Some yarn1 /\
  getYarnVersionType (Some "2.0.0-beta.1") = Some yarn2plus /\
  getYarnVersionType None = None.
Proof. repeat split. Qed.

(** ** Reading the workspace declaration *)

Section Manifest.
Context {W : Type} {host : Host W}.

Ltac run_manifest :=
  unfold getWorkspaceInfo, try_catch, bind, probe, of_option, ret, throw;
  cbn -[path_join].

Lemma getWorkspaceInfo_absent (dir : string) (st : State W) :
  existsSync (path_join [dir; "package.json"]) (world st) = false ->
  getWorkspaceInfo dir st = (Return no_workspaces, st).
Proof. intros Habsent. run_manifest. rewrite Habsent. reflexivity. Qed.

Lemma getWorkspaceInfo_unreadable (dir : string) (st : State W) :
  readFileSync (path_join [dir; "package.json"]) (world st) = None ->
  getWorkspaceInfo dir st = (Return no_workspaces, st).
Proof.
  intros Hread. run_manifest.
  destruct (existsSync _ _); cbn -[path_join]; [rewrite Hread|]; reflexivity.
Qed.

Lemma getWorkspaceInfo_malformed (dir : string) (st : State W) (text : string) :
  readFileSync (path_join [dir; "package.json"]) (world st) = Some text ->
  JSON_parse text = None ->
  getWorkspaceInfo dir st = (Return no_workspaces, st).
Proof.
  intros Hread Hparse. run_manifest.
  destruct (existsSync _ _); cbn -[path_join]; [rewrite Hread; cbn; rewrite Hparse|]; reflexivity.
Qed.

Lemma getWorkspaceInfo_parsed (dir : string) (st : State W) (text : string) (manifest : JSON) :
  existsSync (path_join [dir; "package.json"]) (world st) = true ->
  readFileSync (path_join [dir; "package.json"]) (world st) = Some text ->
  JSON_parse text = Some manifest ->
  getWorkspaceInfo dir st =
  (Return
     match Json.get manifest "workspaces" with
     | Some (Some ws) =>
         if Json.truthy (Some ws) then
           if Json.isArray ws then {| hasWorkspaces := true; packages := ws |}
           else match Json.get ws "packages" with
                | Some (Some ps) =>
                    if Json.truthy (Some ps)
                    then {| hasWorkspaces := true; packages := ps |}
                    else no_workspaces
                | _ => no_workspaces
                end
         else no_workspaces
     | _ => no_workspaces
     end, st).
Proof.
  intros Hex Hread Hparse.
  unfold getWorkspaceInfo, try_catch, bind, probe, of_option, ret, throw.
  rewrite Hex. cbv beta iota delta [negb]. rewrite Hread, Hparse.
  destruct (Json.get manifest "workspaces") as [[ws|]|]; try reflexivity.
  destruct (Json.truthy (Some ws)); try reflexivity.
  destruct (Json.isArray ws); try reflexivity.
  destruct (Json.get ws "packages") as [[ps|]|]; try reflexivity.
  destruct (Json.truthy (Some ps)); reflexivity.
Qed.

(** Reading the workspace declaration never throws and leaves the state
    as it was. *)
Lemma getWorkspaceInfo_returns (dir : string) (st : State W) :
  exists wi, getWorkspaceInfo dir st = (Return wi, st).
Proof.
  destruct (existsSync (path_join [dir; "package.json"]) (world st)) eqn:Hex.
  - destruct (readFileSync (path_join [dir; "package.json"]) (world st)) as [text|] eqn:Hread.
    + destruct (JSON_parse text) as [manifest|] eqn:Hparse.
      * eexists. apply (getWorkspaceInfo_parsed dir st text manifest Hex Hread Hparse).
      * eexists. apply (getWorkspaceInfo_malformed dir st text Hread Hparse).
    + eexists. apply getWorkspaceInfo_unreadable. exact Hread.
  - eexists. apply getWorkspaceInfo_absent. exact Hex.
Qed.

(** C5.  For every directory, [getWorkspaceInfo] returns
    [{hasWorkspaces: false, packages: []}] and does not throw when the
    manifest of the directory is absent or when its text fails to
    parse. *)
Theorem getWorkspaceInfo_absent_or_malformed (dir : string) (st : State W) :
  existsSync (path_join [dir; "package.json"]) (world st) = false \/
  (exists text, readFileSync (path_join [dir; "package.json"]) (world st) = Some text /\
                JSON_parse text = None) ->
  getWorkspaceInfo dir st = (Return no_workspaces, st).
Proof.
  intros [Habsent | [text [Hread Hparse]]].
  - apply getWorkspaceInfo_absent. exact Habsent.
  - apply (getWorkspaceInfo_malformed dir st text Hread Hparse).
Qed.


End Manifest.

(** ** Detection of the package manager *)

Section Detection.
Context {W : Type} {host : Host W}.

Lemma getYarnVersion_run (st : State W) :
  getYarnVersion st =
  (Return match fst (exec "yarn --version" None (world st)) with
          | Some output => Some (JS.trim (fst output))
          | None => None
          end,
   mkState (snd (exec "yarn --version" None (world st)))
           (trace st ++ [Exec "yarn --version" None])).
Proof.
  unfold getYarnVersion, try_catch, bind, execPromise, ret.
  destruct (exec "yarn --version" None (world st)) as [[output|] w]; reflexivity.
Qed.

Lemma detectPackageManager_run (dir : string) (st : State W) :
  detectPackageManager dir st =
  if existsSync (path_join [dir; "yarn.lock"]) (world st) then
    (Return (yarn_info match fst (exec "yarn --version" None (world st)) with
                       | Some output => Some (JS.trim (fst output))
                       | None => None
                       end),
     mkState (snd (exec "yarn --version" None (world st)))
             (trace st ++ [Exec "yarn --version" None]))
  else if existsSync (path_join [dir; "package-lock.json"]) (world st) then
    (Return (npm_info "npm"), st)
  else
    (Return (npm_info "npm (default)"), st).
Proof.
  unfold detectPackageManager, bind, probe.
  destruct (existsSync (path_join [dir; "yarn.lock"]) (world st)).
  - rewrite getYarnVersion_run. reflexivity.
  - destruct (existsSync (path_join [dir; "package-lock.json"]) (world st)); reflexivity.
Qed.

(** C7.  [detectPackageManager] follows a strict priority.  If the yarn
    lock file exists the manager is yarn, whether the npm lock file
    exists or not; otherwise, if the npm lock file exists, the result is
    [{manager: npm, version: null, type: npm, displayName: "npm"}];
    otherwise it is the same record with the name ["npm (default)"]. *)
Theorem detectPackageManager_priority (dir : string) (st : State W) :
  (existsSync (path_join [dir; "yarn.lock"]) (world st) = true ->
     exists pm st1, detectPackageManager dir st = (Return pm, st1) /\ manager pm = yarn) /\
  (existsSync (path_join [dir; "yarn.lock"]) (world st) = false ->
   existsSync (path_join [dir; "package-lock.json"]) (world st) = true ->
     detectPackageManager dir st =
       (Return {| manager := npm; version := None; type := type_npm; displayName := "npm" |},
        st)) /\
  (existsSync (path_join [dir; "yarn.lock"]) (world st) = false ->
   existsSync (path_join [dir; "package-lock.json"]) (world st) = false ->
     detectPackageManager dir st =
       (Return {| manager := npm; version := None; type := type_npm;
                  displayName := "npm (default)" |},
        st)).
Proof.
  rewrite detectPackageManager_run. repeat split.
  - intros Hy. rewrite Hy. eexists. eexists. split; reflexivity.
  - intros Hy Hn. rewrite Hy, Hn. reflexivity.
  - intros Hy Hn. rewrite Hy, Hn. reflexivity.
Qed.

(** C8.  When the yarn lock file exists, the result of
    [detectPackageManager] has manager yarn, the name
    ["yarn <version> (2+)"] when the version classifies as ['yarn2+'] and
    ["yarn <version> (1.x)"] when it classifies as ['yarn1'], where the
    version is the trimmed output of [yarn --version]; when that query
    fails, the manager is still yarn, the version is [null], and the name
    shows the unknown version as ["yarn null (1.x)"]. *)
Theorem detectPackageManager_yarn_display (dir : string) (st : State W) :
  existsSync (path_join [dir; "yarn.lock"]) (world st) = true ->
  exists pm st1,
    detectPackageManager dir st = (Return pm, st1) /\
    manager pm = yarn /\
    (forall v, version pm = Some v -> getYarnVersionType (Some v) = Some yarn2plus ->
               displayName pm = "yarn " ++ v ++ " (2+)") /\
    (forall v, version pm = Some v -> getYarnVersionType (Some v) = Some yarn1 ->
               displayName pm = "yarn " ++ v ++ " (1.x)") /\
    (forall output, fst (exec "yarn --version" None (world st)) = Some output ->
       version pm = Some (JS.trim (fst output))) /\
    (fst (exec "yarn --version" None (world st)) = None ->
       version pm = None /\ type pm = type_null /\ displayName pm = "yarn null (1.x)").
Proof.
  intros Hy. rewrite detectPackageManager_run, Hy.
  eexists. eexists. split; [reflexivity|]. split; [reflexivity|].
  split; [|split; [|split]].
  - intros v Hv Ht. cbn in Hv. cbn. rewrite Hv, Ht. reflexivity.
  - intros v Hv Ht. cbn in Hv. cbn. rewrite Hv, Ht. reflexivity.
  - intros output Hout. rewrite Hout. reflexivity.
  - intros Hfail. rewrite Hfail. cbn. auto.
Qed.

End Detection.

(** ** The audit of one directory *)

Section Audit.
Context {W : Type} {host : Host W}.

Lemma appended_trans (st st1 st2 : State W) (e1 e2 : list Event) :
  appended st st1 e1 -> appended st1 st2 e2 -> appended st st2 (e1 ++ e2)%list.
Proof.
  unfold appended. intros H1 H2. rewrite H2, H1, app_assoc. reflexivity.
Qed.

Lemma audits_app (e1 e2 : list Event) : audits (e1 ++ e2) = (audits e1 ++ audits e2)%list.
Proof. apply filter_app. Qed.

Lemma audits_lines {A} (f : A -> Message) (lines : list A) :
  audits (map (fun line => Log (f line)) lines) = [].
Proof. induction lines; simpl; auto. Qed.

Lemma lines_run {A} (f : A -> Message) (lines : list A) (st : State W) :
  for_of lines (fun line => console_log (f line)) st =
  (Return tt, mkState (world st) (trace st ++ map (fun line => Log (f line)) lines)).
Proof.
  revert st. induction lines as [|line lines IH]; intros st; simpl.
  - destruct st. unfold ret. simpl. rewrite app_nil_r. reflexivity.
  - unfold bind, console_log, emit. rewrite IH. simpl. rewrite <- app_assoc. reflexivity.
Qed.

Lemma audits_reports (lines : list string) :
  audits (map (fun line => Log (Report line)) lines) = [].
Proof. apply (audits_lines Report). Qed.

Lemma report_lines_run (lines : list string) (st : State W) :
  for_of lines (fun line => console_log (Report line)) st =
  (Return tt, mkState (world st) (trace st ++ map (fun line => Log (Report line)) lines)).
Proof. apply (lines_run Report). Qed.

Lemma displayNpmAuditResults_run (result : JSON) (st : State W) :
  displayNpmAuditResults result st =
  (if snd (displayNpmAuditResults_lines result) then Return tt else Throw,
   mkState (world st)
           (trace st ++ map (fun line => Log (Report line))
                            (fst (displayNpmAuditResults_lines result)))).
Proof.
  unfold displayNpmAuditResults.
  destruct (displayNpmAuditResults_lines result) as [lines completes].
  unfold bind. rewrite report_lines_run. destruct completes; reflexivity.
Qed.

(** An npm audit runs the audit command once, in its directory, after a
    prelude that runs no audit. *)
Lemma runNpmAudit_spec (dir : string) (st : State W) :
  exists r st1 prelude,
    runNpmAudit dir st = (r, st1) /\
    appended st st1 (prelude ++ [npm_audit_in dir]) /\
    audits prelude = [].
Proof.
  unfold runNpmAudit, try_catch, bind, probe, console_log, emit, execPromise, of_option, ret, throw.
  destruct (existsSync (path_join [dir; "package-lock.json"]) (world st)); cbn -[path_join].
  - destruct (exec "npm audit --json" (Some dir) (world st)) as [[out|] w2]; cbn.
    + destruct (JSON_parse (fst out)); cbn; eexists; eexists; exists []; repeat split.
    + eexists; eexists; exists []; repeat split.
  - destruct (exec "npm i --package-lock-only --ignore-scripts" (Some dir) (world st))
      as [[o|] w1]; cbn;
    destruct (exec "npm audit --json" (Some dir) w1) as [[out|] w2]; cbn;
    try destruct (JSON_parse (fst out)); cbn;
    eexists; eexists;
    first
      [ exists [Log CreatingPackageLock;
                Exec "npm i --package-lock-only --ignore-scripts" (Some dir)];
        split; [reflexivity|]; split; [|reflexivity];
        unfold appended; cbn; repeat rewrite <- app_assoc; reflexivity
      | exists [Log CreatingPackageLock;
                Exec "npm i --package-lock-only --ignore-scripts" (Some dir);
                Log CouldNotCreatePackageLock];
        split; [reflexivity|]; split; [|reflexivity];
        unfold appended; cbn; repeat rewrite <- app_assoc; reflexivity ].
Qed.

Lemma npm_attempt_spec (dir : string) (st : State W) :
  exists r st1 events,
    npm_attempt dir st = (r, st1) /\
    appended st st1 events /\
    audits events = [npm_audit_in dir].
Proof.
  destruct (runNpmAudit_spec dir st) as [r [st1 [prelude [Hrun [Happ Hpre]]]]].
  unfold npm_attempt, bind. rewrite Hrun.
  destruct r as [result|].
  - rewrite displayNpmAuditResults_run.
    eexists. eexists. eexists. split; [reflexivity|]. split.
    + eapply appended_trans; [exact Happ|]. unfold appended. cbn. reflexivity.
    + rewrite !audits_app, Hpre, audits_reports. reflexivity.
  - eexists. eexists. exists (prelude ++ [npm_audit_in dir])%list.
    split; [reflexivity|]. split; [exact Happ|].
    rewrite audits_app, Hpre. reflexivity.
Qed.

Lemma runYarnAudit_run (dir : string) (ty : YarnVersionType) (st : State W) :
  runYarnAudit dir ty st =
  (match fst (exec (yarn_command ty) (Some dir) (world st)) with
   | Some output => Return output
   | None => Throw
   end,
   mkState (snd (exec (yarn_command ty) (Some dir) (world st)))
           (trace st ++ [Exec (yarn_command ty) (Some dir)])).
Proof.
  unfold runYarnAudit, try_catch, bind, execPromise, ret, throw.
  fold (yarn_command ty).
  destruct (exec (yarn_command ty) (Some dir) (world st)) as [[out|] w]; reflexivity.
Qed.

Lemma yarn_command_is_audit (ty : YarnVersionType) :
  is_audit_command (yarn_command ty) = true.
Proof. destruct ty as [[|]|]; reflexivity. Qed.

Lemma yarn_attempt_spec (dir : string) (ty : YarnVersionType) (st : State W) :
  exists r st1 events,
    yarn_attempt dir ty st = (r, st1) /\
    appended st st1 events /\
    audits events = [Exec (yarn_command ty) (Some dir)] /\
    (r = Throw -> runYarnAudit dir ty st = (Throw, st1)).
Proof.
  unfold yarn_attempt, bind. rewrite runYarnAudit_run.
  destruct (exec (yarn_command ty) (Some dir) (world st)) as [[out|] w]; cbn.
  - unfold displayYarnAuditResults. rewrite (lines_run YarnReport). cbn.
    eexists. eexists. eexists. split; [reflexivity|]. split; [|split].
    + unfold appended. rewrite <- app_assoc. reflexivity.
    + rewrite audits_app, (audits_lines YarnReport). cbn.
      rewrite yarn_command_is_audit. reflexivity.
    + discriminate.
  - eexists. eexists. eexists. split; [reflexivity|]. split; [|split].
    + unfold appended. reflexivity.
    + cbn. rewrite yarn_command_is_audit. reflexivity.
    + reflexivity.
Qed.

Lemma auditNotCompleted_run (st : State W) :
  auditNotCompleted st =
  (Return tt,
   mkState (world st)
           (trace st ++ [Log AuditNotCompleted; Log AuditNotCompletedHint;
                         Log AuditNotCompletedAdvice])).
Proof.
  unfold auditNotCompleted, bind, console_log, emit. cbn.
  repeat rewrite <- app_assoc. reflexivity.
Qed.

(** An npm audit whose failure is reported: it returns, runs the npm
    audit once, and ends with the report displayed or a diagnostic. *)
Lemma guarded_npm_attempt_spec (dir : string) (pm : PackageManagerInfo) (st : State W) :
  exists st1 events,
    try_catch (npm_attempt dir) auditNotCompleted st = (Return tt, st1) /\
    appended st st1 events /\
    audits events = [npm_audit_in dir] /\
    (audit_displayed dir pm st1 \/ ends_with_diagnostic events).
Proof.
  destruct (npm_attempt_spec dir st) as [r [st1 [events [Hrun [Happ Haud]]]]].
  unfold try_catch. rewrite Hrun. destruct r as [[]|].
  - exists st1, events. repeat split; auto. left. exists st. left. exact Hrun.
  - rewrite auditNotCompleted_run. eexists. eexists. split; [reflexivity|].
    split; [|split].
    + eapply appended_trans; [exact Happ|]. unfold appended. cbn. reflexivity.
    + rewrite audits_app, Haud. reflexivity.
    + right. exists (events ++ [Log AuditNotCompleted; Log AuditNotCompletedHint])%list.
      exists AuditNotCompletedAdvice. split; [|reflexivity].
      rewrite <- app_assoc. reflexivity.
Qed.

(** The [catch] block of the yarn branch. *)
Lemma yarn_catch_spec (dir : string) (pm : PackageManagerInfo) (st : State W) :
  exists wi st1 events,
    getWorkspaceInfo cwd st = (Return wi, st) /\
    yarn_catch dir st = (Return tt, st1) /\
    appended st st1 events /\
    (audit_displayed dir pm st1 \/ ends_with_diagnostic events) /\
    (dir <> cwd \/ hasWorkspaces wi = false -> audits events = [npm_audit_in dir]) /\
    (dir = cwd /\ hasWorkspaces wi = true -> filter is_exec events = []).
Proof.
  destruct (getWorkspaceInfo_returns cwd st) as [wi Hwi].
  exists wi. unfold yarn_catch, bind. rewrite Hwi.
  destruct (String.eqb_spec dir cwd) as [Heq|Hneq]; cbn -[cwd];
    [destruct (hasWorkspaces wi) eqn:Hws; cbn -[cwd]|].
  - (* the workspace root *)
    eexists. eexists. split; [reflexivity|]. split; [reflexivity|].
    split; [unfold appended; cbn; rewrite <- app_assoc; reflexivity|].
    split; [|split].
    + right. exists [Log AuditNotAvailable], AuditNotAvailableAdvice. split; reflexivity.
    + intros [H|H]; [contradiction|discriminate].
    + reflexivity.
  - destruct (guarded_npm_attempt_spec dir pm
                (mkState (world st) (trace st ++ [Log YarnAuditFailed])))
      as [st1 [events [Hrun [Happ [Haud Hend]]]]].
    unfold console_log, emit. cbn -[cwd]. rewrite Hrun.
    exists st1, (Log YarnAuditFailed :: events). split; [reflexivity|]. split; [reflexivity|].
    split; [|split; [|split]].
    + unfold appended in *. cbn in Happ. rewrite Happ, <- app_assoc. reflexivity.
    + destruct Hend as [H|[before [m [E D]]]]; [left; exact H|right].
      exists (Log YarnAuditFailed :: before), m. rewrite E. split; [reflexivity|exact D].
    + intros _. cbn. exact Haud.
    + intros [_ H]. discriminate.
  - destruct (guarded_npm_attempt_spec dir pm
                (mkState (world st) (trace st ++ [Log YarnAuditFailed])))
      as [st1 [events [Hrun [Happ [Haud Hend]]]]].
    unfold console_log, emit. cbn -[cwd]. rewrite Hrun.
    exists st1, (Log YarnAuditFailed :: events). split; [reflexivity|]. split; [reflexivity|].
    split; [|split; [|split]].
    + unfold appended in *. cbn in Happ. rewrite Happ, <- app_assoc. reflexivity.
    + destruct Hend as [H|[before [m [E D]]]]; [left; exact H|right].
      exists (Log YarnAuditFailed :: before), m. rewrite E. split; [reflexivity|exact D].
    + intros _. cbn. exact Haud.
    + intros [H _]. contradiction.
Qed.

End Audit.

Section Step.
Context {W : Type} {host : Host W}.

Lemma runSecurityAuditForDirectory_parts (dir : string) (pm : PackageManagerInfo) :
  runSecurityAuditForDirectory dir pm =
  match manager pm with
  | yarn =>
      try_catch
        (if JS.falsy_string (version pm)
         then console_log YarnNotFound ;; console_log FallingBackToNpm ;; npm_attempt dir
         else yarn_attempt dir (yarn_of_type (type pm)))
        (yarn_catch dir)
  | npm => try_catch (npm_attempt dir) auditNotCompleted
  end.
Proof. reflexivity. Qed.

Lemma ends_with_diagnostic_app (before events : list Event) :
  ends_with_diagnostic events -> ends_with_diagnostic (before ++ events).
Proof.
  intros [b [m [E D]]]. exists (before ++ b)%list, m. split; [|exact D].
  rewrite E, app_assoc. reflexivity.
Qed.

Lemma is_audit_in_npm (dir : string) : is_audit_in dir (npm_audit_in dir) = true.
Proof. cbn. apply String.eqb_refl. Qed.

Lemma is_audit_in_yarn (dir : string) (ty : YarnVersionType) :
  is_audit_in dir (Exec (yarn_command ty) (Some dir)) = true.
Proof. cbn. rewrite yarn_command_is_audit, String.eqb_refl. reflexivity. Qed.

Lemma audits_In (e : Event) (events : list Event) : In e (audits events) -> In e events.
Proof. unfold audits. intros H. apply filter_In in H. tauto. Qed.

Lemma yarn_audits_of_audits (events : list Event) :
  filter is_yarn_audit events = filter is_yarn_audit (audits events).
Proof.
  induction events as [|e events IH]; cbn; [reflexivity|].
  destruct e as [command dir|m]; cbn; [|exact IH].
  unfold is_audit_command.
  destruct (String.eqb command "yarn audit") eqn:E1;
    destruct (String.eqb command "yarn npm audit") eqn:E2;
    destruct (String.eqb command "npm audit --json") eqn:E3;
    cbn; rewrite ?E1, ?E2; cbn; rewrite IH; reflexivity.
Qed.

(** The first part of the yarn branch when the version is not known. *)
Lemma direct_npm_spec (dir : string) (st : State W) :
  exists r st1 events,
    (console_log YarnNotFound ;; console_log FallingBackToNpm ;; npm_attempt dir) st = (r, st1) /\
    appended st st1 (Log YarnNotFound :: Log FallingBackToNpm :: events) /\
    audits events = [npm_audit_in dir] /\
    (r = Return tt -> exists st0, npm_attempt dir st0 = (Return tt, st1)).
Proof.
  unfold bind at 1 2. unfold console_log, emit. cbn.
  destruct (npm_attempt_spec dir
              (mkState (world st) ((trace st ++ [Log YarnNotFound]) ++ [Log FallingBackToNpm])))
    as [r [st1 [events [Hrun [Happ Haud]]]]].
  rewrite Hrun. exists r, st1, events. split; [reflexivity|]. split; [|split].
  - unfold appended in *. cbn in Happ. rewrite Happ. repeat rewrite <- app_assoc. reflexivity.
  - exact Haud.
  - intros ->. eexists. exact Hrun.
Qed.

(** The step as a whole: it returns, it runs an audit command in its
    directory first, and it ends with a displayed report or a
    diagnostic. *)
Lemma runSecurityAuditForDirectory_spec (dir : string) (pm : PackageManagerInfo) (st : State W) :
  exists st1 events e rest,
    runSecurityAuditForDirectory dir pm st = (Return tt, st1) /\
    appended st st1 events /\
    audits events = e :: rest /\ is_audit_in dir e = true /\
    (audit_displayed dir pm st1 \/ ends_with_diagnostic events).
Proof.
  rewrite runSecurityAuditForDirectory_parts.
  destruct (manager pm).
  - (* npm *)
    destruct (guarded_npm_attempt_spec dir pm st) as [st1 [events [Hrun [Happ [Haud Hend]]]]].
    exists st1, events, (npm_audit_in dir), []. repeat split; auto using is_audit_in_npm.
  - (* yarn *)
    unfold try_catch.
    destruct (JS.falsy_string (version pm)).
    + destruct (direct_npm_spec dir st) as [r [st1 [events [Hrun [Happ [Haud Hok]]]]]].
      rewrite Hrun. destruct r as [[]|].
      * eexists. eexists. exists (npm_audit_in dir), []. split; [reflexivity|].
        split; [exact Happ|]. split; [exact Haud|]. split; [apply is_audit_in_npm|].
        left. destruct (Hok eq_refl) as [st0 H0]. exists st0. left. exact H0.
      * destruct (yarn_catch_spec dir pm st1)
          as [wi [st2 [events2 [_ [Hrun2 [Happ2 [Hend2 _]]]]]]].
        rewrite Hrun2. eexists. eexists. exists (npm_audit_in dir), (audits events2).
        split; [reflexivity|]. split; [eapply appended_trans; eassumption|].
        split; [|split; [apply is_audit_in_npm|]].
        -- change (Log YarnNotFound :: Log FallingBackToNpm :: events)
             with ([Log YarnNotFound; Log FallingBackToNpm] ++ events)%list.
           rewrite !audits_app, Haud. reflexivity.
        -- destruct Hend2 as [H|H]; [left; exact H|right].
           apply ends_with_diagnostic_app. exact H.
    + destruct (yarn_attempt_spec dir (yarn_of_type (type pm)) st)
        as [r [st1 [events [Hrun [Happ [Haud _]]]]]].
      rewrite Hrun. destruct r as [[]|].
      * eexists. eexists. eexists. exists []. split; [reflexivity|].
        split; [exact Happ|]. split; [exact Haud|]. split; [apply is_audit_in_yarn|].
        left. exists st. right. exact Hrun.
      * destruct (yarn_catch_spec dir pm st1)
          as [wi [st2 [events2 [_ [Hrun2 [Happ2 [Hend2 _]]]]]]].
        rewrite Hrun2. eexists. eexists. eexists. exists (audits events2).
        split; [reflexivity|]. split; [eapply appended_trans; eassumption|].
        split; [|split; [apply is_audit_in_yarn|]].
        -- rewrite audits_app, Haud. reflexivity.
        -- destruct Hend2 as [H|H]; [left; exact H|right].
           apply ends_with_diagnostic_app. exact H.
Qed.

(** C3.  For every directory audited with yarn: when the yarn audit of
    the directory fails, the commands run after the failure contain
    exactly one audit, the npm audit of that same directory, unless the
    directory is the workspace root of a project that has workspaces, in
    which case no command at all is run after the failure. *)
Theorem yarn_failure_falls_back_to_npm
        (dir : string) (pm : PackageManagerInfo) (st st1 : State W) :
  manager pm = yarn ->
  JS.falsy_string (version pm) = false ->
  runYarnAudit dir (yarn_of_type (type pm)) st = (Throw, st1) ->
  exists wi st2 events,
    getWorkspaceInfo cwd st1 = (Return wi, st1) /\
    runSecurityAuditForDirectory dir pm st = (Return tt, st2) /\
    appended st1 st2 events /\
    (dir <> cwd \/ hasWorkspaces wi = false -> audits events = [npm_audit_in dir]) /\
    (dir = cwd /\ hasWorkspaces wi = true -> filter is_exec events = []).
Proof.
  intros Hm Hv Hfail.
  rewrite runSecurityAuditForDirectory_parts, Hm, Hv.
  unfold try_catch, yarn_attempt, bind. rewrite Hfail.
  destruct (yarn_catch_spec dir pm st1)
    as [wi [st2 [events [Hwi [Hrun [Happ [_ [Hfb Hroot]]]]]]]].
  exists wi, st2, events. auto.
Qed.

(** C10.  For every directory audited with a [PackageManagerInfo] whose
    manager is yarn and whose version is absent, the step runs no yarn
    audit: after the two lines that announce it, the first audit it runs
    is the npm audit of the directory, and every audit it runs is that
    one.  Nothing is assumed of the directory, so this holds at the
    workspace root of a project with workspaces as well. *)
Theorem yarn_without_version_uses_npm
        (dir : string) (pm : PackageManagerInfo) (st : State W) :
  manager pm = yarn ->
  JS.falsy_string (version pm) = true ->
  exists st1 events rest,
    runSecurityAuditForDirectory dir pm st = (Return tt, st1) /\
    appended st st1 (Log YarnNotFound :: Log FallingBackToNpm :: events) /\
    audits events = npm_audit_in dir :: rest /\
    Forall (eq (npm_audit_in dir)) rest /\
    filter is_yarn_audit events = [].
Proof.
  intros Hm Hv.
  rewrite runSecurityAuditForDirectory_parts, Hm, Hv.
  unfold try_catch.
  destruct (direct_npm_spec dir st) as [r [st1 [events [Hrun [Happ [Haud _]]]]]].
  rewrite Hrun. destruct r as [[]|].
  - exists st1, events, []. repeat split; auto.
    rewrite yarn_audits_of_audits, Haud. reflexivity.
  - destruct (yarn_catch_spec dir pm st1)
      as [wi [st2 [events2 [_ [Hrun2 [Happ2 [_ [Hfb Hroot]]]]]]]].
    rewrite Hrun2. exists st2, (events ++ events2)%list.
    assert (Hcases : audits events2 = [npm_audit_in dir] \/ audits events2 = []).
    { destruct (String.eqb_spec dir cwd) as [E|N]; [|left; apply Hfb; left; exact N].
      destruct (hasWorkspaces wi) eqn:Hws; [|left; apply Hfb; right; reflexivity].
      right. specialize (Hroot (conj E eq_refl)).
      unfold audits. clear - Hroot.
      induction events2 as [|e l IH]; [reflexivity|].
      destruct e; cbn in *; [discriminate|]. apply IH. exact Hroot. }
    exists (audits events2). split; [reflexivity|]. split; [|split; [|split]].
    + change (Log YarnNotFound :: Log FallingBackToNpm :: events ++ events2)%list
        with ((Log YarnNotFound :: Log FallingBackToNpm :: events) ++ events2)%list.
      eapply appended_trans; eassumption.
    + rewrite audits_app, Haud. reflexivity.
    + destruct Hcases as [H|H]; rewrite H; repeat constructor.
    + rewrite yarn_audits_of_audits, audits_app, Haud.
      destruct Hcases as [H|H]; rewrite H; reflexivity.
Qed.

(** The step returns, having run an audit command in its directory. *)
Lemma step_returns (pm : PackageManagerInfo) (dir : string) (st : State W) :
  exists st1 events,
    runSecurityAuditForDirectory dir pm st = (Return tt, st1) /\
    appended st st1 events /\
    (exists e, In e events /\ is_audit_in dir e = true) /\
    (audit_displayed dir pm st1 \/ ends_with_diagnostic events).
Proof.
  destruct (runSecurityAuditForDirectory_spec dir pm st)
    as [st1 [events [e [rest [Hrun [Happ [Haud [He Hend]]]]]]]].
  exists st1, events. repeat split; auto.
  exists e. split; [|exact He]. apply audits_In. rewrite Haud. left. reflexivity.
Qed.

(** Steps run one after the other all return, each with its audit. *)
Lemma steps_return (pm : PackageManagerInfo) (targets : list string) (st : State W) :
  exists st1 segments,
    for_of targets (fun target => runSecurityAuditForDirectory target pm) st
      = (Return tt, st1) /\
    appended st st1 (concat segments) /\
    Forall2 (fun target segment => exists e, In e segment /\ is_audit_in target e = true)
            targets segments.
Proof.
  revert st. induction targets as [|target targets IH]; intros st.
  - exists st, []. split; [reflexivity|]. split; [|constructor].
    unfold appended. cbn. rewrite app_nil_r. reflexivity.
  - destruct (step_returns pm target st) as [st1 [events [Hrun [Happ [Hin _]]]]].
    destruct (IH st1) as [st2 [segments [Hrun2 [Happ2 Hall]]]].
    exists st2, (events :: segments). cbn. unfold bind. rewrite Hrun.
    split; [exact Hrun2|]. split; [eapply appended_trans; eassumption|].
    constructor; assumption.
Qed.

(** The same for the members of a workspace, each announced by its
    line. *)
Lemma members_return (pm : PackageManagerInfo) (members : list string) (st : State W) :
  exists st1 segments,
    for_of members (auditMember pm) st = (Return tt, st1) /\
    appended st st1 (concat segments) /\
    Forall2 (fun target segment => exists e, In e segment /\ is_audit_in target e = true)
            members segments.
Proof.
  revert st. induction members as [|member members IH]; intros st.
  - exists st, []. split; [reflexivity|]. split; [|constructor].
    unfold appended. cbn. rewrite app_nil_r. reflexivity.
  - destruct (step_returns pm member
                (mkState (world st)
                         (trace st ++ [Log (CheckingWorkspace (path_relative cwd member))])))
      as [st1 [events [Hrun [Happ [[e [Hin He]] _]]]]].
    destruct (IH st1) as [st2 [segments [Hrun2 [Happ2 Hall]]]].
    exists st2, ((Log (CheckingWorkspace (path_relative cwd member)) :: events) :: segments).
    cbn [for_of]. unfold bind at 1. unfold auditMember at 1.
    unfold bind at 1. unfold console_log at 1, emit. rewrite Hrun.
    split; [exact Hrun2|]. split.
    + unfold appended in *. cbn [trace] in Happ. cbn [concat].
      rewrite Happ2, Happ, <- !app_assoc. reflexivity.
    + constructor; [|exact Hall]. exists e. split; [right; exact Hin | exact He].
Qed.

End Step.

(** ** The walk over the workspace *)

Section Files.
Context {W : Type} {host : Host W}.
Variable P : string -> Prop.

Lemma same_files_refl (w : W) : same_files P w w.
Proof. intros p _. auto. Qed.

Lemma same_files_trans (w1 w2 w3 : W) :
  same_files P w1 w2 -> same_files P w2 w3 -> same_files P w1 w3.
Proof.
  intros H12 H23 p Hp.
  destruct (H12 p Hp) as [E1 [E2 E3]]. destruct (H23 p Hp) as [F1 [F2 F3]].
  rewrite E1, E2, E3. auto.
Qed.

Lemma keeps_ret {A} (a : A) : keeps_files P (ret a : M W A).
Proof. intros st. apply same_files_refl. Qed.

Lemma keeps_throw {A} : keeps_files P (throw : M W A).
Proof. intros st. apply same_files_refl. Qed.

Lemma keeps_probe {A} (f : W -> A) : keeps_files P (probe f).
Proof. intros st. apply same_files_refl. Qed.

Lemma keeps_of_option {A} (v : option A) : keeps_files P (of_option v : M W A).
Proof. destruct v; [apply keeps_ret | apply keeps_throw]. Qed.

Lemma keeps_console_log (m : Message) : keeps_files P (console_log m : M W unit).
Proof. intros st. apply same_files_refl. Qed.

Lemma keeps_bind {A B} (c : M W A) (k : A -> M W B) :
  keeps_files P c -> (forall a, keeps_files P (k a)) -> keeps_files P (bind c k).
Proof.
  intros Hc Hk st. unfold bind. specialize (Hc st).
  destruct (c st) as [[a|] st1]; cbn in *; [|exact Hc].
  eapply same_files_trans; [apply Hk | exact Hc].
Qed.

Lemma keeps_try_catch {A} (body handler : M W A) :
  keeps_files P body -> keeps_files P handler -> keeps_files P (try_catch body handler).
Proof.
  intros Hb Hh st. unfold try_catch. specialize (Hb st).
  destruct (body st) as [[a|] st1]; cbn in *; [exact Hb|].
  eapply same_files_trans; [apply Hh | exact Hb].
Qed.

Lemma keeps_for_of {A} (xs : list A) (body : A -> M W unit) :
  (forall x, keeps_files P (body x)) -> keeps_files P (for_of xs body).
Proof.
  intros Hb. induction xs as [|x xs IH]; cbn.
  - apply keeps_ret.
  - apply keeps_bind; auto.
Qed.

Lemma keeps_getWorkspaceInfo (dir : string) : keeps_files P (getWorkspaceInfo dir).
Proof.
  intros st. destruct (getWorkspaceInfo_returns dir st) as [wi H]. rewrite H.
  apply same_files_refl.
Qed.

Hypothesis commands : commands_keep P.

Lemma keeps_execPromise (command : string) (dir : option string) :
  keeps_files P (execPromise command dir).
Proof.
  intros st. unfold execPromise. specialize (commands command dir (world st)).
  destruct (exec command dir (world st)) as [[out|] w]; exact commands.
Qed.

Lemma keeps_runNpmAudit (dir : string) : keeps_files P (runNpmAudit dir).
Proof.
  unfold runNpmAudit.
  apply keeps_try_catch; [|apply keeps_throw].
  apply keeps_bind; [apply keeps_probe|]. intros locked.
  apply keeps_bind.
  - destruct (negb locked); [|apply keeps_ret].
    apply keeps_bind; [apply keeps_console_log|]. intros _.
    apply keeps_try_catch; [|apply keeps_console_log].
    apply keeps_bind; [apply keeps_execPromise|]. intros _. apply keeps_ret.
  - intros _. apply keeps_bind; [apply keeps_execPromise|]. intros output.
    apply keeps_bind; [apply keeps_of_option|]. intros result. apply keeps_ret.
Qed.

Lemma keeps_displayNpmAuditResults (result : JSON) :
  keeps_files P (displayNpmAuditResults result).
Proof.
  intros st. rewrite displayNpmAuditResults_run. apply same_files_refl.
Qed.

Lemma keeps_npm_attempt (dir : string) : keeps_files P (npm_attempt dir).
Proof.
  apply keeps_bind; [apply keeps_runNpmAudit|]. intros result.
  apply keeps_displayNpmAuditResults.
Qed.

Lemma keeps_auditNotCompleted : keeps_files P (auditNotCompleted : M W unit).
Proof. intros st. rewrite auditNotCompleted_run. apply same_files_refl. Qed.

Lemma keeps_yarn_attempt (dir : string) (ty : YarnVersionType) :
  keeps_files P (yarn_attempt dir ty).
Proof.
  apply keeps_bind.
  - apply keeps_try_catch; [|apply keeps_throw].
    apply keeps_bind; [apply keeps_execPromise|]. intros output. apply keeps_ret.
  - intros result. intros st. unfold displayYarnAuditResults.
    rewrite (lines_run YarnReport). apply same_files_refl.
Qed.

Lemma keeps_yarn_catch (dir : string) : keeps_files P (yarn_catch dir).
Proof.
  apply keeps_bind; [apply keeps_getWorkspaceInfo|]. intros wi.
  destruct (negb (String.eqb dir cwd) || negb (hasWorkspaces wi))%bool.
  - apply keeps_bind; [apply keeps_console_log|]. intros _.
    apply keeps_try_catch; [apply keeps_npm_attempt | apply keeps_auditNotCompleted].
  - apply keeps_bind; [apply keeps_console_log|]. intros _. apply keeps_console_log.
Qed.

(** The per-directory step changes no file that the commands keep. *)
Lemma keeps_runSecurityAuditForDirectory (dir : string) (pm : PackageManagerInfo) :
  keeps_files P (runSecurityAuditForDirectory dir pm).
Proof.
  rewrite runSecurityAuditForDirectory_parts. destruct (manager pm).
  - apply keeps_try_catch; [apply keeps_npm_attempt | apply keeps_auditNotCompleted].
  - apply keeps_try_catch; [|apply keeps_yarn_catch].
    destruct (JS.falsy_string (version pm)); [|apply keeps_yarn_attempt].
    apply keeps_bind; [apply keeps_console_log|]. intros _.
    apply keeps_bind; [apply keeps_console_log|]. intros _.
    apply keeps_npm_attempt.
Qed.

End Files.

Section Walk.
Context {W : Type} {host : Host W}.
Variable P : string -> Prop.
Variable pm : PackageManagerInfo.
Hypothesis commands : commands_keep P.

Lemma keeps_auditMember (dir : string) : keeps_files P (auditMember pm dir).
Proof.
  apply keeps_bind; [apply keeps_console_log|]. intros _.
  apply keeps_runSecurityAuditForDirectory. exact commands.
Qed.

Lemma for_of_app {A} (xs ys : list A) (body : A -> M W unit) (st : State W) :
  for_of (xs ++ ys) body st = (for_of xs body ;; for_of ys body) st.
Proof.
  revert st. induction xs as [|x xs IH]; intros st; cbn.
  - reflexivity.
  - unfold bind. destruct (body x st) as [[[]|] st1]; [|reflexivity].
    rewrite IH. reflexivity.
Qed.

Variable w0 : W.

Lemma for_of_cons {A} (x : A) (xs : list A) (body : A -> M W unit) (st : State W) :
  for_of (x :: xs) body st =
  match body x st with
  | (Return _, st1) => for_of xs body st1
  | (Throw, st1) => (Throw, st1)
  end.
Proof. reflexivity. Qed.

Lemma auditEntry_run (base entry : string) (st : State W) :
  auditEntry pm base entry st =
  match statSync_isDirectory (path_join [cwd; base; entry]) (world st) with
  | Some isDir =>
      if (isDir && existsSync (path_join [path_join [cwd; base; entry]; "package.json"])
                              (world st))%bool
      then auditMember pm (path_join [cwd; base; entry]) st
      else (Return tt, st)
  | None => (Throw, st)
  end.
Proof.
  unfold auditEntry, auditMember, bind, probe, of_option, ret, throw, console_log, emit.
  destruct (statSync_isDirectory (path_join [cwd; base; entry]) (world st)) as [[|]|];
    try reflexivity.
  cbn -[path_join].
  destruct (existsSync (path_join [path_join [cwd; base; entry]; "package.json"]) (world st));
    reflexivity.
Qed.

Lemma walk_entries (base : string) :
  forall entries members (st : State W),
    (forall entry, In entry entries ->
                   P (path_join [cwd; base; entry]) /\
                   P (path_join [path_join [cwd; base; entry]; "package.json"])) ->
    same_files P (world st) w0 ->
    keep_members w0 base entries = Some members ->
    for_of entries (auditEntry pm base) st =
    for_of members (auditMember pm) st.
Proof.
  induction entries as [|entry entries IH]; intros members st Hcover Hsame Hkeep.
  - cbn in Hkeep. inversion Hkeep. reflexivity.
  - cbn -[path_join] in Hkeep.
    destruct (Hcover entry (or_introl eq_refl)) as [Hp Hm].
    assert (Hrest : forall e, In e entries ->
                      P (path_join [cwd; base; e]) /\
                      P (path_join [path_join [cwd; base; e]; "package.json"])).
    { intros e He. apply Hcover. right. exact He. }
    destruct (Hsame _ Hp) as [_ [_ Estat]]. destruct (Hsame _ Hm) as [Eex _].
    rewrite for_of_cons, auditEntry_run, Estat, Eex.
    destruct (statSync_isDirectory (path_join [cwd; base; entry]) w0) as [isDir|];
      [|discriminate].
    destruct (keep_members w0 base entries) as [ms|]; [|discriminate].
    destruct (isDir && existsSync (path_join [path_join [cwd; base; entry]; "package.json"]) w0)%bool;
      inversion Hkeep; subst members.
    + rewrite for_of_cons.
      pose proof (keeps_auditMember (path_join [cwd; base; entry]) st) as Hk.
      destruct (auditMember pm (path_join [cwd; base; entry]) st) as [[[]|] st1];
        [|reflexivity].
      apply IH; [exact Hrest| |reflexivity].
      eapply same_files_trans; [exact Hk | exact Hsame].
    + apply IH; auto.
Qed.

Lemma walk_pattern (pattern : string) (members : list string) (st : State W) :
  (forall path, walked w0 [pattern] path -> P path) ->
  same_files P (world st) w0 ->
  member_dirs w0 pattern = Some members ->
  auditPattern pm (JString pattern) st =
  for_of members (auditMember pm) st.
Proof.
  intros Hcover Hsame Hmem. unfold member_dirs in Hmem. unfold auditPattern.
  assert (Hbase : P (path_join [cwd; basePath pattern])).
  { apply Hcover. exists pattern. split; [left; reflexivity|]. left. reflexivity. }
  destruct (Hsame _ Hbase) as [Eex [Edir _]].
  unfold bind at 1. unfold probe at 1. rewrite Eex.
  destruct (existsSync (path_join [cwd; basePath pattern]) w0).
  - unfold bind at 1. unfold bind at 1. unfold probe at 1. rewrite Edir.
    destruct (readdirSync (path_join [cwd; basePath pattern]) w0) as [entries|] eqn:Hlist;
      [|discriminate].
    cbn -[path_join]. apply walk_entries; auto.
    intros entry Hin. split; apply Hcover; exists pattern; (split; [left; reflexivity|]);
      right; exists entries, entry; auto.
  - inversion Hmem. reflexivity.
Qed.

Lemma walked_tail (p : string) (patterns : list string) (path : string) :
  walked w0 patterns path -> walked w0 (p :: patterns) path.
Proof. intros [q [Hin H]]. exists q. split; [right; exact Hin | exact H]. Qed.

Lemma walked_head (p : string) (patterns : list string) (path : string) :
  walked w0 [p] path -> walked w0 (p :: patterns) path.
Proof.
  intros [q [[Hin|[]] H]]. exists q. split; [left; exact Hin | exact H].
Qed.

Lemma walk_patterns (patterns : list string) :
  (forall path, walked w0 patterns path -> P path) ->
  forall members (st : State W),
    same_files P (world st) w0 ->
    workspace_dirs w0 patterns = Some members ->
    for_of (map JString patterns) (auditPattern pm) st =
    for_of members (auditMember pm) st.
Proof.
  induction patterns as [|p patterns IH]; intros Hcover members st Hsame Hdirs.
  - inversion Hdirs. reflexivity.
  - cbn in Hdirs.
    destruct (member_dirs w0 p) as [ds|] eqn:Hp; [|discriminate].
    destruct (workspace_dirs w0 patterns) as [dss|] eqn:Hps; [|discriminate].
    inversion Hdirs; subst members.
    rewrite for_of_app. cbn [map for_of]. unfold bind.
    rewrite (walk_pattern p ds st); auto using walked_head.
    pose proof (keeps_for_of P ds _ keeps_auditMember st) as Hk.
    destruct (for_of ds (auditMember pm) st) as [[[]|] st1]; [|reflexivity].
    apply IH; auto using walked_tail.
    eapply same_files_trans; [exact Hk | exact Hsame].
Qed.

End Walk.

Section Dispatch.
Context {W : Type} {host : Host W}.

(** The walk over a project with workspaces, as a loop over the member
    directories that the world shows at the start. *)
Lemma runSecurityAudit_workspace
      (P : string -> Prop) (pm : PackageManagerInfo) (st : State W)
      (patterns members : list string) :
  commands_keep P ->
  (forall path, walked (world st) patterns path -> P path) ->
  getWorkspaceInfo cwd st =
    (Return {| hasWorkspaces := true; packages := JArray (map JString patterns) |}, st) ->
  workspace_dirs (world st) patterns = Some members ->
  runSecurityAudit pm st =
  (console_log DetectedWorkspaceProject ;;
   console_log CheckingRootProject ;;
   runSecurityAuditForDirectory cwd pm ;;
   for_of members (auditMember pm)) st.
Proof.
  intros Hkeeps Hcover Hwi Hdirs.
  unfold runSecurityAudit. unfold bind at 1. rewrite Hwi. cbn [hasWorkspaces packages].
  unfold bind, console_log, emit, of_option, ret, Json.iterate.
  cbn -[cwd for_of auditPattern auditMember runSecurityAuditForDirectory].
  match goal with
  | |- context [runSecurityAuditForDirectory cwd pm ?s] =>
      pose proof (keeps_runSecurityAuditForDirectory P Hkeeps cwd pm s) as Hk
  end.
  cbn -[cwd runSecurityAuditForDirectory] in Hk.
  destruct (runSecurityAuditForDirectory cwd pm _) as [[[]|] st1]; [|reflexivity].
  apply (walk_patterns P pm Hkeeps (world st)); auto.
Qed.

Lemma runSecurityAudit_plain (pm : PackageManagerInfo) (st : State W) (wi : WorkspaceInfo) :
  getWorkspaceInfo cwd st = (Return wi, st) ->
  hasWorkspaces wi = false ->
  runSecurityAudit pm st = runSecurityAuditForDirectory cwd pm st.
Proof.
  intros Hwi Hno. unfold runSecurityAudit, bind. rewrite Hwi, Hno. reflexivity.
Qed.

End Dispatch.

(** ** What the code adds to the trace *)

Section Adds.
Context {W : Type} {host : Host W}.
Variable Q : Event -> Prop.

Lemma appended_nil (st : State W) : appended st st [].
Proof. unfold appended. rewrite app_nil_r. reflexivity. Qed.

Lemma adds_ret {A} (a : A) : adds_only Q (ret a : M W A).
Proof. intros st. exists []. split; [apply appended_nil | constructor]. Qed.

Lemma adds_throw {A} : adds_only Q (throw : M W A).
Proof. intros st. exists []. split; [apply appended_nil | constructor]. Qed.

Lemma adds_probe {A} (f : W -> A) : adds_only Q (probe f).
Proof. intros st. exists []. split; [apply appended_nil | constructor]. Qed.

Lemma adds_of_option {A} (v : option A) : adds_only Q (of_option v : M W A).
Proof. destruct v; [apply adds_ret | apply adds_throw]. Qed.

Lemma adds_console_log (m : Message) : Q (Log m) -> adds_only Q (console_log m : M W unit).
Proof. intros H st. exists [Log m]. split; [reflexivity | repeat constructor; exact H]. Qed.

Lemma adds_execPromise (command : string) (dir : option string) :
  Q (Exec command dir) -> adds_only Q (execPromise command dir).
Proof.
  intros H st. exists [Exec command dir]. split; [|repeat constructor; exact H].
  unfold execPromise. destruct (exec command dir (world st)) as [[out|] w]; reflexivity.
Qed.

Lemma adds_bind {A B} (c : M W A) (k : A -> M W B) :
  adds_only Q c -> (forall a, adds_only Q (k a)) -> adds_only Q (bind c k).
Proof.
  intros Hc Hk st. unfold bind. destruct (Hc st) as [e1 [H1 Q1]].
  destruct (c st) as [[a|] st1]; cbn [snd] in *.
  - destruct (Hk a st1) as [e2 [H2 Q2]]. exists (e1 ++ e2)%list.
    split; [eapply appended_trans; eassumption | apply Forall_app; auto].
  - exists e1. auto.
Qed.

Lemma adds_try_catch {A} (body handler : M W A) :
  adds_only Q body -> adds_only Q handler -> adds_only Q (try_catch body handler).
Proof.
  intros Hb Hh st. unfold try_catch. destruct (Hb st) as [e1 [H1 Q1]].
  destruct (body st) as [[a|] st1]; cbn [snd] in *.
  - exists e1. auto.
  - destruct (Hh st1) as [e2 [H2 Q2]]. exists (e1 ++ e2)%list.
    split; [eapply appended_trans; eassumption | apply Forall_app; auto].
Qed.

Lemma adds_for_of {A} (xs : list A) (body : A -> M W unit) :
  (forall x, adds_only Q (body x)) -> adds_only Q (for_of xs body).
Proof.
  intros Hb. induction xs as [|x xs IH]; cbn [for_of].
  - apply adds_ret.
  - apply adds_bind; auto.
Qed.

Lemma adds_getWorkspaceInfo (dir : string) : adds_only Q (getWorkspaceInfo dir).
Proof.
  intros st. destruct (getWorkspaceInfo_returns dir st) as [wi H]. rewrite H.
  exists []. split; [apply appended_nil | constructor].
Qed.

Hypothesis lines : forall m, Q (Log m).

Lemma adds_displayNpmAuditResults (result : JSON) :
  adds_only Q (displayNpmAuditResults result).
Proof.
  unfold displayNpmAuditResults.
  destruct (displayNpmAuditResults_lines result) as [ls completes].
  apply adds_bind.
  - apply adds_for_of. intros line. apply adds_console_log. apply lines.
  - intros _. destruct completes; [apply adds_ret | apply adds_throw].
Qed.

Lemma adds_displayYarnAuditResults (stdout stderr : string) :
  adds_only Q (displayYarnAuditResults stdout stderr : M W unit).
Proof.
  unfold displayYarnAuditResults.
  apply adds_for_of. intros line. apply adds_console_log. apply lines.
Qed.

Lemma adds_auditNotCompleted : adds_only Q (auditNotCompleted : M W unit).
Proof.
  repeat (apply adds_bind; [apply adds_console_log; apply lines | intros _]).
  apply adds_console_log. apply lines.
Qed.

Lemma adds_runNpmAudit (dir : string) :
  Q (Exec "npm i --package-lock-only --ignore-scripts" (Some dir)) ->
  Q (Exec "npm audit --json" (Some dir)) ->
  adds_only Q (runNpmAudit dir).
Proof.
  intros Hi Ha. unfold runNpmAudit.
  apply adds_try_catch; [|apply adds_throw].
  apply adds_bind; [apply adds_probe|]. intros locked.
  apply adds_bind.
  - destruct (negb locked); [|apply adds_ret].
    apply adds_bind; [apply adds_console_log; apply lines|]. intros _.
    apply adds_try_catch; [|apply adds_console_log; apply lines].
    apply adds_bind; [apply adds_execPromise; exact Hi|]. intros _. apply adds_ret.
  - intros _. apply adds_bind; [apply adds_execPromise; exact Ha|]. intros output.
    apply adds_bind; [apply adds_of_option|]. intros result. apply adds_ret.
Qed.

Lemma adds_npm_attempt (dir : string) :
  Q (Exec "npm i --package-lock-only --ignore-scripts" (Some dir)) ->
  Q (Exec "npm audit --json" (Some dir)) ->
  adds_only Q (npm_attempt dir).
Proof.
  intros Hi Ha. apply adds_bind; [apply adds_runNpmAudit; assumption|].
  intros result. apply adds_displayNpmAuditResults.
Qed.

Lemma adds_yarn_attempt (dir : string) (ty : YarnVersionType) :
  Q (Exec (yarn_command ty) (Some dir)) ->
  adds_only Q (yarn_attempt dir ty).
Proof.
  intros Hy. apply adds_bind.
  - apply adds_try_catch; [|apply adds_throw].
    apply adds_bind; [apply adds_execPromise; exact Hy|]. intros output. apply adds_ret.
  - intros result. apply adds_displayYarnAuditResults.
Qed.

Lemma adds_yarn_catch (dir : string) :
  Q (Exec "npm i --package-lock-only --ignore-scripts" (Some dir)) ->
  Q (Exec "npm audit --json" (Some dir)) ->
  adds_only Q (yarn_catch dir).
Proof.
  intros Hi Ha. apply adds_bind; [apply adds_getWorkspaceInfo|]. intros wi.
  destruct (negb (String.eqb dir cwd) || negb (hasWorkspaces wi))%bool.
  - apply adds_bind; [apply adds_console_log; apply lines|]. intros _.
    apply adds_try_catch; [apply adds_npm_attempt; assumption | apply adds_auditNotCompleted].
  - apply adds_bind; [apply adds_console_log; apply lines|]. intros _.
    apply adds_console_log. apply lines.
Qed.

(** The events of the step are lines and, of the commands, the two npm
    commands and the yarn audit of its directory. *)
Lemma adds_runSecurityAuditForDirectory (dir : string) (pm : PackageManagerInfo) :
  Q (Exec "npm i --package-lock-only --ignore-scripts" (Some dir)) ->
  Q (Exec "npm audit --json" (Some dir)) ->
  (manager pm = yarn -> JS.falsy_string (version pm) = false ->
   Q (Exec (yarn_command (yarn_of_type (type pm))) (Some dir))) ->
  adds_only Q (runSecurityAuditForDirectory dir pm).
Proof.
  intros Hi Ha Hy. rewrite runSecurityAuditForDirectory_parts.
  destruct (manager pm).
  - apply adds_try_catch; [apply adds_npm_attempt; assumption | apply adds_auditNotCompleted].
  - apply adds_try_catch; [|apply adds_yarn_catch; assumption].
    destruct (JS.falsy_string (version pm)); [|apply adds_yarn_attempt; auto].
    apply adds_bind; [apply adds_console_log; apply lines|]. intros _.
    apply adds_bind; [apply adds_console_log; apply lines|]. intros _.
    apply adds_npm_attempt; assumption.
Qed.

End Adds.

Section AddsWalk.
Context {W : Type} {host : Host W}.

(** A loop whose body adds only such events on the items of the list. *)
Lemma adds_for_of_in (Q : Event -> Prop) {A} (xs : list A) (body : A -> M W unit) :
  (forall x, In x xs -> adds_only Q (body x)) -> adds_only Q (for_of xs body).
Proof.
  intros Hb. induction xs as [|x xs IH]; cbn [for_of].
  - apply adds_ret.
  - apply adds_bind; [apply Hb; left; reflexivity|]. intros _.
    apply IH. intros y Hy. apply Hb. right. exact Hy.
Qed.

Lemma adds_auditEntry (Q : Event -> Prop) (pm : PackageManagerInfo) (base entry : string) :
  (forall m, Q (Log m)) ->
  (forall dir, adds_only Q (runSecurityAuditForDirectory dir pm)) ->
  adds_only Q (auditEntry pm base entry).
Proof.
  intros lines step. unfold auditEntry.
  apply adds_bind.
  - apply adds_bind; [apply adds_probe|]. intros d. apply adds_of_option.
  - intros isDir. apply adds_bind.
    + destruct isDir; [apply adds_probe | apply adds_ret].
    + intros hasManifest. destruct hasManifest; [|apply adds_ret].
      apply adds_bind; [apply adds_console_log; apply lines|]. intros _. apply step.
Qed.

Lemma adds_auditPattern (Q : Event -> Prop) (pm : PackageManagerInfo) (pattern : JSON) :
  (forall m, Q (Log m)) ->
  (forall dir, adds_only Q (runSecurityAuditForDirectory dir pm)) ->
  adds_only Q (auditPattern pm pattern).
Proof.
  intros lines step. unfold auditPattern.
  destruct pattern; try apply adds_throw.
  apply adds_bind; [apply adds_probe|]. intros present.
  destruct present; [|apply adds_ret].
  apply adds_bind.
  - apply adds_bind; [apply adds_probe|]. intros es. apply adds_of_option.
  - intros entries. apply adds_for_of. intros entry. apply adds_auditEntry; assumption.
Qed.

Lemma adds_runSecurityAudit (Q : Event -> Prop) (pm : PackageManagerInfo) :
  (forall m, Q (Log m)) ->
  (forall dir, adds_only Q (runSecurityAuditForDirectory dir pm)) ->
  adds_only Q (runSecurityAudit pm).
Proof.
  intros lines step. unfold runSecurityAudit.
  apply adds_bind; [apply adds_getWorkspaceInfo|]. intros wi.
  destruct (hasWorkspaces wi); [|apply step].
  apply adds_bind; [apply adds_console_log; apply lines|]. intros _.
  apply adds_bind; [apply adds_console_log; apply lines|]. intros _.
  apply adds_bind; [apply step|]. intros _.
  apply adds_bind; [apply adds_of_option|]. intros patterns.
  apply adds_for_of. intros pattern. apply adds_auditPattern; assumption.
Qed.

(** A loop throws when its body throws on one of the items. *)
Lemma for_of_throws {A} (body : A -> M W unit) (bad : A) (xs : list A) :
  In bad xs ->
  (forall st, fst (body bad st) = Throw) ->
  forall st, fst (for_of xs body st) = Throw.
Proof.
  intros Hin Hbad. induction xs as [|x xs IH]; intros st; [destruct Hin|].
  cbn [for_of]. unfold bind.
  destruct Hin as [->|Hin].
  - specialize (Hbad st). destruct (body bad st) as [[[]|] st1]; [discriminate|reflexivity].
  - destruct (body x st) as [[[]|] st1]; [apply IH; exact Hin | reflexivity].
Qed.

End AddsWalk.

(** ** The walk, entry by entry *)

Section WalkFacts.
Context {W : Type} {host : Host W}.
Variable pm : PackageManagerInfo.

Lemma auditMember_returns (dir : string) (st : State W) :
  exists st1, auditMember pm dir st = (Return tt, st1).
Proof.
  unfold auditMember, bind, console_log, emit.
  destruct (step_returns pm dir
              (mkState (world st) (trace st ++ [Log (CheckingWorkspace (path_relative cwd dir))])))
    as [st1 [events [Hrun _]]].
  exists st1. exact Hrun.
Qed.

(** The events of the audit of a member: its line and commands run in
    the member, an audit among them. *)
Lemma auditMember_events (dir : string) (st st1 : State W) :
  auditMember pm dir st = (Return tt, st1) ->
  exists events,
    appended st st1 events /\
    Forall (runs_in dir) events /\
    exists e, In e events /\ is_audit_in dir e = true.
Proof.
  unfold auditMember, bind, console_log, emit. intros Hrun.
  destruct (step_returns pm dir
              (mkState (world st) (trace st ++ [Log (CheckingWorkspace (path_relative cwd dir))])))
    as [st2 [events [Hstep [Happ [[e [Hin He]] _]]]]].
  rewrite Hstep in Hrun. inversion Hrun; subst st2.
  exists (Log (CheckingWorkspace (path_relative cwd dir)) :: events).
  split; [|split].
  - unfold appended in *. cbn [trace] in Happ. rewrite Happ, <- app_assoc. reflexivity.
  - constructor; [exact I|].
    destruct (adds_runSecurityAuditForDirectory (runs_in dir) (fun _ => I) dir pm
                eq_refl eq_refl (fun _ _ => eq_refl)
                (mkState (world st)
                         (trace st ++ [Log (CheckingWorkspace (path_relative cwd dir))])))
      as [events' [H1 H2]].
    rewrite Hstep in H1. unfold appended in *. cbn [snd] in H1. rewrite Happ in H1.
    apply app_inv_head in H1. rewrite H1. exact H2.
  - exists e. split; [right; exact Hin | exact He].
Qed.

Lemma is_member_stat (w : W) (base entry : string) :
  is_member w base entry = true ->
  statSync_isDirectory (path_join [cwd; base; entry]) w = Some true /\
  existsSync (path_join [path_join [cwd; base; entry]; "package.json"]) w = true.
Proof.
  unfold is_member.
  destruct (statSync_isDirectory (path_join [cwd; base; entry]) w) as [[|]|];
    try discriminate.
  cbn. auto.
Qed.

(** *** The code walks as the relations say *)

Lemma entries_walk_computed (base : string) (entries : list string) :
  forall st : State W,
    entries_walk pm base entries st (audited_entries pm base entries st)
                 (for_of entries (auditEntry pm base) st).
Proof.
  induction entries as [|entry entries IH]; intros st.
  - constructor.
  - rewrite for_of_cons, auditEntry_run. cbn [audited_entries].
    destruct (statSync_isDirectory (path_join [cwd; base; entry]) (world st)) as [isDir|] eqn:Hstat.
    + assert (Htest : is_member (world st) base entry =
                      (isDir && existsSync (path_join [path_join [cwd; base; entry];
                                                       "package.json"]) (world st))%bool).
      { unfold is_member. rewrite Hstat. reflexivity. }
      rewrite <- Htest.
      destruct (is_member (world st) base entry) eqn:Hmember.
      * destruct (auditMember_returns (path_join [cwd; base; entry]) st) as [st1 Hrun].
        rewrite Hrun. cbn [snd].
        eapply entry_audited; [exact Hmember | exact Hrun | apply IH].
      * eapply entry_passed; [exact Hstat | exact Hmember | apply IH].
    + apply entry_not_inspected. exact Hstat.
Qed.

Lemma entries_walk_total (base : string) (entries : list string) (st : State W) :
  exists dirs, entries_walk pm base entries st dirs (for_of entries (auditEntry pm base) st).
Proof. eexists. apply entries_walk_computed. Qed.

Lemma auditPattern_run (pattern : string) (st : State W) :
  auditPattern pm (JString pattern) st =
  if existsSync (path_join [cwd; basePath pattern]) (world st) then
    match readdirSync (path_join [cwd; basePath pattern]) (world st) with
    | Some entries => for_of entries (auditEntry pm (basePath pattern)) st
    | None => (Throw, st)
    end
  else (Return tt, st).
Proof.
  unfold auditPattern, bind, probe, of_option, ret, throw.
  destruct (existsSync (path_join [cwd; basePath pattern]) (world st)); [|reflexivity].
  destruct (readdirSync (path_join [cwd; basePath pattern]) (world st)); reflexivity.
Qed.

Lemma pattern_walk_computed (pattern : JSON) (st : State W) :
  pattern_walk pm pattern st (audited_pattern pm pattern st) (auditPattern pm pattern st).
Proof.
  destruct pattern as [| | |p| |];
    try (apply pattern_not_a_string; intros other; discriminate).
  rewrite auditPattern_run. cbn [audited_pattern].
  destruct (existsSync (path_join [cwd; basePath p]) (world st)) eqn:Hex.
  - destruct (readdirSync (path_join [cwd; basePath p]) (world st)) as [entries|] eqn:Hlist.
    + eapply pattern_listed; [exact Hex | exact Hlist | apply entries_walk_computed].
    + apply pattern_not_listed; assumption.
  - apply pattern_missing. exact Hex.
Qed.

Lemma pattern_walk_total (pattern : JSON) (st : State W) :
  exists dirs, pattern_walk pm pattern st dirs (auditPattern pm pattern st).
Proof. eexists. apply pattern_walk_computed. Qed.

Lemma patterns_walk_computed (patterns : list JSON) :
  forall st : State W,
    patterns_walk pm patterns st (audited_patterns pm patterns st)
                  (for_of patterns (auditPattern pm) st).
Proof.
  induction patterns as [|pattern patterns IH]; intros st.
  - constructor.
  - rewrite for_of_cons. cbn [audited_patterns].
    pose proof (pattern_walk_computed pattern st) as Hwalk.
    destruct (auditPattern pm pattern st) as [[[]|] st1].
    + eapply pattern_walked; [exact Hwalk | apply IH].
    + rewrite app_nil_r. apply pattern_stopped. exact Hwalk.
Qed.

Lemma patterns_walk_total (patterns : list JSON) (st : State W) :
  exists dirs, patterns_walk pm patterns st dirs (for_of patterns (auditPattern pm) st).
Proof. eexists. apply patterns_walk_computed. Qed.

(** *** A walk is the run of the code, and there is no other *)

Lemma entries_walk_run (base : string) (entries dirs : list string) (st : State W)
      (r : Outcome unit * State W) :
  entries_walk pm base entries st dirs r ->
  for_of entries (auditEntry pm base) st = r.
Proof.
  induction 1 as [st | entry rest st st1 dirs r Hmember Hrun Hwalk IH
                  | entry rest st isDir dirs r Hstat Hmember Hwalk IH
                  | entry rest st Hstat].
  - reflexivity.
  - destruct (is_member_stat _ _ _ Hmember) as [Hstat Hmanifest].
    rewrite for_of_cons, auditEntry_run, Hstat, Hmanifest. cbn [andb].
    rewrite Hrun. exact IH.
  - rewrite for_of_cons, auditEntry_run, Hstat.
    unfold is_member in Hmember. rewrite Hstat in Hmember. rewrite Hmember. exact IH.
  - rewrite for_of_cons, auditEntry_run, Hstat. reflexivity.
Qed.

Lemma pattern_walk_run (pattern : JSON) (dirs : list string) (st : State W)
      (r : Outcome unit * State W) :
  pattern_walk pm pattern st dirs r -> auditPattern pm pattern st = r.
Proof.
  intros [p s Hex | p s entries ds q Hex Hlist Hwalk | p s Hex Hlist | v s Hnot].
  - rewrite auditPattern_run, Hex. reflexivity.
  - rewrite auditPattern_run, Hex, Hlist. apply (entries_walk_run _ _ _ _ _ Hwalk).
  - rewrite auditPattern_run, Hex, Hlist. reflexivity.
  - destruct v; try reflexivity. destruct (Hnot s0 eq_refl).
Qed.

Lemma patterns_walk_run (patterns : list JSON) (dirs : list string) (st : State W)
      (r : Outcome unit * State W) :
  patterns_walk pm patterns st dirs r -> for_of patterns (auditPattern pm) st = r.
Proof.
  induction 1 as [st | pattern rest st dirs st1 more r Hwalk Hrest IH
                  | pattern rest st dirs st1 Hwalk].
  - reflexivity.
  - rewrite for_of_cons, (pattern_walk_run _ _ _ _ Hwalk). exact IH.
  - rewrite for_of_cons, (pattern_walk_run _ _ _ _ Hwalk). reflexivity.
Qed.

Lemma entries_walk_dirs (base : string) (entries dirs : list string) (st : State W)
      (r : Outcome unit * State W) :
  entries_walk pm base entries st dirs r ->
  forall dirs' r', entries_walk pm base entries st dirs' r' -> dirs' = dirs.
Proof.
  induction 1 as [st | entry rest st st1 dirs r Hmember Hrun Hwalk IH
                  | entry rest st isDir dirs r Hstat Hmember Hwalk IH
                  | entry rest st Hstat];
    intros dirs' r' H'; inversion H'; subst; try reflexivity;
    try match goal with
        | H1 : is_member ?w ?b ?e = true, H2 : is_member ?w ?b ?e = false |- _ =>
            congruence
        | H1 : is_member ?w ?b ?e = true, H2 : statSync_isDirectory _ ?w = None |- _ =>
            destruct (is_member_stat _ _ _ H1); congruence
        | H1 : statSync_isDirectory ?p ?w = Some _, H2 : statSync_isDirectory ?p ?w = None |- _ =>
            congruence
        end.
  - f_equal. match goal with
             | H1 : auditMember _ _ _ = (Return tt, ?s) |- _ =>
                 assert (s = st1) by congruence; subst s
             end.
    eapply IH; eassumption.
  - eapply IH; eassumption.
Qed.

Lemma pattern_walk_dirs (pattern : JSON) (dirs : list string) (st : State W)
      (r : Outcome unit * State W) :
  pattern_walk pm pattern st dirs r ->
  forall dirs' r', pattern_walk pm pattern st dirs' r' -> dirs' = dirs.
Proof.
  intros H dirs' r' H'.
  destruct H as [p s Hex | p s entries ds q Hex Hlist Hwalk | p s Hex Hlist | v s Hnot];
    inversion H'; subst; try reflexivity; try congruence;
    try match goal with
        | H : forall q, _ <> JString q |- _ => destruct (H _ eq_refl)
        end.
  match goal with
  | H1 : readdirSync ?p ?w = Some ?a, H2 : readdirSync ?p ?w = Some ?b |- _ =>
      assert (a = b) by congruence; subst
  end.
  eapply entries_walk_dirs; eassumption.
Qed.

Lemma patterns_walk_dirs (patterns : list JSON) (dirs : list string) (st : State W)
      (r : Outcome unit * State W) :
  patterns_walk pm patterns st dirs r ->
  forall dirs' r', patterns_walk pm patterns st dirs' r' -> dirs' = dirs.
Proof.
  induction 1 as [st | pattern rest st dirs st1 more r Hwalk Hrest IH
                  | pattern rest st dirs st1 Hwalk];
    intros dirs' r' H'; inversion H'; subst; try reflexivity.
  - match goal with
    | H1 : pattern_walk _ _ _ ?d (Return tt, ?s) |- _ =>
        assert (d = dirs) by (eapply pattern_walk_dirs; eassumption);
        assert (s = st1) by
          (pose proof (pattern_walk_run _ _ _ _ H1);
           pose proof (pattern_walk_run _ _ _ _ Hwalk); congruence);
        subst d s
    end.
    f_equal. eapply IH; eassumption.
  - match goal with
    | H1 : pattern_walk _ _ _ _ (Throw, _) |- _ =>
        pose proof (pattern_walk_run _ _ _ _ H1);
        pose proof (pattern_walk_run _ _ _ _ Hwalk); congruence
    end.
  - match goal with
    | H1 : pattern_walk _ _ _ _ (Return tt, _) |- _ =>
        pose proof (pattern_walk_run _ _ _ _ H1);
        pose proof (pattern_walk_run _ _ _ _ Hwalk); congruence
    end.
  - eapply pattern_walk_dirs; eassumption.
Qed.

(** *** The walk as a loop over the directories it audits *)

Lemma for_of_then {A} (x : A) (xs : list A) (body : A -> M W unit) (k : M W unit)
      (st : State W) :
  (for_of (x :: xs) body ;; k) st =
  match body x st with
  | (Return _, st1) => (for_of xs body ;; k) st1
  | (Throw, st1) => (Throw, st1)
  end.
Proof. cbn [for_of]. unfold bind. destruct (body x st) as [[[]|] st1]; reflexivity. Qed.

Lemma for_of_app_then {A} (xs ys : list A) (body : A -> M W unit) (k : M W unit)
      (st : State W) :
  (for_of (xs ++ ys) body ;; k) st =
  match for_of xs body st with
  | (Return _, st1) => (for_of ys body ;; k) st1
  | (Throw, st1) => (Throw, st1)
  end.
Proof.
  revert st. induction xs as [|x xs IH]; intros st.
  - reflexivity.
  - change ((x :: xs) ++ ys)%list with (x :: (xs ++ ys))%list.
    rewrite for_of_then, for_of_cons.
    destruct (body x st) as [[[]|] st1]; [apply IH | reflexivity].
Qed.

Lemma entries_walk_loop (base : string) (entries dirs : list string) (st : State W)
      (r : Outcome unit * State W) :
  entries_walk pm base entries st dirs r ->
  (for_of dirs (auditMember pm) ;; ends_as (fst r)) st = r.
Proof.
  induction 1 as [st | entry rest st st1 dirs r Hmember Hrun Hwalk IH
                  | entry rest st isDir dirs r Hstat Hmember Hwalk IH
                  | entry rest st Hstat].
  - reflexivity.
  - rewrite for_of_then, Hrun. exact IH.
  - exact IH.
  - reflexivity.
Qed.

Lemma pattern_walk_loop (pattern : JSON) (dirs : list string) (st : State W)
      (r : Outcome unit * State W) :
  pattern_walk pm pattern st dirs r ->
  (for_of dirs (auditMember pm) ;; ends_as (fst r)) st = r.
Proof.
  intros [p s Hex | p s entries ds q Hex Hlist Hwalk | p s Hex Hlist | v s Hnot];
    try reflexivity.
  apply (entries_walk_loop _ _ _ _ _ Hwalk).
Qed.

Lemma patterns_walk_loop (patterns : list JSON) (dirs : list string) (st : State W)
      (r : Outcome unit * State W) :
  patterns_walk pm patterns st dirs r ->
  (for_of dirs (auditMember pm) ;; ends_as (fst r)) st = r.
Proof.
  induction 1 as [st | pattern rest st dirs st1 more r Hwalk Hrest IH
                  | pattern rest st dirs st1 Hwalk].
  - reflexivity.
  - rewrite for_of_app_then.
    pose proof (pattern_walk_loop _ _ _ _ Hwalk) as Hloop. cbn [fst ends_as] in Hloop.
    unfold bind, ret in Hloop.
    destruct (for_of dirs (auditMember pm) st) as [[[]|] s]; inversion Hloop; subst.
    exact IH.
  - apply (pattern_walk_loop _ _ _ _ Hwalk).
Qed.

(** *** The directories audited are entries of the base directory *)

Lemma entries_walk_children (base : string) (entries dirs : list string) (st : State W)
      (r : Outcome unit * State W) :
  entries_walk pm base entries st dirs r ->
  Forall (fun dir => exists entry, In entry entries /\ dir = path_join [cwd; base; entry]) dirs.
Proof.
  induction 1 as [st | entry rest st st1 dirs r Hmember Hrun Hwalk IH
                  | entry rest st isDir dirs r Hstat Hmember Hwalk IH
                  | entry rest st Hstat].
  - constructor.
  - constructor.
    + exists entry. split; [left; reflexivity | reflexivity].
    + eapply Forall_impl; [|exact IH]. intros dir [e [He Hd]]. exists e. split; [right|]; auto.
  - eapply Forall_impl; [|exact IH]. intros dir [e [He Hd]]. exists e. split; [right|]; auto.
  - constructor.
Qed.

(** *** The commands of the walk run in the directories audited *)

Lemma runs_in_one_of_weaken (dirs more : list string) (e : Event) :
  (forall d, In d dirs -> In d more) -> runs_in_one_of dirs e -> runs_in_one_of more e.
Proof.
  intros Hsub. destruct e as [command dir|m]; [|auto].
  intros [d [Hin Hd]]. exists d. auto.
Qed.

Lemma runs_in_one (dir : string) (dirs : list string) (e : Event) :
  In dir dirs -> runs_in dir e -> runs_in_one_of dirs e.
Proof.
  intros Hin. destruct e as [command d|m]; [|auto].
  intros Hd. exists dir. auto.
Qed.

Lemma entries_walk_events (base : string) (entries dirs : list string) (st : State W)
      (r : Outcome unit * State W) :
  entries_walk pm base entries st dirs r ->
  exists events,
    appended st (snd r) events /\
    Forall (runs_in_one_of dirs) events /\
    Forall (fun dir => exists e, In e events /\ is_audit_in dir e = true) dirs.
Proof.
  induction 1 as [st | entry rest st st1 dirs r Hmember Hrun Hwalk IH
                  | entry rest st isDir dirs r Hstat Hmember Hwalk IH
                  | entry rest st Hstat].
  - exists []. split; [apply appended_nil|]. split; constructor.
  - destruct (auditMember_events _ _ _ Hrun) as [events [Happ [Hin [e [He Haudit]]]]].
    destruct IH as [more [Happ2 [Hin2 Haud2]]].
    exists (events ++ more)%list. split; [eapply appended_trans; eassumption|]. split.
    + apply Forall_app. split.
      * eapply Forall_impl; [|exact Hin]. intros x Hx.
        apply (runs_in_one (path_join [cwd; base; entry])); [left; reflexivity | exact Hx].
      * eapply Forall_impl; [|exact Hin2]. intros x.
        apply runs_in_one_of_weaken. intros d Hd. right. exact Hd.
    + constructor.
      * exists e. split; [apply in_or_app; left; exact He | exact Haudit].
      * eapply Forall_impl; [|exact Haud2]. intros d [x [Hx Hxa]].
        exists x. split; [apply in_or_app; right; exact Hx | exact Hxa].
  - exact IH.
  - exists []. split; [apply appended_nil|]. split; constructor.
Qed.

Lemma pattern_walk_events (pattern : JSON) (dirs : list string) (st : State W)
      (r : Outcome unit * State W) :
  pattern_walk pm pattern st dirs r ->
  exists events,
    appended st (snd r) events /\
    Forall (runs_in_one_of dirs) events /\
    Forall (fun dir => exists e, In e events /\ is_audit_in dir e = true) dirs.
Proof.
  intros [p s Hex | p s entries ds q Hex Hlist Hwalk | p s Hex Hlist | v s Hnot];
    try (exists []; split; [apply appended_nil|]; split; constructor).
  apply (entries_walk_events _ _ _ _ _ Hwalk).
Qed.

Lemma patterns_walk_events (patterns : list JSON) (dirs : list string) (st : State W)
      (r : Outcome unit * State W) :
  patterns_walk pm patterns st dirs r ->
  exists events,
    appended st (snd r) events /\
    Forall (runs_in_one_of dirs) events /\
    Forall (fun dir => exists e, In e events /\ is_audit_in dir e = true) dirs.
Proof.
  induction 1 as [st | pattern rest st dirs st1 more r Hwalk Hrest IH
                  | pattern rest st dirs st1 Hwalk].
  - exists []. split; [apply appended_nil|]. split; constructor.
  - destruct (pattern_walk_events _ _ _ _ Hwalk) as [events [Happ [Hin Haud]]].
    destruct IH as [events2 [Happ2 [Hin2 Haud2]]]. cbn [snd] in Happ.
    exists (events ++ events2)%list. split; [eapply appended_trans; eassumption|]. split.
    + apply Forall_app. split.
      * eapply Forall_impl; [|exact Hin]. intros x.
        apply runs_in_one_of_weaken. intros d Hd. apply in_or_app. left. exact Hd.
      * eapply Forall_impl; [|exact Hin2]. intros x.
        apply runs_in_one_of_weaken. intros d Hd. apply in_or_app. right. exact Hd.
    + apply Forall_app. split.
      * eapply Forall_impl; [|exact Haud]. intros d [x [Hx Hxa]].
        exists x. split; [apply in_or_app; left; exact Hx | exact Hxa].
      * eapply Forall_impl; [|exact Haud2]. intros d [x [Hx Hxa]].
        exists x. split; [apply in_or_app; right; exact Hx | exact Hxa].
  - apply (pattern_walk_events _ _ _ _ Hwalk).
Qed.

Lemma pattern_walk_children (pattern : string) (dirs : list string) (st : State W)
      (r : Outcome unit * State W) :
  pattern_walk pm (JString pattern) st dirs r ->
  Forall (fun dir => exists entries entry,
            readdirSync (path_join [cwd; basePath pattern]) (world st) = Some entries /\
            In entry entries /\
            dir = path_join [cwd; basePath pattern; entry]) dirs.
Proof.
  intros H. inversion H; subst; try constructor.
  match goal with
  | Hw : entries_walk _ _ ?es _ _ _ |- _ =>
      pose proof (entries_walk_children _ _ _ _ _ Hw) as Hc
  end.
  eapply Forall_impl; [|exact Hc]. intros dir [entry [Hin Hd]].
  eexists. exists entry. split; [eassumption|]. auto.
Qed.

Lemma patterns_walk_children (patterns : list JSON) (dirs : list string) (st : State W)
      (r : Outcome unit * State W) :
  patterns_walk pm patterns st dirs r ->
  Forall (fun dir => exists pattern entry,
            In (JString pattern) patterns /\
            dir = path_join [cwd; basePath pattern; entry]) dirs.
Proof.
  assert (Hone : forall pattern ds s q,
             pattern_walk pm pattern s ds q ->
             Forall (fun dir => exists p entry,
                       pattern = JString p /\ dir = path_join [cwd; basePath p; entry]) ds).
  { intros pattern ds s q H. inversion H; subst; try constructor.
    match goal with
    | Hw : entries_walk _ _ _ _ _ _ |- _ =>
        pose proof (entries_walk_children _ _ _ _ _ Hw) as Hc
    end.
    eapply Forall_impl; [|exact Hc]. intros dir [entry [_ Hd]].
    eexists. exists entry. split; [reflexivity | exact Hd]. }
  induction 1 as [st | pattern rest st dirs st1 more r Hwalk Hrest IH
                  | pattern rest st dirs st1 Hwalk].
  - constructor.
  - apply Forall_app. split.
    + eapply Forall_impl; [|exact (Hone _ _ _ _ Hwalk)].
      intros dir [p [entry [-> Hd]]]. exists p, entry. split; [left; reflexivity | exact Hd].
    + eapply Forall_impl; [|exact IH].
      intros dir [p [entry [Hin Hd]]]. exists p, entry. split; [right; exact Hin | exact Hd].
  - eapply Forall_impl; [|exact (Hone _ _ _ _ Hwalk)].
    intros dir [p [entry [-> Hd]]]. exists p, entry. split; [left; reflexivity | exact Hd].
Qed.

(** *** The dispatcher after the audit of the root *)

Lemma runSecurityAudit_after_root (st : State W) (wi : WorkspaceInfo) :
  getWorkspaceInfo cwd st = (Return wi, st) ->
  hasWorkspaces wi = true ->
  exists st0,
    runSecurityAuditForDirectory cwd pm
      (mkState (world st)
               (trace st ++ [Log DetectedWorkspaceProject; Log CheckingRootProject]))
      = (Return tt, st0) /\
    (forall k : M W unit,
       (console_log DetectedWorkspaceProject ;;
        console_log CheckingRootProject ;;
        runSecurityAuditForDirectory cwd pm ;;
        k) st = k st0) /\
    runSecurityAudit pm st =
    match Json.iterate (packages wi) with
    | Some patterns => for_of patterns (auditPattern pm) st0
    | None => (Throw, st0)
    end.
Proof.
  intros Hwi Hhas.
  destruct (step_returns pm cwd
              (mkState (world st)
                       (trace st ++ [Log DetectedWorkspaceProject; Log CheckingRootProject])))
    as [st0 [events [Hrun _]]].
  exists st0. split; [exact Hrun|].
  assert (Hthen : forall k : M W unit,
             (console_log DetectedWorkspaceProject ;;
              console_log CheckingRootProject ;;
              runSecurityAuditForDirectory cwd pm ;;
              k) st = k st0).
  { intros k.
    unfold bind at 1. unfold console_log at 1, emit.
    unfold bind at 1. unfold console_log at 1, emit. cbn [world trace].
    unfold bind at 1. rewrite <- app_assoc. cbn [app]. rewrite Hrun. reflexivity. }
  split; [exact Hthen|].
  unfold runSecurityAudit. unfold bind at 1. rewrite Hwi, Hhas.
  rewrite Hthen. unfold bind, of_option.
  destruct (Json.iterate (packages wi)); reflexivity.
Qed.

End WalkFacts.

Lemma substring_all (s : string) : substring 0 (String.length s) s = s.
Proof. induction s as [|c s IH]; cbn; [reflexivity|]. rewrite IH. reflexivity. Qed.

Lemma replace_first_here (pat rep s : string) :
  prefix pat s = true ->
  JS.replace_first pat rep s =
  rep ++ substring (String.length pat) (String.length s - String.length pat) s.
Proof. intros H. destruct s; cbn [JS.replace_first]; rewrite H; reflexivity. Qed.

Lemma replace_first_later (pat rep : string) (c : ascii) (r : string) :
  prefix pat (String c r) = false ->
  JS.replace_first pat rep (String c r) = String c (JS.replace_first pat rep r).
Proof. intros H. cbn [JS.replace_first]. rewrite H. reflexivity. Qed.

Lemma includes_cons (pat : string) (c : ascii) (r : string) :
  JS.includes pat (String c r) = false ->
  prefix pat (String c r) = false /\ JS.includes pat r = false.
Proof. cbn [JS.includes]. intros H. apply orb_false_iff in H. exact H. Qed.

Lemma prefix_cons (a b : ascii) (s1 s2 : string) :
  prefix (String a s1) (String b s2) = if ascii_dec a b then prefix s1 s2 else false.
Proof. reflexivity. Qed.

Lemma prefix_empty (s : string) : prefix "" s = true.
Proof. destruct s; reflexivity. Qed.

Lemma basePath_star (b : string) : basePath ("/*" ++ b) = b.
Proof.
  unfold basePath. rewrite replace_first_here by (destruct b; reflexivity).
  change (String.length "/*") with 2%nat. change ("/*" ++ b) with (String "/" (String "*" b)).
  cbn [String.length Nat.sub substring append]. rewrite Nat.sub_0_r. apply substring_all.
Qed.

(** A pattern that starts with [/*] has another character before any
    later one: [/] followed by a character other than [*] starts no
    occurrence. *)
Lemma prefix_star_later (c : ascii) (a rest : string) :
  prefix "/*" (String c a) = false ->
  prefix "/*" (String c (a ++ String "/" rest)) = false.
Proof.
  rewrite !prefix_cons. destruct (ascii_dec "/" c) as [E|N]; [|reflexivity].
  destruct a as [|c' a]; intros H.
  - reflexivity.
  - change (String c' a ++ String "/" rest) with (String c' (a ++ String "/" rest)).
    rewrite prefix_cons in *. destruct (ascii_dec "*" c'); [|reflexivity].
    rewrite prefix_empty in H. discriminate.
Qed.

(** The first occurrence of [/*] is the one removed. *)
Lemma basePath_first (a b : string) :
  JS.includes "/*" a = false -> basePath (a ++ "/*" ++ b) = a ++ b.
Proof.
  induction a as [|c a IH]; intros Hno.
  - apply basePath_star.
  - apply includes_cons in Hno. destruct Hno as [Hhere Hlater].
    unfold basePath in *.
    change (String c a ++ "/*" ++ b) with (String c (a ++ "/*" ++ b)).
    rewrite replace_first_later.
    + rewrite IH by exact Hlater. reflexivity.
    + apply (prefix_star_later c a (String "*" b)). exact Hhere.
Qed.

Lemma basePath_absent (pattern : string) :
  JS.includes "/*" pattern = false -> basePath pattern = pattern.
Proof.
  unfold basePath. induction pattern as [|c r IH]; intros Hno; [reflexivity|].
  apply includes_cons in Hno. destruct Hno as [Hhere Hlater].
  rewrite replace_first_later by exact Hhere. rewrite IH by exact Hlater. reflexivity.
Qed.

Lemma strip_trailing_star_cons (c : ascii) (r : string) :
  strip_trailing_star (String c r) =
  if String.eqb (String c r) "/*" then "" else String c (strip_trailing_star r).
Proof. reflexivity. Qed.

(** Where [/*] occurs only as the suffix, or not at all, removing its
    first occurrence is stripping the suffix. *)
Lemma basePath_strip (pattern : string) :
  JS.includes "/*" (strip_trailing_star pattern) = false ->
  basePath pattern = strip_trailing_star pattern.
Proof.
  unfold basePath. induction pattern as [|c r IH]; intros Hno; [reflexivity|].
  rewrite strip_trailing_star_cons in *.
  destruct (String.eqb_spec (String c r) "/*") as [E|N].
  - rewrite E. reflexivity.
  - apply includes_cons in Hno. destruct Hno as [Hhere Hlater].
    rewrite replace_first_later.
    + rewrite IH by exact Hlater. reflexivity.
    + rewrite prefix_cons in *. destruct (ascii_dec "/" c) as [E|Nc]; [|reflexivity].
      subst c. destruct r as [|c' r]; [reflexivity|].
      rewrite prefix_cons. destruct (ascii_dec "*" c') as [E|Nc']; [|reflexivity].
      subst c'. exfalso.
      destruct r as [|c'' r]; [apply N; reflexivity|].
      rewrite strip_trailing_star_cons in Hhere.
      destruct (String.eqb_spec (String "*" (String c'' r)) "/*") as [E|_]; [discriminate|].
      rewrite prefix_cons in Hhere.
      destruct (ascii_dec "*" "*") as [_|Nn]; [|apply Nn; reflexivity].
      rewrite prefix_empty in Hhere. discriminate.
Qed.

Section Claims.
Context {W : Type} {host : Host W}.

(** C2, as the code has it.  For every project: without workspaces the
    dispatcher is the audit of the root directory, once.  With
    workspaces it audits the root first, which returns, and then walks
    the patterns in the order of the declaration: the base directory of
    a pattern is listed when the walk reaches the pattern, and each
    entry, in the order of the listing, is audited if it is a directory
    with a manifest when the walk reaches it.  There is one such walk;
    the directories it audits are entries of the base directories of
    the patterns, and the dispatcher is the loop of audits over them
    after the root.  The walk ends by throwing, and audits nothing
    further, at a pattern that is not a string, at a base directory that
    exists and cannot be listed, and at an entry that cannot be
    inspected; a declaration that cannot be iterated throws right after
    the root.  In particular, when the walk audits two directories and
    returns, the dispatcher has run three audits, the root first. *)
Theorem runSecurityAudit_targets (pm : PackageManagerInfo) (st : State W) :
  exists wi,
    getWorkspaceInfo cwd st = (Return wi, st) /\
    (hasWorkspaces wi = false ->
       runSecurityAudit pm st = runSecurityAuditForDirectory cwd pm st) /\
    (hasWorkspaces wi = true ->
       exists st0,
         runSecurityAuditForDirectory cwd pm
           (mkState (world st)
                    (trace st ++ [Log DetectedWorkspaceProject; Log CheckingRootProject]))
           = (Return tt, st0) /\
         (Json.iterate (packages wi) = None -> runSecurityAudit pm st = (Throw, st0)) /\
         (forall patterns,
            Json.iterate (packages wi) = Some patterns ->
            exists dirs,
              patterns_walk pm patterns st0 dirs (runSecurityAudit pm st) /\
              (forall dirs' r',
                 patterns_walk pm patterns st0 dirs' r' ->
                 dirs' = dirs /\ r' = runSecurityAudit pm st) /\
              Forall (fun dir => exists pattern entry,
                        In (JString pattern) patterns /\
                        dir = path_join [cwd; basePath pattern; entry]) dirs /\
              runSecurityAudit pm st =
              (console_log DetectedWorkspaceProject ;;
               console_log CheckingRootProject ;;
               runSecurityAuditForDirectory cwd pm ;;
               for_of dirs (auditMember pm) ;;
               ends_as (fst (runSecurityAudit pm st))) st /\
              (forall first second,
                 dirs = [first; second] ->
                 fst (runSecurityAudit pm st) = Return tt ->
                 runSecurityAudit pm st =
                 (console_log DetectedWorkspaceProject ;;
                  console_log CheckingRootProject ;;
                  runSecurityAuditForDirectory cwd pm ;;
                  console_log (CheckingWorkspace (path_relative cwd first)) ;;
                  runSecurityAuditForDirectory first pm ;;
                  console_log (CheckingWorkspace (path_relative cwd second)) ;;
                  runSecurityAuditForDirectory second pm) st))).
Proof.
  destruct (getWorkspaceInfo_returns cwd st) as [wi Hwi].
  exists wi. split; [exact Hwi|]. split.
  - intros Hno. apply (runSecurityAudit_plain pm st wi Hwi Hno).
  - intros Hhas.
    destruct (runSecurityAudit_after_root pm st wi Hwi Hhas) as [st0 [Hroot [Hthen Hrun]]].
    exists st0. split; [exact Hroot|]. split.
    + intros Hnone. rewrite Hrun, Hnone. reflexivity.
    + intros patterns Hsome. rewrite Hsome in Hrun.
      destruct (patterns_walk_total pm patterns st0) as [dirs Hwalk].
      rewrite <- Hrun in Hwalk.
      pose proof (patterns_walk_loop pm _ _ _ _ Hwalk) as Hloop.
      exists dirs. split; [exact Hwalk|]. split; [|split; [|split]].
      * intros dirs' r' H'. split.
        -- apply (patterns_walk_dirs pm _ _ _ _ Hwalk dirs' r' H').
        -- rewrite <- (patterns_walk_run pm _ _ _ _ H'). symmetry. exact Hrun.
      * apply (patterns_walk_children pm _ _ _ _ Hwalk).
      * rewrite Hthen. symmetry. exact Hloop.
      * intros first second Hdirs Hreturns.
        rewrite Hthen. rewrite <- Hloop at 1. rewrite Hdirs, Hreturns.
        unfold for_of, auditMember, ends_as. unfold bind, ret, console_log, emit.
        destruct (runSecurityAuditForDirectory first pm _) as [[[]|] s2]; [|reflexivity].
        destruct (runSecurityAuditForDirectory second pm _) as [[[]|] s3]; reflexivity.
Qed.

(** C9.  The audit of a directory never throws: whatever the commands
    do, the npm audit after a failed yarn audit included, the step
    returns, it has run an audit command in its directory, and it ends
    either with a displayed report or with a diagnostic line.  Hence,
    for every sequence of targets, the steps run one after the other all
    return, and each target in turn gets its audit command; so it is in
    the walk of the dispatcher over the root and the members of a
    workspace. *)
Theorem audit_failures_do_not_stop_the_walk (pm : PackageManagerInfo) :
  (forall dir (st : State W),
     exists st1 events,
       runSecurityAuditForDirectory dir pm st = (Return tt, st1) /\
       appended st st1 events /\
       (exists e, In e events /\ is_audit_in dir e = true) /\
       (audit_displayed dir pm st1 \/ ends_with_diagnostic events)) /\
  (forall targets (st : State W),
     exists st1 segments,
       for_of targets (fun target => runSecurityAuditForDirectory target pm) st
         = (Return tt, st1) /\
       appended st st1 (concat segments) /\
       Forall2 (fun target segment =>
                  exists e, In e segment /\ is_audit_in target e = true)
               targets segments) /\
  (forall (P : string -> Prop) patterns members (st : State W),
     commands_keep P ->
     (forall path, walked (world st) patterns path -> P path) ->
     getWorkspaceInfo cwd st =
       (Return {| hasWorkspaces := true; packages := JArray (map JString patterns) |}, st) ->
     workspace_dirs (world st) patterns = Some members ->
     exists st1 segments,
       runSecurityAudit pm st = (Return tt, st1) /\
       appended st st1 (concat segments) /\
       Forall2 (fun target segment =>
                  exists e, In e segment /\ is_audit_in target e = true)
               (cwd :: members) segments).
Proof.
  split; [|split].
  - intros dir st. apply step_returns.
  - intros targets st. apply steps_return.
  - intros P patterns members st Hkeep Hcover Hwi Hdirs.
    rewrite (runSecurityAudit_workspace P pm st patterns members Hkeep Hcover Hwi Hdirs).
    unfold bind at 1. unfold console_log at 1, emit.
    unfold bind at 1. unfold console_log at 1, emit. cbn [world trace].
    destruct (step_returns pm cwd
                (mkState (world st)
                         ((trace st ++ [Log DetectedWorkspaceProject])
                            ++ [Log CheckingRootProject])))
      as [st1 [events [Hrun [Happ [[e [Hin He]] _]]]]].
    unfold bind at 1. rewrite Hrun.
    destruct (members_return pm members st1) as [st2 [segments [Hrun2 [Happ2 Hall]]]].
    exists st2,
      ((Log DetectedWorkspaceProject :: Log CheckingRootProject :: events) :: segments).
    split; [exact Hrun2|]. split.
    + unfold appended in *. cbn [trace] in Happ. cbn [concat].
      rewrite Happ2, Happ, <- !app_assoc. reflexivity.
    + constructor; [|exact Hall].
      exists e. split; [right; right; exact Hin | exact He].
Qed.

(** C4, as the code has it.  The base directory of a workspace pattern is
    the pattern without its first occurrence of [/*]: a pattern in which
    [/*] does not occur is used as it is, and where [/*] occurs as the
    suffix and nowhere else, the base directory is the pattern without
    that suffix.  No glob is expanded: from every state, the directories
    audited for the pattern are entries of the listing of that one base
    directory, each a directory with a manifest when the walk reaches
    it; every command of the walk of the pattern runs in one of them,
    and each of them gets its audit. *)
Theorem workspace_pattern_members (pattern : string) :
  (forall a b, pattern = a ++ "/*" ++ b -> JS.includes "/*" a = false ->
               basePath pattern = a ++ b) /\
  (JS.includes "/*" pattern = false -> basePath pattern = pattern) /\
  (JS.includes "/*" (strip_trailing_star pattern) = false ->
     basePath pattern = strip_trailing_star pattern) /\
  (forall pm (st : State W),
     exists dirs events,
       pattern_walk pm (JString pattern) st dirs (auditPattern pm (JString pattern) st) /\
       Forall (fun dir => exists entries entry,
                 readdirSync (path_join [cwd; basePath pattern]) (world st) = Some entries /\
                 In entry entries /\
                 dir = path_join [cwd; basePath pattern; entry]) dirs /\
       appended st (snd (auditPattern pm (JString pattern) st)) events /\
       Forall (runs_in_one_of dirs) events /\
       Forall (fun dir => exists e, In e events /\ is_audit_in dir e = true) dirs).
Proof.
  split; [|split; [|split]].
  - intros a b -> Hno. apply basePath_first. exact Hno.
  - apply basePath_absent.
  - apply basePath_strip.
  - intros pm st.
    destruct (pattern_walk_total pm (JString pattern) st) as [dirs Hwalk].
    destruct (pattern_walk_events pm _ _ _ _ Hwalk) as [events [Happ [Hin Haud]]].
    exists dirs, events. split; [exact Hwalk|]. split; [|auto].
    apply (pattern_walk_children pm _ _ _ _ Hwalk).
Qed.

End Claims.

(** C4 as stated fails on ["packages/*/lib"]: the pattern has no trailing
    [/*] and would be used as it is, but the code removes the [/*] in
    the middle.  It fails on ["a/*b/*"] as well, where the code removes
    the first [/*] and leaves the trailing one. *)
Lemma basePath_is_not_trailing_strip :
  basePath "packages/*/lib" = "packages/lib" /\
  strip_trailing_star "packages/*/lib" = "packages/*/lib" /\
  basePath "packages/*/lib" <> strip_trailing_star "packages/*/lib" /\
  basePath "a/*b/*" = "ab/*" /\
  strip_trailing_star "a/*b/*" = "a/*b".
Proof. repeat split. discriminate. Qed.

(** ** The properties on the demo host *)

Import Demo.

(** The walk over the demo workspace when [yarn audit] fails: no npm
    audit at the root, one in each member, where it writes the lock
    file that the member then lists. *)
Example workspace_walk_trace :
  runSecurityAudit yarn_1_22 (start (workspace_world ["yarn audit"])) =
  (Return tt,
   mkState
     {| nodes :=
          [ ("/repo/packages/b/package-lock.json", File "{}");
            ("/repo/packages/a/package-lock.json", File "{}");
            ("/repo", Dir ["package.json"; "packages"; "yarn.lock"]);
            ("/repo/package.json", File root_manifest);
            ("/repo/yarn.lock", File "");
            ("/repo/packages", Dir ["a"; "b"; "README.md"]);
            ("/repo/packages/a", Dir ["package.json"; "package-lock.json"]);
            ("/repo/packages/a/package.json", File member_manifest);
            ("/repo/packages/b", Dir ["package.json"; "package-lock.json"]);
            ("/repo/packages/b/package.json", File member_manifest);
            ("/repo/packages/README.md", File "") ];
        failing := ["yarn audit"] |}
     [ Log DetectedWorkspaceProject; Log CheckingRootProject;
       Exec "yarn audit" (Some "/repo");
       Log AuditNotAvailable; Log AuditNotAvailableAdvice;
       Log (CheckingWorkspace "packages/a");
       Exec "yarn audit" (Some "/repo/packages/a");
       Log YarnAuditFailed; Log CreatingPackageLock;
       Exec "npm i --package-lock-only --ignore-scripts" (Some "/repo/packages/a");
       Exec "npm audit --json" (Some "/repo/packages/a");
       Log (Report "No vulnerabilities found!");
       Log (CheckingWorkspace "packages/b");
       Exec "yarn audit" (Some "/repo/packages/b");
       Log YarnAuditFailed; Log CreatingPackageLock;
       Exec "npm i --package-lock-only --ignore-scripts" (Some "/repo/packages/b");
       Exec "npm audit --json" (Some "/repo/packages/b");
       Log (Report "No vulnerabilities found!") ]).
Proof. reflexivity. Qed.

(** The same walk when every command succeeds. *)
Example workspace_walk_clean_trace :
  trace (snd (runSecurityAudit yarn_1_22 (start (workspace_world [])))) =
  [ Log DetectedWorkspaceProject; Log CheckingRootProject;
    Exec "yarn audit" (Some "/repo");
    Log (YarnReport Printer.NoVulnerabilities);
    Log (CheckingWorkspace "packages/a");
    Exec "yarn audit" (Some "/repo/packages/a");
    Log (YarnReport Printer.NoVulnerabilities);
    Log (CheckingWorkspace "packages/b");
    Exec "yarn audit" (Some "/repo/packages/b");
    Log (YarnReport Printer.NoVulnerabilities) ].
Proof. reflexivity. Qed.

(** A yarn project whose version is not known: the npm audit is tried
    twice in a member when it fails, once as the direct audit and once as
    the fallback, and the second time the lock file is there. *)
Example unknown_version_trace :
  trace (snd (runSecurityAuditForDirectory "/repo/packages/a" yarn_unknown
                (start (workspace_world ["npm audit --json"])))) =
  [ Log YarnNotFound; Log FallingBackToNpm; Log CreatingPackageLock;
    Exec "npm i --package-lock-only --ignore-scripts" (Some "/repo/packages/a");
    Exec "npm audit --json" (Some "/repo/packages/a");
    Log YarnAuditFailed;
    Exec "npm audit --json" (Some "/repo/packages/a");
    Log AuditNotCompleted; Log AuditNotCompletedHint; Log AuditNotCompletedAdvice ].
Proof. reflexivity. Qed.

(** C5 on a directory without a manifest and on one whose manifest is
    not JSON. *)
Lemma getWorkspaceInfo_absent_or_malformed_witness :
  getWorkspaceInfo "/repo" (start empty_world) = (Return no_workspaces, start empty_world) /\
  getWorkspaceInfo "/repo" (start broken_world) = (Return no_workspaces, start broken_world).
Proof.
  split.
  - apply getWorkspaceInfo_absent_or_malformed. left. reflexivity.
  - apply getWorkspaceInfo_absent_or_malformed. right.
    exists "invalid json". split; reflexivity.
Defined.


(** C7 on a yarn project, an npm project and a project without a lock
    file. *)
Lemma detectPackageManager_priority_witness :
  (exists pm st1, detectPackageManager "/repo" (start (workspace_world [])) = (Return pm, st1) /\
                  manager pm = yarn) /\
  detectPackageManager "/repo" (start plain_world) =
    (Return {| manager := npm; version := None; type := type_npm; displayName := "npm" |},
     start plain_world) /\
  detectPackageManager "/repo" (start empty_world) =
    (Return {| manager := npm; version := None; type := type_npm;
               displayName := "npm (default)" |},
     start empty_world).
Proof.
  split; [|split].
  - apply (proj1 (detectPackageManager_priority "/repo" (start (workspace_world [])))).
    reflexivity.
  - apply (proj1 (proj2 (detectPackageManager_priority "/repo" (start plain_world))));
      reflexivity.
  - apply (proj2 (proj2 (detectPackageManager_priority "/repo" (start empty_world))));
      reflexivity.
Defined.

(** C8 on a yarn project where [yarn --version] fails. *)
Lemma detectPackageManager_yarn_display_witness :
  exists pm st1,
    detectPackageManager "/repo" (start (workspace_world ["yarn --version"])) = (Return pm, st1) /\
    manager pm = yarn /\ version pm = None /\ displayName pm = "yarn null (1.x)".
Proof.
  destruct (detectPackageManager_yarn_display "/repo"
              (start (workspace_world ["yarn --version"])))
    as [pm [st1 [Hrun [Hmanager [_ [_ [_ Hunknown]]]]]]]; [reflexivity|].
  destruct Hunknown as [Hversion [_ Hname]]; [reflexivity|].
  exists pm, st1. auto.
Defined.

(** C3 on a member of the workspace where [yarn audit] fails. *)
Lemma yarn_failure_falls_back_to_npm_witness :
  exists wi st2 events,
    getWorkspaceInfo "/repo"
      (mkState (workspace_world ["yarn audit"]) [Exec "yarn audit" (Some "/repo/packages/a")])
      = (Return wi,
         mkState (workspace_world ["yarn audit"]) [Exec "yarn audit" (Some "/repo/packages/a")]) /\
    runSecurityAuditForDirectory "/repo/packages/a" yarn_1_22
      (start (workspace_world ["yarn audit"])) = (Return tt, st2) /\
    appended
      (mkState (workspace_world ["yarn audit"]) [Exec "yarn audit" (Some "/repo/packages/a")])
      st2 events /\
    audits events = [npm_audit_in "/repo/packages/a"].
Proof.
  destruct (yarn_failure_falls_back_to_npm "/repo/packages/a" yarn_1_22
              (start (workspace_world ["yarn audit"]))
              (mkState (workspace_world ["yarn audit"])
                       [Exec "yarn audit" (Some "/repo/packages/a")]))
    as [wi [st2 [events [Hwi [Hrun [Happ [Hfallback _]]]]]]]; [reflexivity..|].
  exists wi, st2, events. repeat split; auto.
  apply Hfallback. left. discriminate.
Defined.

(** C10 at the root of the workspace. *)
Lemma yarn_without_version_uses_npm_witness :
  exists st1 events rest,
    runSecurityAuditForDirectory "/repo" yarn_unknown (start (workspace_world []))
      = (Return tt, st1) /\
    appended (start (workspace_world [])) st1
             (Log YarnNotFound :: Log FallingBackToNpm :: events) /\
    audits events = npm_audit_in "/repo" :: rest /\
    Forall (eq (npm_audit_in "/repo")) rest /\
    filter is_yarn_audit events = [].
Proof.
  apply (yarn_without_version_uses_npm "/repo" yarn_unknown (start (workspace_world [])));
    reflexivity.
Defined.

(** C2 on a project without workspaces and on the workspace with two
    members, where the audits of the members write lock files. *)
Lemma runSecurityAudit_targets_witness :
  runSecurityAudit npm_default (start plain_world) =
    runSecurityAuditForDirectory "/repo" npm_default (start plain_world) /\
  runSecurityAudit yarn_1_22 (start (workspace_world ["yarn audit"])) =
    (console_log DetectedWorkspaceProject ;;
     console_log CheckingRootProject ;;
     runSecurityAuditForDirectory "/repo" yarn_1_22 ;;
     console_log (CheckingWorkspace "packages/a") ;;
     runSecurityAuditForDirectory "/repo/packages/a" yarn_1_22 ;;
     console_log (CheckingWorkspace "packages/b") ;;
     runSecurityAuditForDirectory "/repo/packages/b" yarn_1_22)
      (start (workspace_world ["yarn audit"])).
Proof.
  split.
  - destruct (runSecurityAudit_targets npm_default (start plain_world))
      as [wi [Hwi [Hplain _]]].
    apply Hplain. cbv in Hwi. inversion Hwi. reflexivity.
  - destruct (runSecurityAudit_targets yarn_1_22 (start (workspace_world ["yarn audit"])))
      as [wi [Hwi [_ Hworkspace]]].
    assert (Ewi : wi = {| hasWorkspaces := true; packages := JArray [JString "packages/*"] |}).
    { cbv in Hwi. inversion Hwi. reflexivity. }
    subst wi.
    destruct (Hworkspace eq_refl) as [st0 [Hroot [_ Hpatterns]]].
    destruct (Hpatterns [JString "packages/*"] eq_refl)
      as [dirs [Hwalk [Hunique [_ [_ Hthree]]]]].
    pose proof (patterns_walk_computed yarn_1_22 [JString "packages/*"] st0) as Hcomputed.
    destruct (Hunique _ _ Hcomputed) as [Edirs Erun].
    assert (Est0 : st0 = mkState (workspace_world ["yarn audit"])
                           [ Log DetectedWorkspaceProject; Log CheckingRootProject;
                             Exec "yarn audit" (Some "/repo");
                             Log AuditNotAvailable; Log AuditNotAvailableAdvice ]).
    { vm_compute in Hroot. inversion Hroot. reflexivity. }
    rewrite Est0 in Edirs.
    apply (Hthree "/repo/packages/a" "/repo/packages/b").
    + rewrite <- Edirs. vm_compute. reflexivity.
    + vm_compute. reflexivity.
Defined.

(** C2 as stated fails on the project whose patterns are
    [["README.md"; "a/*"]]: [a/x] is a directory with a manifest under
    the base directory of the second pattern, but the first pattern
    names a file, the walk throws there, and [a/x] is never audited. *)
Lemma runSecurityAudit_stops_at_a_file :
  is_member (host := Cases.host) (Cases.project Cases.file_pattern_manifest) "a" "x" = true /\
  fst (runSecurityAudit (host := Cases.host) yarn_1_22
         (start (Cases.project Cases.file_pattern_manifest))) = Throw /\
  filter (is_audit_in "/repo/a/x")
         (trace (snd (runSecurityAudit (host := Cases.host) yarn_1_22
                        (start (Cases.project Cases.file_pattern_manifest))))) = [].
Proof. repeat split. Qed.

(** C4 on the patterns ["packages/*"] and ["apps/web"]. *)
Lemma workspace_pattern_members_witness :
  basePath "packages/*" = "packages" /\
  basePath "apps/web" = "apps/web" /\
  exists events,
    pattern_walk yarn_1_22 (JString "packages/*") (start (workspace_world ["yarn audit"]))
                 ["/repo/packages/a"; "/repo/packages/b"]
                 (auditPattern yarn_1_22 (JString "packages/*")
                               (start (workspace_world ["yarn audit"]))) /\
    appended (start (workspace_world ["yarn audit"]))
             (snd (auditPattern yarn_1_22 (JString "packages/*")
                                (start (workspace_world ["yarn audit"])))) events /\
    Forall (runs_in_one_of ["/repo/packages/a"; "/repo/packages/b"]) events.
Proof.
  split; [|split].
  - refine (proj1 (workspace_pattern_members (W := World) "packages/*") "packages" "" _ _);
      reflexivity.
  - refine (proj1 (proj2 (workspace_pattern_members (W := World) "apps/web")) _).
    reflexivity.
  - destruct (proj2 (proj2 (proj2 (workspace_pattern_members "packages/*")))
                yarn_1_22 (start (workspace_world ["yarn audit"])))
      as [dirs [events [Hwalk [_ [Happ [Hin _]]]]]].
    pose proof (pattern_walk_dirs yarn_1_22 _ _ _ _ Hwalk _ _
                  (pattern_walk_computed yarn_1_22 (JString "packages/*")
                     (start (workspace_world ["yarn audit"])))) as Edirs.
    vm_compute in Edirs.
    subst dirs. exists events. auto.
Defined.

(** C9 on the root and the members of the workspace where both
    [yarn audit] and [npm audit] fail. *)
Lemma audit_failures_do_not_stop_the_walk_witness :
  exists st1 segments,
    for_of ["/repo"; "/repo/packages/a"; "/repo/packages/b"]
           (fun target => runSecurityAuditForDirectory target yarn_1_22)
           (start (workspace_world ["yarn audit"; "npm audit --json"]))
      = (Return tt, st1) /\
    appended (start (workspace_world ["yarn audit"; "npm audit --json"])) st1
             (concat segments) /\
    Forall2 (fun target segment => exists e, In e segment /\ is_audit_in target e = true)
            ["/repo"; "/repo/packages/a"; "/repo/packages/b"] segments.
Proof.
  exact (proj1 (proj2 (audit_failures_do_not_stop_the_walk yarn_1_22))
           ["/repo"; "/repo/packages/a"; "/repo/packages/b"]
           (start (workspace_world ["yarn audit"; "npm audit --json"]))).
Defined.

(** * Further properties of the code

    ** The manifest, the detection and the classification *)

Section ManifestEdges.
Context {W : Type} {host : Host W}.

(** X1.  [getWorkspaceInfo] never throws and changes nothing: for every
    directory and state it returns in the same state.  What it returns
    is either [{hasWorkspaces: false, packages: []}] or a record with
    [hasWorkspaces] true whose [packages] is a truthy value of the
    manifest. *)
Theorem getWorkspaceInfo_never_throws (dir : string) (st : State W) :
  exists wi,
    getWorkspaceInfo dir st = (Return wi, st) /\
    (hasWorkspaces wi = false -> wi = no_workspaces) /\
    (hasWorkspaces wi = true -> Json.truthy (Some (packages wi)) = true).
Proof.
  destruct (existsSync (path_join [dir; "package.json"]) (world st)) eqn:Hex;
    [|exists no_workspaces; split; [apply getWorkspaceInfo_absent; exact Hex|];
      split; [reflexivity | discriminate]].
  destruct (readFileSync (path_join [dir; "package.json"]) (world st)) as [text|] eqn:Hread;
    [|exists no_workspaces; split; [apply getWorkspaceInfo_unreadable; exact Hread|];
      split; [reflexivity | discriminate]].
  destruct (JSON_parse text) as [manifest|] eqn:Hparse;
    [|exists no_workspaces;
      split; [apply (getWorkspaceInfo_malformed dir st text Hread Hparse)|];
      split; [reflexivity | discriminate]].
  eexists. split; [apply (getWorkspaceInfo_parsed dir st text manifest Hex Hread Hparse)|].
  destruct (Json.get manifest "workspaces") as [[ws|]|];
    try (split; [reflexivity | discriminate]).
  destruct (Json.truthy (Some ws)) eqn:Tws; [|split; [reflexivity | discriminate]].
  destruct (Json.isArray ws); [split; [discriminate | intros _; exact Tws]|].
  destruct (Json.get ws "packages") as [[ps|]|];
    try (split; [reflexivity | discriminate]).
  destruct (Json.truthy (Some ps)) eqn:Tps; split;
    try reflexivity; try discriminate. intros _. exact Tps.
Qed.

(** X2.  A manifest that parses to a value other than an object ([null],
    a number, a string, a sequence) declares no workspaces: reading
    [workspaces] of [null] throws inside the [try], and of the others it
    is [undefined]. *)
Theorem getWorkspaceInfo_manifest_not_an_object
        (dir : string) (st : State W) (text : string) (manifest : JSON) :
  existsSync (path_join [dir; "package.json"]) (world st) = true ->
  readFileSync (path_join [dir; "package.json"]) (world st) = Some text ->
  JSON_parse text = Some manifest ->
  (forall fields, manifest <> JObject fields) ->
  getWorkspaceInfo dir st = (Return no_workspaces, st).
Proof.
  intros Hex Hread Hparse Hnot.
  rewrite (getWorkspaceInfo_parsed dir st text manifest Hex Hread Hparse).
  destruct manifest; try reflexivity. exfalso. apply (Hnot fields). reflexivity.
Qed.

(** X3.  A manifest whose [workspaces] is absent or falsy, or is not a
    sequence and has no truthy [packages], declares no workspaces: a
    record [workspaces] that holds [nohoist] alone is such a one. *)
Theorem getWorkspaceInfo_unusable_workspaces
        (dir : string) (st : State W) (text : string) (fields : list (string * JSON)) :
  existsSync (path_join [dir; "package.json"]) (world st) = true ->
  readFileSync (path_join [dir; "package.json"]) (world st) = Some text ->
  JSON_parse text = Some (JObject fields) ->
  Json.truthy (Json.lookup "workspaces" fields) = false \/
  (exists ws, Json.lookup "workspaces" fields = Some ws /\ Json.isArray ws = false /\
              Json.truthy (match Json.get ws "packages" with
                           | Some v => v
                           | None => None
                           end) = false) ->
  getWorkspaceInfo dir st = (Return no_workspaces, st).
Proof.
  intros Hex Hread Hparse Hcase.
  rewrite (getWorkspaceInfo_parsed dir st text _ Hex Hread Hparse).
  cbn [Json.get].
  destruct Hcase as [Hfalsy | [ws [Hws [Harr Hpk]]]].
  - destruct (Json.lookup "workspaces" fields) as [ws|]; [|reflexivity].
    rewrite Hfalsy. reflexivity.
  - rewrite Hws, Harr.
    destruct (Json.truthy (Some ws)); [|reflexivity].
    destruct (Json.get ws "packages") as [[ps|]|]; try reflexivity.
    rewrite Hpk. reflexivity.
Qed.

(** Two states that show the same manifest give the same answer. *)
Lemma getWorkspaceInfo_same_reads (dir : string) (st st' : State W) :
  existsSync (path_join [dir; "package.json"]) (world st) =
    existsSync (path_join [dir; "package.json"]) (world st') ->
  readFileSync (path_join [dir; "package.json"]) (world st) =
    readFileSync (path_join [dir; "package.json"]) (world st') ->
  fst (getWorkspaceInfo dir st) = fst (getWorkspaceInfo dir st').
Proof.
  intros Hex Hread.
  destruct (existsSync (path_join [dir; "package.json"]) (world st')) eqn:Hex'.
  - destruct (readFileSync (path_join [dir; "package.json"]) (world st')) as [text|] eqn:Hread'.
    + destruct (JSON_parse text) as [manifest|] eqn:Hparse.
      * rewrite (getWorkspaceInfo_parsed dir st text manifest Hex Hread Hparse).
        rewrite (getWorkspaceInfo_parsed dir st' text manifest Hex' Hread' Hparse).
        reflexivity.
      * rewrite (getWorkspaceInfo_malformed dir st text Hread Hparse).
        rewrite (getWorkspaceInfo_malformed dir st' text Hread' Hparse).
        reflexivity.
    + rewrite (getWorkspaceInfo_unreadable dir st Hread).
      rewrite (getWorkspaceInfo_unreadable dir st' Hread'). reflexivity.
  - rewrite (getWorkspaceInfo_absent dir st Hex).
    rewrite (getWorkspaceInfo_absent dir st' Hex'). reflexivity.
Qed.

(** X4.  The answer of [getWorkspaceInfo] depends on the world only
    through the manifest of the directory: two states in which the
    manifest exists alike and reads alike give the same answer, whatever
    else differs, and both are left as they are. *)
Theorem getWorkspaceInfo_reads_only_the_manifest (dir : string) (st st' : State W) :
  existsSync (path_join [dir; "package.json"]) (world st) =
    existsSync (path_join [dir; "package.json"]) (world st') ->
  readFileSync (path_join [dir; "package.json"]) (world st) =
    readFileSync (path_join [dir; "package.json"]) (world st') ->
  fst (getWorkspaceInfo dir st) = fst (getWorkspaceInfo dir st') /\
  snd (getWorkspaceInfo dir st) = st /\
  snd (getWorkspaceInfo dir st') = st'.
Proof.
  intros Hex Hread. split; [apply getWorkspaceInfo_same_reads; assumption|].
  destruct (getWorkspaceInfo_returns dir st) as [wi ->].
  destruct (getWorkspaceInfo_returns dir st') as [wi' ->]. auto.
Qed.

End ManifestEdges.

Section DetectionEdges.
Context {W : Type} {host : Host W}.

(** X5.  [detectPackageManager] never throws.  Without a yarn lock file
    it runs no command and leaves the state as it is; with one, the only
    thing it does is to run [yarn --version] once, without a working
    directory. *)
Theorem detectPackageManager_commands (dir : string) (st : State W) :
  exists pm st1,
    detectPackageManager dir st = (Return pm, st1) /\
    (existsSync (path_join [dir; "yarn.lock"]) (world st) = false -> st1 = st) /\
    (existsSync (path_join [dir; "yarn.lock"]) (world st) = true ->
       appended st st1 [Exec "yarn --version" None] /\
       world st1 = snd (exec "yarn --version" None (world st))).
Proof.
  rewrite detectPackageManager_run.
  destruct (existsSync (path_join [dir; "yarn.lock"]) (world st)).
  - eexists. eexists. split; [reflexivity|]. split; [discriminate|].
    intros _. split; reflexivity.
  - destruct (existsSync (path_join [dir; "package-lock.json"]) (world st));
      eexists; eexists; (split; [reflexivity|]); (split; [reflexivity|discriminate]).
Qed.

Lemma yarn_of_type_of_yarn (t : YarnVersionType) : yarn_of_type (type_of_yarn t) = t.
Proof. destruct t as [[|]|]; reflexivity. Qed.

Lemma type_of_yarn_not_npm (t : YarnVersionType) : type_of_yarn t <> type_npm.
Proof. destruct t as [[|]|]; discriminate. Qed.

(** X6.  The record that [detectPackageManager] returns is consistent:
    the manager is npm exactly when the type is [npm], and then the
    version is [null]; for yarn the type is the classification of the
    version; and the version is falsy exactly when the type is [npm] or
    [null]. *)
Theorem detectPackageManager_consistent
        (dir : string) (st st1 : State W) (pm : PackageManagerInfo) :
  detectPackageManager dir st = (Return pm, st1) ->
  (manager pm = npm <-> type pm = type_npm) /\
  (manager pm = npm -> version pm = None) /\
  (manager pm = yarn ->
     type pm = type_of_yarn (getYarnVersionType (version pm)) /\
     yarn_of_type (type pm) = getYarnVersionType (version pm)) /\
  (JS.falsy_string (version pm) = true <->
     type pm = type_npm \/ type pm = type_null).
Proof.
  rewrite detectPackageManager_run.
  destruct (existsSync (path_join [dir; "yarn.lock"]) (world st)).
  - intros H. inversion H; subst pm; clear H. cbn [manager type version yarn_info].
    split; [|split; [|split]].
    + split; [discriminate|]. intros E. exfalso. exact (type_of_yarn_not_npm _ E).
    + discriminate.
    + intros _. split; [reflexivity | apply yarn_of_type_of_yarn].
    + match goal with |- context [getYarnVersionType ?v] => generalize v end.
      intros v. unfold getYarnVersionType.
      destruct (JS.falsy_string v) eqn:F.
      * split; auto.
      * destruct (JS.number_ge _ 2); cbn;
          (split; [discriminate | intros [E|E]; discriminate]).
  - destruct (existsSync (path_join [dir; "package-lock.json"]) (world st));
      intros H; inversion H; subst pm; clear H; cbn;
      (split; [tauto|]); (split; [reflexivity|]); (split; [discriminate|]);
      split; auto.
Qed.

End DetectionEdges.

(** ** Version strings *)

Lemma split_dot_head_app (a b : string) :
  JS.includes "." a = false -> JS.split_dot_head (a ++ "." ++ b) = a.
Proof.
  induction a as [|c a IH]; intros Hno.
  - reflexivity.
  - apply includes_cons in Hno. destruct Hno as [Hhere Hlater].
    change (String c a ++ "." ++ b) with (String c (a ++ "." ++ b)).
    cbn [JS.split_dot_head].
    rewrite prefix_cons in Hhere.
    destruct (Ascii.eqb_spec c ".") as [E|N].
    + subst c. destruct (ascii_dec "." ".") as [_|N]; [|contradiction].
      rewrite prefix_empty in Hhere. discriminate.
    + rewrite IH by exact Hlater. reflexivity.
Qed.

(** X7.  The classification of a dotted version depends on nothing but
    the text before the first dot: [getYarnVersionType(major.rest)] is
    ['yarn2+'] when [major] parses to an integer that is at least 2, and
    ['yarn1'] otherwise, for every [rest]. *)
Theorem getYarnVersionType_leading_component (major rest : string) :
  JS.includes "." major = false ->
  getYarnVersionType (Some (major ++ "." ++ rest)) =
  if JS.number_ge (JS.parseInt10 major) 2 then Some yarn2plus else Some yarn1.
Proof.
  intros Hno.
  destruct (major ++ "." ++ rest) as [|c s] eqn:E.
  - destruct major; discriminate.
  - rewrite getYarnVersionType_nonempty, <- E, split_dot_head_app by exact Hno.
    reflexivity.
Qed.

Section StepEdges.
Context {W : Type} {host : Host W}.

(** X8.  [runNpmAudit] and the lock file.  When the directory has a
    [package-lock.json], the only thing the call does is to run
    [npm audit --json] there.  When it has none, the call announces the
    creation, runs [npm i --package-lock-only --ignore-scripts] there,
    prints a warning if that fails, and runs the audit all the same. *)
Theorem runNpmAudit_lock_file (dir : string) (st : State W) :
  (existsSync (path_join [dir; "package-lock.json"]) (world st) = true ->
     exists r st1,
       runNpmAudit dir st = (r, st1) /\
       appended st st1 [npm_audit_in dir]) /\
  (existsSync (path_join [dir; "package-lock.json"]) (world st) = false ->
     exists r st1,
       runNpmAudit dir st = (r, st1) /\
       appended st st1
         (Log CreatingPackageLock ::
          Exec "npm i --package-lock-only --ignore-scripts" (Some dir) ::
          match fst (exec "npm i --package-lock-only --ignore-scripts" (Some dir) (world st)) with
          | Some _ => [npm_audit_in dir]
          | None => [Log CouldNotCreatePackageLock; npm_audit_in dir]
          end)).
Proof.
  unfold runNpmAudit, try_catch, bind, probe, console_log, emit, execPromise, of_option, ret, throw.
  split; intros Hlock; rewrite Hlock; cbn -[path_join].
  - destruct (exec "npm audit --json" (Some dir) (world st)) as [[out|] w2]; cbn.
    + destruct (JSON_parse (fst out)); cbn; eexists; eexists; split; reflexivity.
    + eexists; eexists; split; reflexivity.
  - destruct (exec "npm i --package-lock-only --ignore-scripts" (Some dir) (world st))
      as [[o|] w1]; cbn;
    destruct (exec "npm audit --json" (Some dir) w1) as [[out|] w2]; cbn;
    try destruct (JSON_parse (fst out)); cbn;
    eexists; eexists; (split; [reflexivity|]);
    unfold appended; cbn; repeat rewrite <- app_assoc; reflexivity.
Qed.

(** X9.  The result of [runNpmAudit] is the parsed output of
    [npm audit --json], run in the world that the creation of the lock
    file left; the call throws exactly when that command fails or its
    output is not JSON.  A failed creation of the lock file does not
    make it throw. *)
Theorem runNpmAudit_result (dir : string) (st : State W) :
  let prepared :=
    if existsSync (path_join [dir; "package-lock.json"]) (world st)
    then world st
    else snd (exec "npm i --package-lock-only --ignore-scripts" (Some dir) (world st)) in
  fst (runNpmAudit dir st) =
    match fst (exec "npm audit --json" (Some dir) prepared) with
    | Some output =>
        match JSON_parse (fst output) with
        | Some report => Return report
        | None => Throw
        end
    | None => Throw
    end /\
  world (snd (runNpmAudit dir st)) = snd (exec "npm audit --json" (Some dir) prepared).
Proof.
  unfold runNpmAudit, try_catch, bind, probe, console_log, emit, execPromise, of_option, ret, throw.
  destruct (existsSync (path_join [dir; "package-lock.json"]) (world st)); cbn -[path_join].
  - destruct (exec "npm audit --json" (Some dir) (world st)) as [[out|] w2]; cbn.
    + destruct (JSON_parse (fst out)); cbn; split; reflexivity.
    + split; reflexivity.
  - destruct (exec "npm i --package-lock-only --ignore-scripts" (Some dir) (world st))
      as [[o|] w1]; cbn;
    destruct (exec "npm audit --json" (Some dir) w1) as [[out|] w2]; cbn;
    try destruct (JSON_parse (fst out)); cbn; split; reflexivity.
Qed.

Lemma yarn_catch_audits (dir : string) (pm : PackageManagerInfo) (st : State W) :
  exists st1 events,
    yarn_catch dir st = (Return tt, st1) /\
    appended st st1 events /\
    (audits events = [npm_audit_in dir] \/ audits events = []).
Proof.
  destruct (yarn_catch_spec dir pm st)
    as [wi [st1 [events [_ [Hrun [Happ [_ [Hfb Hroot]]]]]]]].
  exists st1, events. split; [exact Hrun|]. split; [exact Happ|].
  destruct (String.eqb_spec dir cwd) as [E|N]; [|left; apply Hfb; left; exact N].
  destruct (hasWorkspaces wi) eqn:Hws; [|left; apply Hfb; right; reflexivity].
  right. specialize (Hroot (conj E eq_refl)).
  unfold audits. clear - Hroot.
  induction events as [|e l IH]; [reflexivity|].
  destruct e; cbn in *; [discriminate|]. apply IH. exact Hroot.
Qed.

(** The step when the version is not known. *)
Lemma falsy_version_step (dir : string) (pm : PackageManagerInfo) (st : State W) :
  manager pm = yarn ->
  JS.falsy_string (version pm) = true ->
  exists st1 events rest,
    runSecurityAuditForDirectory dir pm st = (Return tt, st1) /\
    appended st st1 events /\
    audits events = npm_audit_in dir :: rest /\
    (rest = [] \/ rest = [npm_audit_in dir]).
Proof.
  intros Hm Hv.
  rewrite runSecurityAuditForDirectory_parts, Hm, Hv.
  unfold try_catch.
  destruct (direct_npm_spec dir st) as [r [st1 [events [Hrun [Happ [Haud _]]]]]].
  rewrite Hrun.
  assert (Hfirst : audits (Log YarnNotFound :: Log FallingBackToNpm :: events)
                   = [npm_audit_in dir]) by exact Haud.
  destruct r as [[]|].
  - exists st1, (Log YarnNotFound :: Log FallingBackToNpm :: events), []. auto.
  - destruct (yarn_catch_audits dir pm st1) as [st2 [events2 [Hrun2 [Happ2 Hcases]]]].
    rewrite Hrun2.
    exists st2, ((Log YarnNotFound :: Log FallingBackToNpm :: events) ++ events2)%list,
           (audits events2).
    split; [reflexivity|]. split; [eapply appended_trans; eassumption|].
    split; [rewrite audits_app, Hfirst; reflexivity|].
    destruct Hcases as [H|H]; rewrite H; auto.
Qed.

(** The step when the version is known. *)
Lemma known_version_step (dir : string) (pm : PackageManagerInfo) (st : State W) :
  manager pm = yarn ->
  JS.falsy_string (version pm) = false ->
  exists st1 events rest,
    runSecurityAuditForDirectory dir pm st = (Return tt, st1) /\
    appended st st1 events /\
    audits events = Exec (yarn_command (yarn_of_type (type pm))) (Some dir) :: rest /\
    (rest = [] \/ rest = [npm_audit_in dir]).
Proof.
  intros Hm Hv.
  rewrite runSecurityAuditForDirectory_parts, Hm, Hv.
  unfold try_catch.
  destruct (yarn_attempt_spec dir (yarn_of_type (type pm)) st)
    as [r [st1 [events [Hrun [Happ [Haud _]]]]]].
  rewrite Hrun. destruct r as [[]|].
  - exists st1, events, []. auto.
  - destruct (yarn_catch_audits dir pm st1) as [st2 [events2 [Hrun2 [Happ2 Hcases]]]].
    rewrite Hrun2. exists st2, (events ++ events2)%list, (audits events2).
    split; [reflexivity|]. split; [eapply appended_trans; eassumption|].
    split; [rewrite audits_app, Haud; reflexivity|].
    destruct Hcases as [H|H]; rewrite H; auto.
Qed.

(** X10.  The audit of a directory returns, and all it does stays with
    that directory: every command it runs has the directory as its
    working directory and is one of the command lines of the source, and
    it runs one audit or two, never none and never more. *)
Theorem step_stays_in_its_directory (dir : string) (pm : PackageManagerInfo) (st : State W) :
  exists st1 events,
    runSecurityAuditForDirectory dir pm st = (Return tt, st1) /\
    appended st st1 events /\
    Forall (runs_in dir) events /\
    Forall is_known events /\
    (1 <= List.length (audits events) <= 2)%nat.
Proof.
  destruct (step_returns pm dir st) as [st1 [events [Hrun [Happ _]]]].
  exists st1, events. split; [exact Hrun|]. split; [exact Happ|].
  assert (Hsame : forall events', appended st st1 events' -> events' = events).
  { intros events' H. unfold appended in *. rewrite Happ in H.
    apply app_inv_head in H. symmetry. exact H. }
  split; [|split].
  - destruct (adds_runSecurityAuditForDirectory (runs_in dir) (fun _ => I) dir pm
                eq_refl eq_refl (fun _ _ => eq_refl) st) as [events' [H1 H2]].
    rewrite Hrun in H1. rewrite <- (Hsame events' H1). exact H2.
  - destruct (adds_runSecurityAuditForDirectory is_known (fun _ => I) dir pm) with (st := st)
      as [events' [H1 H2]].
    + cbn. tauto.
    + cbn. tauto.
    + intros _ _. destruct (yarn_of_type (type pm)) as [[|]|]; cbn; tauto.
    + rewrite Hrun in H1. rewrite <- (Hsame events' H1). exact H2.
  - destruct (manager pm) eqn:Hm.
    + destruct (guarded_npm_attempt_spec dir pm st) as [st2 [ev [Hrun2 [Happ2 [Haud _]]]]].
      rewrite runSecurityAuditForDirectory_parts, Hm, Hrun2 in Hrun.
      inversion Hrun; subst st2. rewrite <- (Hsame ev Happ2), Haud. cbn. lia.
    + destruct (JS.falsy_string (version pm)) eqn:Hv.
      * destruct (falsy_version_step dir pm st Hm Hv)
          as [st2 [ev [rest [Hrun2 [Happ2 [Haud Hrest]]]]]].
        rewrite Hrun in Hrun2. inversion Hrun2; subst st2.
        rewrite <- (Hsame ev Happ2), Haud.
        destruct Hrest as [-> | ->]; cbn; lia.
      * destruct (known_version_step dir pm st Hm Hv)
          as [st2 [ev [rest [Hrun2 [Happ2 [Haud Hrest]]]]]].
        rewrite Hrun in Hrun2. inversion Hrun2; subst st2.
        rewrite <- (Hsame ev Happ2), Haud.
        destruct Hrest as [-> | ->]; cbn; lia.
Qed.

(** X11.  For an npm project the audit of a directory runs exactly one
    audit, [npm audit --json] in that directory, and no yarn command. *)
Theorem npm_manager_never_runs_yarn (dir : string) (pm : PackageManagerInfo) (st : State W) :
  manager pm = npm ->
  exists st1 events,
    runSecurityAuditForDirectory dir pm st = (Return tt, st1) /\
    appended st st1 events /\
    audits events = [npm_audit_in dir] /\
    Forall not_yarn events.
Proof.
  intros Hm.
  destruct (guarded_npm_attempt_spec dir pm st) as [st1 [events [Hrun [Happ [Haud _]]]]].
  assert (Hstep : runSecurityAuditForDirectory dir pm st = (Return tt, st1)).
  { rewrite runSecurityAuditForDirectory_parts, Hm. exact Hrun. }
  exists st1, events. split; [exact Hstep|]. split; [exact Happ|]. split; [exact Haud|].
  destruct (adds_runSecurityAuditForDirectory not_yarn (fun _ => I) dir pm) with (st := st)
    as [events' [H1 H2]]; try reflexivity.
  - rewrite Hm. discriminate.
  - rewrite Hstep in H1. unfold appended in *. cbn [snd] in H1. rewrite Happ in H1.
    apply app_inv_head in H1. rewrite H1. exact H2.
Qed.

(** X12.  For a yarn project with a known version, when the yarn audit
    of the directory succeeds, the step is that command and the lines
    that [displayYarnAuditResults] computes from its output, and nothing
    more: no npm command, no line of the fallback. *)
Theorem yarn_audit_that_succeeds
        (dir : string) (pm : PackageManagerInfo) (st : State W) (output : string * string) :
  manager pm = yarn ->
  JS.falsy_string (version pm) = false ->
  fst (exec (yarn_command (yarn_of_type (type pm))) (Some dir) (world st)) = Some output ->
  runSecurityAuditForDirectory dir pm st =
  (Return tt,
   mkState (snd (exec (yarn_command (yarn_of_type (type pm))) (Some dir) (world st)))
           (trace st ++
            Exec (yarn_command (yarn_of_type (type pm))) (Some dir) ::
            map (fun line => Log (YarnReport line))
                (Printer.displayYarnAuditResults (fst output) (snd output)))).
Proof.
  intros Hm Hv Hout.
  rewrite runSecurityAuditForDirectory_parts, Hm, Hv.
  unfold try_catch, yarn_attempt, bind. rewrite runYarnAudit_run, Hout.
  unfold displayYarnAuditResults. rewrite (lines_run YarnReport). cbn [world trace].
  rewrite <- app_assoc. reflexivity.
Qed.

(** X13.  [detectPackageManager] followed by the audit.  In a project
    with a yarn lock file where [yarn --version] fails or prints nothing,
    the manager detected is yarn with the type [null], and every
    directory audited with it gets [npm audit --json] as its first
    audit, at most once more after it, and no yarn command at all. *)
Theorem yarn_lock_without_yarn (dir : string) (st : State W) :
  existsSync (path_join [dir; "yarn.lock"]) (world st) = true ->
  JS.falsy_string match fst (exec "yarn --version" None (world st)) with
                  | Some output => Some (JS.trim (fst output))
                  | None => None
                  end = true ->
  exists pm st1,
    detectPackageManager dir st = (Return pm, st1) /\
    manager pm = yarn /\ type pm = type_null /\
    forall target (st2 : State W),
    exists st3 events rest,
      runSecurityAuditForDirectory target pm st2 = (Return tt, st3) /\
      appended st2 st3 events /\
      audits events = npm_audit_in target :: rest /\
      (rest = [] \/ rest = [npm_audit_in target]) /\
      Forall not_yarn events.
Proof.
  intros Hlock Hfalsy. rewrite detectPackageManager_run, Hlock.
  eexists. eexists. split; [reflexivity|].
  split; [reflexivity|]. split.
  - cbn [type yarn_info]. unfold getYarnVersionType. rewrite Hfalsy. reflexivity.
  - intros target st2.
    match goal with |- context [yarn_info ?v] => set (pm := yarn_info v) end.
    destruct (falsy_version_step target pm st2 eq_refl Hfalsy)
      as [st3 [events [rest [Hrun [Happ [Haud Hrest]]]]]].
    exists st3, events, rest. repeat split; auto.
    destruct (adds_runSecurityAuditForDirectory not_yarn (fun _ => I) target pm)
      with (st := st2) as [events' [H1 H2]]; try reflexivity.
    + intros _ Hknown. subst pm. cbn [version yarn_info] in Hknown.
      rewrite Hfalsy in Hknown. discriminate.
    + rewrite Hrun in H1. unfold appended in *. cbn [snd] in H1. rewrite Happ in H1.
      apply app_inv_head in H1. rewrite H1. exact H2.
Qed.

(** X14.  [detectPackageManager] followed by the audit.  In a project
    with a yarn lock file where [yarn --version] prints a version, the
    first audit of every directory is the yarn audit that fits the
    classification of that version ([yarn npm audit] for 2+, [yarn audit]
    otherwise), and the only audit that may follow it is the npm audit
    of the directory. *)
Theorem yarn_lock_with_yarn (dir : string) (st : State W) (output : string * string) :
  existsSync (path_join [dir; "yarn.lock"]) (world st) = true ->
  fst (exec "yarn --version" None (world st)) = Some output ->
  JS.falsy_string (Some (JS.trim (fst output))) = false ->
  exists pm st1,
    detectPackageManager dir st = (Return pm, st1) /\
    manager pm = yarn /\
    type pm = type_of_yarn (getYarnVersionType (Some (JS.trim (fst output)))) /\
    forall target (st2 : State W),
    exists st3 events rest,
      runSecurityAuditForDirectory target pm st2 = (Return tt, st3) /\
      appended st2 st3 events /\
      audits events =
        Exec (yarn_command (getYarnVersionType (Some (JS.trim (fst output))))) (Some target)
        :: rest /\
      (rest = [] \/ rest = [npm_audit_in target]).
Proof.
  intros Hlock Hout Hknown. rewrite detectPackageManager_run, Hlock, Hout.
  eexists. eexists. split; [reflexivity|].
  split; [reflexivity|]. split; [reflexivity|].
  intros target st2.
  match goal with |- context [yarn_info ?v] => set (pm := yarn_info v) end.
  destruct (known_version_step target pm st2 eq_refl Hknown)
    as [st3 [events [rest [Hrun [Happ [Haud Hrest]]]]]].
  exists st3, events, rest. split; [exact Hrun|]. split; [exact Happ|]. split; [|exact Hrest].
  rewrite Haud. subst pm. cbn [type yarn_info]. rewrite yarn_of_type_of_yarn. reflexivity.
Qed.

End StepEdges.

(** ** The walk: what it runs, and how it fails *)

Section WalkEdges.
Context {W : Type} {host : Host W}.

(** X15.  Whatever the manifest declares and whatever the directories
    hold, the commands that [runSecurityAudit] runs are the four command
    lines of the audit, each run with a working directory: no text of
    the manifest and no name of a directory becomes part of a command
    line, and [yarn --version] is not run, in no directory and without
    one. *)
Theorem runSecurityAudit_command_lines (pm : PackageManagerInfo) (st : State W) :
  exists events,
    appended st (snd (runSecurityAudit pm st)) events /\
    Forall runs_audit_line events /\
    forall dir, ~ In (Exec "yarn --version" dir) events.
Proof.
  destruct (adds_runSecurityAudit runs_audit_line pm) with (st := st)
    as [events [Happ Hall]].
  - intros m. exact I.
  - intros dir. apply adds_runSecurityAuditForDirectory.
    + intros m. exact I.
    + split; [cbn; tauto | discriminate].
    + split; [cbn; tauto | discriminate].
    + intros _ _. split; [|discriminate].
      destruct (yarn_of_type (type pm)) as [[|]|]; cbn; tauto.
  - exists events. split; [exact Happ|]. split; [exact Hall|].
    intros dir Hin. rewrite Forall_forall in Hall.
    destruct (Hall _ Hin) as [Hline _]. cbn in Hline.
    repeat (destruct Hline as [Hline|Hline]; [discriminate Hline|]). exact Hline.
Qed.

(** X17.  A declaration that is not a sequence of strings.  When the
    value of [packages] cannot be iterated (an object, a number, [true]),
    or one of its items is not a string, [runSecurityAudit] throws, and
    it does so after the audit of the root, which has returned. *)
Theorem runSecurityAudit_malformed_packages
        (pm : PackageManagerInfo) (st : State W) (wi : WorkspaceInfo) :
  getWorkspaceInfo cwd st = (Return wi, st) ->
  hasWorkspaces wi = true ->
  Json.iterate (packages wi) = None \/
  (exists items bad, Json.iterate (packages wi) = Some items /\ In bad items /\
                     forall p, bad <> JString p) ->
  exists st1 events rest,
    runSecurityAuditForDirectory cwd pm
      (mkState (world st)
               (trace st ++ [Log DetectedWorkspaceProject; Log CheckingRootProject]))
      = (Return tt, st1) /\
    appended st st1 (Log DetectedWorkspaceProject :: Log CheckingRootProject :: events) /\
    fst (runSecurityAudit pm st) = Throw /\
    appended st1 (snd (runSecurityAudit pm st)) rest.
Proof.
  intros Hwi Hhas Hbad.
  destruct (step_returns pm cwd
              (mkState (world st)
                       (trace st ++ [Log DetectedWorkspaceProject; Log CheckingRootProject])))
    as [st1 [events [Hrun [Happ _]]]].
  assert (Hshape : runSecurityAudit pm st =
                   (patterns <- of_option (Json.iterate (packages wi)) ;;
                    for_of patterns (auditPattern pm)) st1).
  { unfold runSecurityAudit. unfold bind at 1. rewrite Hwi, Hhas.
    unfold bind at 1. unfold console_log at 1, emit.
    unfold bind at 1. unfold console_log at 1, emit. cbn [world trace].
    unfold bind at 1. rewrite <- app_assoc. cbn [app]. rewrite Hrun. reflexivity. }
  destruct (adds_bind (fun _ => True) (of_option (Json.iterate (packages wi)))
                      (fun patterns => for_of patterns (auditPattern pm))) with (st := st1)
    as [rest [Hrest _]].
  { apply adds_of_option. }
  { intros patterns. apply adds_for_of. intros pattern. apply adds_auditPattern.
    - intros m. exact I.
    - intros dir. apply adds_runSecurityAuditForDirectory; intros; exact I. }
  exists st1, events, rest. split; [exact Hrun|]. split.
  { unfold appended in *. cbn [trace] in Happ. rewrite Happ, <- app_assoc. reflexivity. }
  rewrite Hshape. split; [|exact Hrest].
  destruct Hbad as [Hnone | [items [bad [Hsome [Hin Hnot]]]]].
  - unfold bind, of_option. rewrite Hnone. reflexivity.
  - unfold bind at 1. unfold of_option. rewrite Hsome. cbn [ret].
    apply (for_of_throws (auditPattern pm) bad items Hin).
    intros s. destruct bad; try reflexivity. exfalso. apply (Hnot s0). reflexivity.
Qed.

(** X16.  The walk fails where it cannot inspect.  After the root and
    the patterns walked so far, a pattern whose base directory exists
    and cannot be listed makes [runSecurityAudit] throw in the state the
    walk has reached; so does an entry that cannot be inspected when the
    walk reaches it, the first entry of the listing for one.  The
    patterns after it are not walked. *)
Theorem runSecurityAudit_cannot_inspect
        (pm : PackageManagerInfo) (st : State W) (wi : WorkspaceInfo)
        (before : list JSON) (pattern : string) (after : list JSON)
        (st0 : State W) (dirs : list string) (st1 : State W) :
  getWorkspaceInfo cwd st = (Return wi, st) ->
  hasWorkspaces wi = true ->
  Json.iterate (packages wi) = Some (before ++ JString pattern :: after)%list ->
  runSecurityAuditForDirectory cwd pm
    (mkState (world st)
             (trace st ++ [Log DetectedWorkspaceProject; Log CheckingRootProject]))
    = (Return tt, st0) ->
  patterns_walk pm before st0 dirs (Return tt, st1) ->
  existsSync (path_join [cwd; basePath pattern]) (world st1) = true ->
  (readdirSync (path_join [cwd; basePath pattern]) (world st1) = None ->
     runSecurityAudit pm st = (Throw, st1)) /\
  (forall entries more st2,
     readdirSync (path_join [cwd; basePath pattern]) (world st1) = Some entries ->
     entries_walk pm (basePath pattern) entries st1 more (Throw, st2) ->
     runSecurityAudit pm st = (Throw, st2)) /\
  (forall entry rest,
     readdirSync (path_join [cwd; basePath pattern]) (world st1) = Some (entry :: rest) ->
     statSync_isDirectory (path_join [cwd; basePath pattern; entry]) (world st1) = None ->
     runSecurityAudit pm st = (Throw, st1)).
Proof.
  intros Hwi Hhas Hsome Hroot Hbefore Hex.
  destruct (runSecurityAudit_after_root pm st wi Hwi Hhas) as [st0' [Hroot' [_ Hrun]]].
  rewrite Hroot in Hroot'. inversion Hroot'; subst st0'. clear Hroot'.
  rewrite Hsome in Hrun.
  assert (Hstop : forall ds r,
             pattern_walk pm (JString pattern) st1 ds r -> fst r = Throw ->
             runSecurityAudit pm st = r).
  { intros ds [o s] Hwalk Hthrow. cbn [fst] in Hthrow. subst o.
    rewrite Hrun, for_of_app.
    unfold bind. rewrite (patterns_walk_run pm _ _ _ _ Hbefore).
    apply (patterns_walk_run pm _ _ _ _
             (pattern_stopped pm (JString pattern) after st1 ds s Hwalk)). }
  split; [|split].
  - intros Hlist.
    apply (Hstop [] (Throw, st1)); [apply pattern_not_listed; assumption | reflexivity].
  - intros entries more st2 Hlist Hwalk.
    apply (Hstop more (Throw, st2)); [|reflexivity].
    eapply pattern_listed; eassumption.
  - intros entry rest Hlist Hstat.
    apply (Hstop [] (Throw, st1)); [|reflexivity].
    eapply pattern_listed; [exact Hex | exact Hlist |].
    apply entry_not_inspected. exact Hstat.
Qed.

Lemma chars_letters (s : string) : Json.chars s = map JString (letters s).
Proof. induction s as [|c s IH]; [reflexivity|]. cbn. rewrite IH. reflexivity. Qed.

Lemma basePath_letter (c : ascii) : basePath (String c EmptyString) = String c EmptyString.
Proof. destruct c as [[] [] [] [] [] [] [] []]; reflexivity. Qed.

(** X18.  A [packages] that is a string is walked character by
    character: after the audit of the root, the walk is the walk of the
    one-letter patterns, the base directory of each is the letter
    itself, and every directory audited is an entry of a one-letter
    directory under the root. *)
Theorem string_packages_walked_by_letter
        (pm : PackageManagerInfo) (st : State W) (s : string) :
  getWorkspaceInfo cwd st =
    (Return {| hasWorkspaces := true; packages := JString s |}, st) ->
  exists st0 dirs,
    runSecurityAuditForDirectory cwd pm
      (mkState (world st)
               (trace st ++ [Log DetectedWorkspaceProject; Log CheckingRootProject]))
      = (Return tt, st0) /\
    patterns_walk pm (map JString (letters s)) st0 dirs (runSecurityAudit pm st) /\
    Forall (fun pattern => basePath pattern = pattern /\ String.length pattern = 1%nat)
           (letters s) /\
    Forall (fun dir => exists letter entry,
              In letter (letters s) /\ dir = path_join [cwd; letter; entry]) dirs.
Proof.
  intros Hwi.
  destruct (runSecurityAudit_after_root pm st _ Hwi eq_refl) as [st0 [Hroot [_ Hrun]]].
  cbn [packages Json.iterate] in Hrun. rewrite chars_letters in Hrun.
  destruct (patterns_walk_total pm (map JString (letters s)) st0) as [dirs Hwalk].
  rewrite <- Hrun in Hwalk.
  assert (Hletters : Forall (fun pattern => basePath pattern = pattern /\
                                            String.length pattern = 1%nat) (letters s)).
  { clear. induction s as [|c s IH]; constructor; [|exact IH].
    split; [apply basePath_letter | reflexivity]. }
  exists st0, dirs. split; [exact Hroot|]. split; [exact Hwalk|]. split; [exact Hletters|].
  eapply Forall_impl; [|exact (patterns_walk_children pm _ _ _ _ Hwalk)].
  intros dir [pattern [entry [Hin Hd]]].
  apply in_map_iff in Hin. destruct Hin as [letter [E Hletter]]. inversion E; subst letter.
  rewrite Forall_forall in Hletters. destruct (Hletters _ Hletter) as [Hbase _].
  rewrite Hbase in Hd. exists pattern, entry. auto.
Qed.

End WalkEdges.

(** ** The project functions of src/depmanager.ts *)

Section ProjectFacts.
Context {W : Type} {host : Host W}.

Lemma checkProjectValidity_run (dir : string) (st : State W) :
  checkProjectValidity dir st =
  (if existsSync (path_join [dir; "package.json"]) (world st) then
     match readFileSync (path_join [dir; "package.json"]) (world st) with
     | Some text =>
         match JSON_parse text with
         | Some manifest => Ok manifest
         | None => Failed ErrorReadingPackageJson
         end
     | None => Failed ErrorReadingPackageJson
     end
   else Failed NoPackageJsonFound, st).
Proof.
  unfold checkProjectValidity, e_bind, e_catch, lift, fail, e_ret, bind, probe, of_option,
    ret, throw.
  destruct (existsSync _ (world st)); cbn [negb]; [|reflexivity].
  destruct (readFileSync _ (world st)) as [text|]; [|reflexivity].
  destruct (JSON_parse text); reflexivity.
Qed.

Lemma parsePackageJson_run (filePath : string) (st : State W) :
  parsePackageJson filePath st =
  (match readFileSync filePath (world st) with
   | Some text =>
       match JSON_parse text with
       | Some manifest => Ok manifest
       | None => Failed (FailedToParsePackageJson filePath)
       end
   | None => Failed (FailedToParsePackageJson filePath)
   end, st).
Proof.
  unfold parsePackageJson, e_bind, e_catch, lift, fail, e_ret, bind, probe, of_option,
    ret, throw.
  destruct (readFileSync _ (world st)) as [text|]; [|reflexivity].
  destruct (JSON_parse text); reflexivity.
Qed.

Lemma checkProjectValidity_state (dir : string) (st : State W) :
  snd (checkProjectValidity dir st) = st.
Proof. rewrite checkProjectValidity_run. reflexivity. Qed.

Lemma checkProjectValidity_failures (dir : string) (st : State W) (message : ErrorMessage) :
  fst (checkProjectValidity dir st) = Failed message ->
  message = NoPackageJsonFound \/ message = ErrorReadingPackageJson.
Proof.
  rewrite checkProjectValidity_run. cbn [fst].
  destruct (existsSync _ (world st));
    [destruct (readFileSync _ (world st)) as [text|];
       [destruct (JSON_parse text) as [manifest|]|]|];
    intros H; inversion H; auto.
Qed.

(** X19.  [checkProjectValidity] changes nothing and throws one of two
    errors.  It throws 'No package.json found...' exactly when the
    manifest does not exist ([fileExists] answers false); it throws
    'Error reading package.json...' exactly when the manifest exists and
    cannot be read or parsed; otherwise it returns the parsed
    manifest. *)
Theorem checkProjectValidity_messages (dir : string) (st : State W) :
  snd (checkProjectValidity dir st) = st /\
  (fst (checkProjectValidity dir st) = Failed NoPackageJsonFound <->
     fileExists (path_join [dir; "package.json"]) st = (Return false, st)) /\
  (fst (checkProjectValidity dir st) = Failed ErrorReadingPackageJson <->
     existsSync (path_join [dir; "package.json"]) (world st) = true /\
     match readFileSync (path_join [dir; "package.json"]) (world st) with
     | Some text => JSON_parse text = None
     | None => True
     end) /\
  (forall manifest,
     fst (checkProjectValidity dir st) = Ok manifest <->
     existsSync (path_join [dir; "package.json"]) (world st) = true /\
     exists text,
       readFileSync (path_join [dir; "package.json"]) (world st) = Some text /\
       JSON_parse text = Some manifest) /\
  (forall message,
     fst (checkProjectValidity dir st) = Failed message ->
     message = NoPackageJsonFound \/ message = ErrorReadingPackageJson).
Proof.
  rewrite checkProjectValidity_run. cbn [fst snd].
  unfold fileExists, try_catch, probe, ret.
  destruct (existsSync _ (world st));
    [destruct (readFileSync _ (world st)) as [text|];
       [destruct (JSON_parse text) as [manifest|] eqn:Hparse|]|];
    repeat split; intros;
    repeat match goal with
           | H : _ /\ _ |- _ => destruct H
           | H : exists _, _ |- _ => destruct H
           | H : Some _ = Some _ |- _ => inversion H; clear H; subst
           end;
    try discriminate; try congruence; eauto;
    try match goal with
        | H : Failed _ = Failed _ |- _ => inversion H; auto
        end.
  inversion H; subst. eauto.
Qed.

(** X20.  [getWorkspaceInfo] and [checkProjectValidity] read the same
    manifest: whenever the first reports workspaces, the second accepts
    the project, the manifest is an object with a truthy [workspaces],
    and the packages reported are that value or its [packages]. *)
Theorem workspaces_only_in_a_valid_project (dir : string) (st : State W) (wi : WorkspaceInfo) :
  getWorkspaceInfo dir st = (Return wi, st) ->
  hasWorkspaces wi = true ->
  exists fields ws,
    fst (checkProjectValidity dir st) = Ok (JObject fields) /\
    Json.lookup "workspaces" fields = Some ws /\
    Json.truthy (Some ws) = true /\
    (packages wi = ws \/ Json.get ws "packages" = Some (Some (packages wi))).
Proof.
  intros Hwi Hhas. rewrite checkProjectValidity_run. cbn [fst].
  destruct (existsSync (path_join [dir; "package.json"]) (world st)) eqn:Hex.
  2:{ rewrite (getWorkspaceInfo_absent dir st Hex) in Hwi. inversion Hwi; subst wi.
      discriminate. }
  destruct (readFileSync (path_join [dir; "package.json"]) (world st)) as [text|] eqn:Hread.
  2:{ rewrite (getWorkspaceInfo_unreadable dir st Hread) in Hwi. inversion Hwi; subst wi.
      discriminate. }
  destruct (JSON_parse text) as [manifest|] eqn:Hparse.
  2:{ rewrite (getWorkspaceInfo_malformed dir st text Hread Hparse) in Hwi.
      inversion Hwi; subst wi. discriminate. }
  rewrite (getWorkspaceInfo_parsed dir st text manifest Hex Hread Hparse) in Hwi.
  destruct manifest as [| | | | |fields];
    try (cbn in Hwi; inversion Hwi; subst wi; discriminate).
  cbn [Json.get] in Hwi.
  destruct (Json.lookup "workspaces" fields) as [ws|] eqn:Hws;
    [|inversion Hwi; subst wi; discriminate].
  exists fields, ws. split; [reflexivity|]. split; [exact Hws|].
  destruct (Json.truthy (Some ws)) eqn:Htruthy;
    [|inversion Hwi; subst wi; discriminate].
  split; [reflexivity|].
  destruct (Json.isArray ws) eqn:Harr.
  - inversion Hwi; subst wi. left. reflexivity.
  - destruct (Json.get ws "packages") as [[ps|]|] eqn:Hps;
      try (inversion Hwi; subst wi; discriminate).
    destruct (Json.truthy (Some ps)); inversion Hwi; subst wi; [|discriminate].
    right. reflexivity.
Qed.

Lemma getProjectInfo_run (dir : string) (st : State W) :
  getProjectInfo dir st =
  match checkProjectValidity dir st with
  | (Ok manifest, _) =>
      match detectPackageManager dir st with
      | (Return pm, st1) =>
          match getWorkspaceInfo dir st1 with
          | (Return wi, st2) =>
              (Ok {| packageManager := pm; workspace := wi; packageJson := manifest |}, st2)
          | (Throw, st2) => (Failed OtherError, st2)
          end
      | (Throw, st1) => (Failed OtherError, st1)
      end
  | (Failed message, _) => (Failed message, st)
  end.
Proof.
  unfold getProjectInfo, e_bind. rewrite checkProjectValidity_run.
  destruct (if existsSync _ (world st) then _ else _); [|reflexivity].
  unfold lift. destruct (detectPackageManager dir st) as [[pm|] st1]; [|reflexivity].
  destruct (getWorkspaceInfo dir st1) as [[wi|] st2]; reflexivity.
Qed.

Lemma detectPackageManager_returns (dir : string) (st : State W) :
  exists pm st1, detectPackageManager dir st = (Return pm, st1).
Proof.
  rewrite detectPackageManager_run.
  destruct (existsSync (path_join [dir; "yarn.lock"]) (world st)); [eauto|].
  destruct (existsSync (path_join [dir; "package-lock.json"]) (world st)); eauto.
Qed.

Lemma getProjectInfo_failed (dir : string) (st : State W) (message : ErrorMessage) :
  fst (checkProjectValidity dir st) = Failed message ->
  getProjectInfo dir st = (Failed message, st).
Proof.
  intros H. rewrite getProjectInfo_run.
  destruct (checkProjectValidity dir st) as [[manifest|m] s]; cbn [fst] in H;
    inversion H. reflexivity.
Qed.

Lemma getProjectInfo_ok (dir : string) (st : State W) (manifest : JSON) :
  fst (checkProjectValidity dir st) = Ok manifest ->
  exists pm st1 wi,
    detectPackageManager dir st = (Return pm, st1) /\
    getWorkspaceInfo dir st1 = (Return wi, st1) /\
    getProjectInfo dir st =
      (Ok {| packageManager := pm; workspace := wi; packageJson := manifest |}, st1).
Proof.
  intros H. rewrite getProjectInfo_run.
  destruct (checkProjectValidity dir st) as [[m|m] s]; cbn [fst] in H; inversion H; subst m.
  destruct (detectPackageManager_returns dir st) as [pm [st1 Hdetect]].
  destruct (getWorkspaceInfo_returns dir st1) as [wi Hwi].
  exists pm, st1, wi. rewrite Hdetect, Hwi. auto.
Qed.

(** X21.  [getProjectInfo] fails exactly when [checkProjectValidity]
    does, with the same error and before any command is run.  Otherwise
    it returns the manifest of the check, the manager that
    [detectPackageManager] finds, and the workspaces that
    [getWorkspaceInfo] reports in the state the detection left. *)
Theorem getProjectInfo_parts (dir : string) (st : State W) :
  (forall message,
     fst (checkProjectValidity dir st) = Failed message ->
     getProjectInfo dir st = (Failed message, st)) /\
  (forall manifest,
     fst (checkProjectValidity dir st) = Ok manifest ->
     exists pm st1 wi,
       detectPackageManager dir st = (Return pm, st1) /\
       getWorkspaceInfo dir st1 = (Return wi, st1) /\
       getProjectInfo dir st =
         (Ok {| packageManager := pm; workspace := wi; packageJson := manifest |}, st1)).
Proof.
  split; [apply getProjectInfo_failed | apply getProjectInfo_ok].
Qed.

(** X22.  [parsePackageJson] changes nothing, and its only error is
    'Failed to parse package.json at <filePath>...'.  On the manifest of
    a directory it returns what [checkProjectValidity] returns: when the
    check succeeds so does the parse, with the same value, and when the
    parse succeeds and the file exists so does the check. *)
Theorem parsePackageJson_and_checkProjectValidity (dir : string) (st : State W) :
  snd (parsePackageJson (path_join [dir; "package.json"]) st) = st /\
  (forall message,
     fst (parsePackageJson (path_join [dir; "package.json"]) st) = Failed message ->
     message = FailedToParsePackageJson (path_join [dir; "package.json"])) /\
  (forall manifest,
     fst (checkProjectValidity dir st) = Ok manifest ->
     fst (parsePackageJson (path_join [dir; "package.json"]) st) = Ok manifest) /\
  (forall manifest,
     fst (parsePackageJson (path_join [dir; "package.json"]) st) = Ok manifest ->
     existsSync (path_join [dir; "package.json"]) (world st) = true ->
     fst (checkProjectValidity dir st) = Ok manifest).
Proof.
  rewrite parsePackageJson_run, checkProjectValidity_run. cbn [fst snd].
  split; [reflexivity|].
  destruct (readFileSync _ (world st)) as [text|].
  - destruct (JSON_parse text) as [manifest|].
    + split; [discriminate|]. split.
      * intros m. destruct (existsSync _ (world st)); [auto | discriminate].
      * intros m H Hex. rewrite Hex. exact H.
    + split; [intros m H; inversion H; reflexivity|]. split.
      * intros m. destruct (existsSync _ (world st)); discriminate.
      * discriminate.
  - split; [intros m H; inversion H; reflexivity|]. split.
    + intros m. destruct (existsSync _ (world st)); discriminate.
    + discriminate.
Qed.

End ProjectFacts.

(** ** The report of a yarn audit *)

Module PrinterFacts.
Import Printer.

Lemma append_assoc3 (a b c : string) : (a ++ b) ++ c = a ++ b ++ c.
Proof. induction a as [|x a IH]; cbn; [reflexivity|]. rewrite IH. reflexivity. Qed.

Lemma prefix_app (pat rest : string) : prefix pat (pat ++ rest) = true.
Proof.
  induction pat as [|c pat IH]; [apply prefix_empty|].
  change (String c pat ++ rest) with (String c (pat ++ rest)).
  rewrite prefix_cons. destruct (ascii_dec c c); [exact IH | contradiction].
Qed.

Lemma prefix_split (pat : string) :
  forall s, prefix pat s = true -> exists rest, s = pat ++ rest.
Proof.
  induction pat as [|c pat IH]; intros s H.
  - exists s. reflexivity.
  - destruct s as [|d s]; [discriminate|].
    rewrite prefix_cons in H. destruct (ascii_dec c d) as [->|]; [|discriminate].
    destruct (IH s H) as [rest ->]. exists rest. reflexivity.
Qed.

Lemma includes_app (pat before after : string) :
  JS.includes pat (before ++ pat ++ after) = true.
Proof.
  induction before as [|c before IH].
  - change ("" ++ pat ++ after) with (pat ++ after).
    destruct (pat ++ after) eqn:E; cbn [JS.includes]; rewrite <- E, prefix_app; reflexivity.
  - change (String c before ++ pat ++ after) with (String c (before ++ pat ++ after)).
    cbn [JS.includes]. rewrite IH. apply orb_true_r.
Qed.

Lemma includes_split (pat : string) :
  forall s, JS.includes pat s = true -> exists before after, s = before ++ pat ++ after.
Proof.
  induction s as [|c s IH]; cbn [JS.includes]; intros H.
  - rewrite orb_false_r in H. destruct (prefix_split pat _ H) as [rest E].
    exists "", rest. exact E.
  - apply orb_true_iff in H. destruct H as [H|H].
    + destruct (prefix_split pat _ H) as [rest E]. exists "", rest. exact E.
    + destruct (IH H) as [before [after ->]]. exists (String c before), after. reflexivity.
Qed.

(** A text that includes [pat] includes every part of [pat]. *)
Lemma includes_part (a pat b s : string) :
  JS.includes (a ++ pat ++ b) s = true -> JS.includes pat s = true.
Proof.
  intros H. destruct (includes_split _ _ H) as [before [after ->]].
  replace (before ++ (a ++ pat ++ b) ++ after) with ((before ++ a) ++ pat ++ (b ++ after))
    by (rewrite !append_assoc3; reflexivity).
  apply includes_app.
Qed.

(** A text that includes [pat] inside one of its parts includes
    [pat]. *)
Lemma includes_inside (pat a line b : string) :
  JS.includes pat line = true -> JS.includes pat (a ++ line ++ b) = true.
Proof.
  intros H. destruct (includes_split _ _ H) as [before [after ->]].
  replace (a ++ (before ++ pat ++ after) ++ b) with ((a ++ before) ++ pat ++ (after ++ b))
    by (rewrite !append_assoc3; reflexivity).
  apply includes_app.
Qed.

(** The first line is the start of the text. *)
Lemma split_lines_head (s : string) :
  exists first rest b, split_lines s = first :: rest /\ s = first ++ b.
Proof.
  induction s as [|c s [first [rest [b [E Hs]]]]]; cbn [split_lines].
  - exists "", [], "". auto.
  - destruct (Ascii.eqb c (ascii_of_nat 10)).
    + exists "", (split_lines s), (String c s). auto.
    + rewrite E. exists (String c first), rest, b. split; [reflexivity|].
      cbn [append]. rewrite <- Hs. reflexivity.
Qed.

(** Each line is a part of the text. *)
Lemma split_lines_In (line : string) :
  forall s, In line (split_lines s) -> exists a b, s = a ++ line ++ b.
Proof.
  induction s as [|c s IH]; cbn [split_lines]; intros H.
  - destruct H as [<-|[]]. exists "", "". reflexivity.
  - destruct (Ascii.eqb c (ascii_of_nat 10)).
    + destruct H as [<-|H].
      * exists "", (String c s). reflexivity.
      * destruct (IH H) as [a [b ->]]. exists (String c a), b. reflexivity.
    + destruct (split_lines_head s) as [first [rest [b [E Hs]]]]. rewrite E in *.
      destruct H as [<-|H].
      * exists "", b. cbn [append]. rewrite <- Hs. reflexivity.
      * destruct (IH (or_intror H)) as [a [b' ->]]. exists (String c a), b'. reflexivity.
Qed.

(** What the loop over the lines leaves in [vulnCount]: the value it
    started from, or the count of the last line that has one. *)
Lemma fold_count_line (lines : list string) (v : Count) :
  fold_left count_line lines v = v \/
  exists before line after digits,
    lines = (before ++ line :: after)%list /\
    (JS.includes "vulnerabilities found" line ||
     JS.includes "vulnerability found" line)%bool = true /\
    match_count line = Some digits /\
    Forall (fun later => count_line (count_of digits) later = count_of digits) after /\
    fold_left count_line lines v = count_of digits.
Proof.
  induction lines as [|x lines IH] using rev_ind; [left; reflexivity|].
  rewrite fold_left_app. cbn [fold_left].
  destruct ((JS.includes "vulnerabilities found" x ||
             JS.includes "vulnerability found" x)%bool) eqn:Hphrase.
  - destruct (match_count x) as [digits|] eqn:Hmatch.
    + assert (Hcount : forall n, count_line n x = count_of digits).
      { intros n. unfold count_line. rewrite Hphrase, Hmatch. reflexivity. }
      right. exists lines, x, [], digits.
      split; [reflexivity|]. split; [exact Hphrase|]. split; [exact Hmatch|].
      split; [apply Forall_nil | apply Hcount].
    + assert (Hsame : forall n, count_line n x = n).
      { intros n. unfold count_line. rewrite Hphrase, Hmatch. reflexivity. }
      rewrite Hsame. destruct IH as [IH | [before [line [after [digits [E [H1 [H2 [H3 H4]]]]]]]]].
      * left. exact IH.
      * right. exists before, line, (after ++ [x])%list, digits.
        split; [rewrite E, <- app_assoc; reflexivity|].
        repeat split; auto. apply Forall_app. split; [exact H3|]. constructor; auto.
  - assert (Hsame : forall n, count_line n x = n).
    { intros n. unfold count_line. rewrite Hphrase. reflexivity. }
    rewrite Hsame. destruct IH as [IH | [before [line [after [digits [E [H1 [H2 [H3 H4]]]]]]]]].
    + left. exact IH.
    + right. exists before, line, (after ++ [x])%list, digits.
      split; [rewrite E, <- app_assoc; reflexivity|].
      repeat split; auto. apply Forall_app. split; [exact H3|]. constructor; auto.
Qed.

(** A count is positive exactly when the digits spell a positive
    integer. *)
Lemma positive_count_of (digits : list ascii) :
  positive (count_of digits) = true <-> (0 < JS.digits_to_Z digits)%Z.
Proof.
  unfold count_of.
  destruct (JS.digits_to_Z digits <=? 2 ^ 53)%Z eqn:Hsmall; cbn [positive].
  - apply Z.ltb_lt.
  - apply Z.leb_gt in Hsmall. split; [|reflexivity]. intros _.
    assert (0 < 2 ^ 53)%Z by reflexivity. lia.
Qed.

(** X23.  The report of a yarn audit looks for the text
    ['0 vulnerabilities found'] anywhere in the output: an output that
    holds it, as in '10 vulnerabilities found', is reported with the one
    line 'No vulnerabilities found!', whatever else it holds. *)
Theorem count_ending_in_zero_is_reported_clean (before after stderr : string) :
  displayYarnAuditResults (before ++ "0 vulnerabilities found" ++ after) stderr
  = [NoVulnerabilities].
Proof.
  unfold displayYarnAuditResults. rewrite includes_app, orb_true_r. reflexivity.
Qed.

(** X24.  The report of a yarn audit has one of three shapes: the line
    'No vulnerabilities found!' alone; the header 'Vulnerabilities
    found:' followed by that line; or the header, the output, the count
    and the tip.  In the last case the count is read from a line of the
    output that holds 'vulnerabilities found' or 'vulnerability found'
    and matches the pattern, its digits spell a positive integer, and no
    later line changes it: the last line with a count decides.  The
    count printed is that integer up to 2^53 and the Number that
    [parseInt] rounds it to beyond. *)
Theorem displayYarnAuditResults_shapes (stdout stderr : string) :
  displayYarnAuditResults stdout stderr = [NoVulnerabilities] \/
  displayYarnAuditResults stdout stderr = [VulnerabilitiesHeader; NoVulnerabilities] \/
  exists before line after digits,
    split_lines stdout = (before ++ line :: after)%list /\
    (JS.includes "vulnerabilities found" line ||
     JS.includes "vulnerability found" line)%bool = true /\
    match_count line = Some digits /\
    Forall (fun later => count_line (count_of digits) later = count_of digits) after /\
    (0 < JS.digits_to_Z digits)%Z /\
    displayYarnAuditResults stdout stderr =
      [VulnerabilitiesHeader; Output stdout; Found (count_of digits); YarnUpgradeTip].
Proof.
  unfold displayYarnAuditResults.
  destruct (_ || _ || _)%bool; [left; reflexivity|]. right.
  destruct (positive (fold_left count_line (split_lines stdout) (Exactly 0))) eqn:Hpos;
    [|left; reflexivity].
  right.
  destruct (fold_count_line (split_lines stdout) (Exactly 0))
    as [H0 | [before [line [after [digits [E [H1 [H2 [H3 H4]]]]]]]]].
  - rewrite H0 in Hpos. discriminate.
  - exists before, line, after, digits. rewrite H4 in *.
    apply positive_count_of in Hpos. repeat split; auto.
Qed.

(** X25.  An output that holds neither 'vulnerabilities found' nor
    'vulnerability found', with an error output that does not hold 'No
    known vulnerabilities found', is reported in two lines that
    contradict each other: 'Vulnerabilities found:' and then 'No
    vulnerabilities found!'. *)
Theorem report_without_a_count (stdout stderr : string) :
  JS.includes "vulnerabilities found" stdout = false ->
  JS.includes "vulnerability found" stdout = false ->
  JS.includes "No known vulnerabilities found" stderr = false ->
  displayYarnAuditResults stdout stderr = [VulnerabilitiesHeader; NoVulnerabilities].
Proof.
  intros Hplural Hsingular Herr. unfold displayYarnAuditResults.
  assert (H1 : JS.includes "No known vulnerabilities found" stdout = false).
  { destruct (JS.includes "No known vulnerabilities found" stdout) eqn:E; [|reflexivity].
    rewrite <- Hplural. symmetry.
    apply (includes_part "No known " "vulnerabilities found" ""). exact E. }
  assert (H2 : JS.includes "0 vulnerabilities found" stdout = false).
  { destruct (JS.includes "0 vulnerabilities found" stdout) eqn:E; [|reflexivity].
    rewrite <- Hplural. symmetry.
    apply (includes_part "0 " "vulnerabilities found" ""). exact E. }
  rewrite H1, H2, Herr. cbn [orb].
  assert (Hlines : forall lines (v : Count),
             (forall line, In line lines -> In line (split_lines stdout)) ->
             fold_left count_line lines v = v).
  { induction lines as [|line lines IH]; intros v Hin; [reflexivity|].
    cbn [fold_left].
    assert (Hline : count_line v line = v).
    { unfold count_line.
      destruct (split_lines_In line stdout (Hin line (or_introl eq_refl))) as [a [b E]].
      destruct (JS.includes "vulnerabilities found" line) eqn:Ep.
      { rewrite E, (includes_inside _ a line b Ep) in Hplural. discriminate. }
      destruct (JS.includes "vulnerability found" line) eqn:Es.
      { rewrite E, (includes_inside _ a line b Es) in Hsingular. discriminate. }
      reflexivity. }
    rewrite Hline. apply IH. intros l Hl. apply Hin. right. exact Hl. }
  rewrite Hlines by auto. reflexivity.
Qed.

Lemma match_count_here (line : string) (digits : list ascii) :
  match_here line = Some digits -> match_count line = Some digits.
Proof. intros H. destruct line; cbn [match_count]; rewrite H; reflexivity. Qed.

Lemma digit_prefix_app (digits : list ascii) (rest : string) :
  forallb JS.is_digit digits = true ->
  JS.digit_prefix (string_of_list_ascii digits ++ String " " rest) = digits /\
  after_digits (string_of_list_ascii digits ++ String " " rest) = String " " rest.
Proof.
  induction digits as [|d digits IH]; intros H.
  - split; reflexivity.
  - cbn [forallb] in H. apply andb_true_iff in H. destruct H as [Hd Hrest].
    destruct (IH Hrest) as [IH1 IH2].
    cbn [string_of_list_ascii append JS.digit_prefix after_digits].
    rewrite Hd, IH1, IH2. split; reflexivity.
Qed.

(** X26.  The pattern reads the count in front of the phrase: for a line
    that starts with decimal digits, a space and 'vulnerabilities found'
    or 'vulnerability found', the loop sets the count to what [parseInt]
    reads from those digits, whatever the count was and whatever
    follows: the integer they spell when it is at most 2^53, and the
    Number nearest to it when it is larger. *)
Theorem count_line_reads_the_leading_count
        (digits : list ascii) (phrase rest : string) (vulnCount : Count) :
  digits <> [] ->
  forallb JS.is_digit digits = true ->
  phrase = "vulnerabilities found" \/ phrase = "vulnerability found" ->
  count_line vulnCount (string_of_list_ascii digits ++ " " ++ phrase ++ rest)
  = count_of digits /\
  ((JS.digits_to_Z digits <= 2 ^ 53)%Z -> count_of digits = Exactly (JS.digits_to_Z digits)) /\
  ((2 ^ 53 < JS.digits_to_Z digits)%Z -> count_of digits = Rounded digits).
Proof.
  intros Hsome Hdigits Hphrase. split; [|split].
  - unfold count_line.
    assert (Hin : (JS.includes "vulnerabilities found"
                     (string_of_list_ascii digits ++ " " ++ phrase ++ rest) ||
                   JS.includes "vulnerability found"
                     (string_of_list_ascii digits ++ " " ++ phrase ++ rest))%bool = true).
    { replace (string_of_list_ascii digits ++ " " ++ phrase ++ rest)
        with ((string_of_list_ascii digits ++ " ") ++ phrase ++ rest)
        by (rewrite append_assoc3; reflexivity).
      destruct Hphrase as [-> | ->]; rewrite includes_app; [reflexivity | apply orb_true_r]. }
    rewrite Hin.
    rewrite (match_count_here _ digits); [reflexivity|].
    unfold match_here.
    destruct (digit_prefix_app digits (phrase ++ rest) Hdigits) as [H1 H2].
    change (" " ++ phrase ++ rest) with (String " " (phrase ++ rest)).
    rewrite H1, H2. destruct digits as [|d digits]; [contradiction|].
    destruct Hphrase as [-> | ->]; reflexivity.
  - intros Hsmall. unfold count_of. apply Z.leb_le in Hsmall. rewrite Hsmall. reflexivity.
  - intros Hlarge. unfold count_of. apply Z.leb_gt in Hlarge. rewrite Hlarge. reflexivity.
Qed.

End PrinterFacts.

(** ** The security command *)

Section CommandFacts.
Context {W : Type} {host : Host W}.

(** The check does not depend on the trace. *)
Lemma checkProjectValidity_of_world (dir : string) (st st' : State W) :
  world st = world st' ->
  fst (checkProjectValidity dir st) = fst (checkProjectValidity dir st').
Proof. intros H. rewrite !checkProjectValidity_run, H. reflexivity. Qed.

(** The command after a check that passed. *)
Lemma securityCommand_valid (s : Session W) (manifest : JSON) :
  fst (checkProjectValidity cwd (mkState (session_world s) [])) = Ok manifest ->
  exists pm st1,
    detectPackageManager cwd (mkState (session_world s) []) = (Return pm, st1) /\
    securityCommand s =
    match runSecurityAudit pm (mkState (world st1) []) with
    | (Return _, st2) =>
        (Finished,
         mkSession (world st2)
                   (session_trace s ++ map Core (trace st1) ++
                    Said (DetectedPackageManager (displayName pm)) ::
                    Said CheckingForVulnerabilities :: map Core (trace st2)))
    | (Throw, st2) =>
        (Exited 1,
         mkSession (world st2)
                   (session_trace s ++
                    (map Core (trace st1) ++
                     Said (DetectedPackageManager (displayName pm)) ::
                     Said CheckingForVulnerabilities :: map Core (trace st2)) ++
                    [Said (ErrorRunningSecurityCheck OtherError)]))
    end.
Proof.
  intros Hcheck.
  destruct (getProjectInfo_ok cwd (mkState (session_world s) []) manifest Hcheck)
    as [pm [st1 [wi [Hdetect [Hwi Hinfo]]]]].
  exists pm, st1. split; [exact Hdetect|].
  unfold securityCommand. unfold run_in at 1.
  pose proof (checkProjectValidity_state cwd (mkState (session_world s) [])) as Hsame.
  destruct (checkProjectValidity cwd (mkState (session_world s) [])) as [r st0].
  cbn [fst snd] in Hcheck, Hsame. subst r st0. cbn [world trace map session_world].
  unfold run_in at 1. cbn [session_world session_trace]. rewrite Hinfo.
  cbn [packageManager]. unfold run_in, say, lift, securityCommand_catch.
  cbn [session_world session_trace].
  destruct (runSecurityAudit pm (mkState (world st1) [])) as [[[]|] st2];
    cbn [world trace]; unfold say; cbn [session_world session_trace];
    rewrite ?app_nil_r, <- ?app_assoc; cbn [app]; rewrite <- ?app_assoc; reflexivity.
Qed.

(** The command after a check that failed. *)
Lemma securityCommand_invalid (s : Session W) (message : ErrorMessage) :
  fst (checkProjectValidity cwd (mkState (session_world s) [])) = Failed message ->
  securityCommand s =
  (Exited 1,
   mkSession (session_world s)
             (session_trace s ++ [Said (ErrorRunningSecurityCheck message)])).
Proof.
  intros Hcheck.
  pose proof (checkProjectValidity_state cwd (mkState (session_world s) [])) as Hsame.
  unfold securityCommand, run_in.
  destruct (checkProjectValidity cwd (mkState (session_world s) [])) as [r st0].
  cbn [fst snd] in Hcheck, Hsame. subst r st0.
  unfold securityCommand_catch, say. cbn [world trace map session_world session_trace].
  rewrite app_nil_r. reflexivity.
Qed.

(** X27.  The security command in a directory that is not a valid
    project: it prints the error of [checkProjectValidity] and exits
    with code 1, having run no command and printed nothing else. *)
Theorem securityCommand_invalid_project (s : Session W) (message : ErrorMessage) :
  fst (checkProjectValidity cwd (mkState (session_world s) [])) = Failed message ->
  securityCommand s =
  (Exited 1,
   mkSession (session_world s)
             (session_trace s ++ [Said (ErrorRunningSecurityCheck message)])) /\
  (message = NoPackageJsonFound \/ message = ErrorReadingPackageJson).
Proof.
  intros Hcheck. split; [apply securityCommand_invalid; exact Hcheck|].
  apply (checkProjectValidity_failures cwd (mkState (session_world s) [])). exact Hcheck.
Qed.

(** X28.  How the security command ends.  It returns or it exits with
    code 1, and when it exits its last line is the error.  When it
    returns, it has announced the manager and the check, after at most
    the query [yarn --version].  An error of the project check leaves the
    world as it was and is the only line; any other error comes after
    the two announcements, from the audit. *)
Theorem securityCommand_endings (s : Session W) :
  exists events,
    session_trace (snd (securityCommand s)) = (session_trace s ++ events)%list /\
    match fst (securityCommand s) with
    | Finished =>
        exists name before after,
          events = (map Core before ++
                    Said (DetectedPackageManager name) ::
                    Said CheckingForVulnerabilities :: map Core after)%list /\
          (before = [] \/ before = [Exec "yarn --version" None])
    | Exited code =>
        code = 1%nat /\
        exists message rest,
          events = (rest ++ [Said (ErrorRunningSecurityCheck message)])%list /\
          (message <> OtherError ->
             rest = [] /\ session_world (snd (securityCommand s)) = session_world s) /\
          (message = OtherError ->
             exists name before after,
               rest = (map Core before ++
                       Said (DetectedPackageManager name) ::
                       Said CheckingForVulnerabilities :: map Core after)%list)
    end.
Proof.
  destruct (fst (checkProjectValidity cwd (mkState (session_world s) []))) as [manifest|message]
    eqn:Hcheck.
  - destruct (securityCommand_valid s manifest Hcheck) as [pm [st1 [Hdetect Hrun]]].
    rewrite Hrun.
    assert (Hbefore : trace st1 = [] \/ trace st1 = [Exec "yarn --version" None]).
    { rewrite detectPackageManager_run in Hdetect. cbn [world trace] in Hdetect.
      destruct (existsSync (path_join [cwd; "yarn.lock"]) (session_world s)).
      - inversion Hdetect. right. reflexivity.
      - destruct (existsSync (path_join [cwd; "package-lock.json"]) (session_world s));
          inversion Hdetect; left; reflexivity. }
    destruct (runSecurityAudit pm (mkState (world st1) [])) as [[[]|] st2]; cbn [fst snd].
    + eexists. split; [reflexivity|]. exists (displayName pm), (trace st1), (trace st2). auto.
    + eexists. split; [reflexivity|]. split; [reflexivity|].
      exists OtherError. eexists. split; [reflexivity|].
      split; [intros H; destruct (H eq_refl)|].
      intros _. exists (displayName pm), (trace st1), (trace st2). reflexivity.
  - pose proof (securityCommand_invalid s message Hcheck) as Hrun.
    pose proof (checkProjectValidity_failures _ _ _ Hcheck) as Hmessage.
    rewrite Hrun. cbn [fst snd session_trace session_world].
    eexists. split; [reflexivity|]. split; [reflexivity|].
    exists message, []. split; [reflexivity|]. split; [auto|].
    intros ->. destruct Hmessage; discriminate.
Qed.

(** X29.  In a valid project for which [getProjectInfo] reports no
    workspaces the security command returns: whatever the audit
    commands do, no failure of theirs ends the process. *)
Theorem securityCommand_plain_project (s s2 : Session W) (info : ProjectInfo) :
  run_in (getProjectInfo cwd) s = (Ok info, s2) ->
  hasWorkspaces (workspace info) = false ->
  fst (securityCommand s) = Finished.
Proof.
  intros Hinfo Hplain. unfold run_in in Hinfo.
  destruct (fst (checkProjectValidity cwd (mkState (session_world s) []))) as [manifest|message]
    eqn:Hcheck.
  2:{ rewrite (getProjectInfo_failed _ _ message Hcheck) in Hinfo. discriminate. }
  destruct (getProjectInfo_ok _ _ manifest Hcheck) as [pm [st1 [wi [Hdetect [Hwi Hrun]]]]].
  rewrite Hrun in Hinfo. inversion Hinfo; subst info. cbn [workspace] in Hplain.
  destruct (securityCommand_valid s manifest Hcheck) as [pm' [st1' [Hdetect' Hcommand]]].
  rewrite Hdetect in Hdetect'. inversion Hdetect'; subst pm' st1'.
  rewrite Hcommand.
  destruct (getWorkspaceInfo_returns cwd (mkState (world st1) [])) as [wi' Hwi'].
  assert (Esame : wi' = wi).
  { pose proof (getWorkspaceInfo_same_reads cwd (mkState (world st1) []) st1 eq_refl eq_refl)
      as E.
    rewrite Hwi', Hwi in E. inversion E. reflexivity. }
  subst wi'.
  rewrite (runSecurityAudit_plain pm _ wi Hwi' Hplain).
  destruct (step_returns pm cwd (mkState (world st1) [])) as [st2 [events [Hstep _]]].
  rewrite Hstep. reflexivity.
Qed.

End CommandFacts.

(** ** The further properties on the demo hosts *)

Import Demo Cases.

(** X1 on a manifest with the record form. *)
Lemma getWorkspaceInfo_never_throws_witness :
  exists wi,
    getWorkspaceInfo "/repo" (start nohoist_world) = (Return wi, start nohoist_world) /\
    Json.truthy (Some (packages wi)) = true.
Proof.
  destruct (getWorkspaceInfo_never_throws "/repo" (start nohoist_world)) as [wi [Hrun [_ Hyes]]].
  exists wi. split; [exact Hrun|]. apply Hyes.
  cbv in Hrun. inversion Hrun. reflexivity.
Defined.

(** X2 on the manifest [null]. *)
Lemma getWorkspaceInfo_manifest_not_an_object_witness :
  getWorkspaceInfo (host := Cases.host) "/repo" (start (project null_manifest)) =
  (Return no_workspaces, start (project null_manifest)).
Proof.
  refine (getWorkspaceInfo_manifest_not_an_object (host := Cases.host) "/repo"
            (start (project null_manifest)) null_manifest JNull _ _ _ _);
    try reflexivity.
  intros fields. discriminate.
Defined.

(** X3 on a manifest whose [workspaces] holds [nohoist] alone. *)
Lemma getWorkspaceInfo_unusable_workspaces_witness :
  getWorkspaceInfo (host := Cases.host) "/repo" (start (project nohoist_only_manifest)) =
  (Return no_workspaces, start (project nohoist_only_manifest)).
Proof.
  refine (getWorkspaceInfo_unusable_workspaces (host := Cases.host) "/repo"
            (start (project nohoist_only_manifest)) nohoist_only_manifest
            [("workspaces", JObject [("nohoist", JArray [])])] _ _ _ _);
    try reflexivity.
  right. exists (JObject [("nohoist", JArray [])]). repeat split.
Defined.

(** X4 on two states of the workspace that differ in their commands and
    traces. *)
Lemma getWorkspaceInfo_reads_only_the_manifest_witness :
  fst (getWorkspaceInfo "/repo" (start (workspace_world []))) =
  fst (getWorkspaceInfo "/repo"
         (mkState (workspace_world ["yarn audit"]) [Exec "yarn audit" (Some "/repo")])).
Proof.
  refine (proj1 (getWorkspaceInfo_reads_only_the_manifest "/repo" (start (workspace_world []))
                   (mkState (workspace_world ["yarn audit"]) [Exec "yarn audit" (Some "/repo")])
                   _ _)); reflexivity.
Defined.

(** X5 on the yarn workspace. *)
Lemma detectPackageManager_commands_witness :
  exists pm st1,
    detectPackageManager "/repo" (start (workspace_world [])) = (Return pm, st1) /\
    appended (start (workspace_world [])) st1 [Exec "yarn --version" None].
Proof.
  destruct (detectPackageManager_commands "/repo" (start (workspace_world [])))
    as [pm [st1 [Hrun [_ Hyarn]]]].
  exists pm, st1. split; [exact Hrun|]. apply Hyarn. reflexivity.
Defined.

(** X6 on the yarn workspace. *)
Lemma detectPackageManager_consistent_witness :
  type (yarn_info (Some "1.22.19")) = type_of_yarn (getYarnVersionType (Some "1.22.19")) /\
  yarn_of_type (type (yarn_info (Some "1.22.19"))) = getYarnVersionType (Some "1.22.19").
Proof.
  refine (proj1 (proj2 (proj2 (detectPackageManager_consistent "/repo"
            (start (workspace_world []))
            (mkState (workspace_world []) [Exec "yarn --version" None])
            (yarn_info (Some "1.22.19")) _))) _); reflexivity.
Defined.

(** X7 on ["1.22.19"] and ["3.6.4"]. *)
Lemma getYarnVersionType_leading_component_witness :
  getYarnVersionType (Some "1.22.19") = Some yarn1 /\
  getYarnVersionType (Some "3.6.4") = Some yarn2plus.
Proof.
  split.
  - exact (getYarnVersionType_leading_component "1" "22.19" eq_refl).
  - exact (getYarnVersionType_leading_component "3" "6.4" eq_refl).
Defined.

(** X8 in a directory without a lock file. *)
Lemma runNpmAudit_lock_file_witness :
  exists r st1,
    runNpmAudit "/repo" (start empty_world) = (r, st1) /\
    appended (start empty_world) st1
      [Log CreatingPackageLock;
       Exec "npm i --package-lock-only --ignore-scripts" (Some "/repo");
       npm_audit_in "/repo"].
Proof.
  destruct (proj2 (runNpmAudit_lock_file "/repo" (start empty_world)))
    as [r [st1 [Hrun Happ]]]; [reflexivity|].
  exists r, st1. split; [exact Hrun | exact Happ].
Defined.

(** X11 on the npm project. *)
Lemma npm_manager_never_runs_yarn_witness :
  exists st1 events,
    runSecurityAuditForDirectory "/repo" npm_default (start plain_world) = (Return tt, st1) /\
    appended (start plain_world) st1 events /\
    audits events = [npm_audit_in "/repo"] /\
    Forall not_yarn events.
Proof.
  refine (npm_manager_never_runs_yarn "/repo" npm_default (start plain_world) _).
  reflexivity.
Defined.

(** X12 at the root of the workspace. *)
Lemma yarn_audit_that_succeeds_witness :
  runSecurityAuditForDirectory "/repo" yarn_1_22 (start (workspace_world [])) =
  (Return tt,
   mkState (workspace_world [])
           [Exec "yarn audit" (Some "/repo"); Log (YarnReport Printer.NoVulnerabilities)]).
Proof.
  refine (yarn_audit_that_succeeds "/repo" yarn_1_22 (start (workspace_world []))
            ("0 vulnerabilities found - Packages audited: 2"
               ++ String (ascii_of_nat 10) EmptyString, "")
            _ _ _); reflexivity.
Defined.

(** X13 on the workspace where [yarn --version] fails. *)
Lemma yarn_lock_without_yarn_witness :
  exists pm st1,
    detectPackageManager "/repo" (start (workspace_world ["yarn --version"]))
      = (Return pm, st1) /\
    manager pm = yarn /\ type pm = type_null /\
    exists st3 events rest,
      runSecurityAuditForDirectory "/repo/packages/a" pm st1 = (Return tt, st3) /\
      appended st1 st3 events /\
      audits events = npm_audit_in "/repo/packages/a" :: rest /\
      (rest = [] \/ rest = [npm_audit_in "/repo/packages/a"]) /\
      Forall not_yarn events.
Proof.
  destruct (yarn_lock_without_yarn "/repo" (start (workspace_world ["yarn --version"])))
    as [pm [st1 [Hrun [Hmanager [Htype Hstep]]]]]; [reflexivity | reflexivity |].
  exists pm, st1. repeat split; auto.
Defined.

(** X14 on the workspace with yarn 1.22.19. *)
Lemma yarn_lock_with_yarn_witness :
  exists pm st1,
    detectPackageManager "/repo" (start (workspace_world [])) = (Return pm, st1) /\
    manager pm = yarn /\
    exists st3 events rest,
      runSecurityAuditForDirectory "/repo/packages/a" pm st1 = (Return tt, st3) /\
      appended st1 st3 events /\
      audits events = Exec "yarn audit" (Some "/repo/packages/a") :: rest.
Proof.
  destruct (yarn_lock_with_yarn "/repo" (start (workspace_world []))
              ("1.22.19" ++ String (ascii_of_nat 10) EmptyString, ""))
    as [pm [st1 [Hrun [Hmanager [_ Hstep]]]]]; [reflexivity..|].
  exists pm, st1. split; [exact Hrun|]. split; [exact Hmanager|].
  destruct (Hstep "/repo/packages/a" st1) as [st3 [events [rest [H1 [H2 [H3 _]]]]]].
  exists st3, events, rest. auto.
Defined.

(** X16 on the patterns [["README.md"; "a/*"]], the first of which
    names a file. *)
Lemma runSecurityAudit_cannot_inspect_witness :
  fst (runSecurityAudit (host := Cases.host) yarn_1_22 (start (project file_pattern_manifest)))
  = Throw.
Proof.
  refine (f_equal fst
            (proj1 (runSecurityAudit_cannot_inspect (host := Cases.host) yarn_1_22
                      (start (project file_pattern_manifest))
                      {| hasWorkspaces := true;
                         packages := JArray [JString "README.md"; JString "a/*"] |}
                      [] "README.md" [JString "a/*"]
                      (mkState (project file_pattern_manifest)
                               [ Log DetectedWorkspaceProject; Log CheckingRootProject;
                                 Exec "yarn audit" (Some "/repo");
                                 Log (YarnReport Printer.NoVulnerabilities) ])
                      [] _ _ _ _ _ (patterns_done _ _) _) _));
    reflexivity.
Defined.

(** X17 on a [packages] that is an object and on a pattern that is a
    number. *)
Lemma runSecurityAudit_malformed_packages_witness :
  fst (runSecurityAudit (host := Cases.host) yarn_1_22
         (start (project object_packages_manifest))) = Throw /\
  fst (runSecurityAudit (host := Cases.host) yarn_1_22
         (start (project number_pattern_manifest))) = Throw.
Proof.
  split.
  - destruct (runSecurityAudit_malformed_packages (host := Cases.host) yarn_1_22
                (start (project object_packages_manifest))
                {| hasWorkspaces := true;
                   packages := JObject [("a", JNumber (1 # 1))] |})
      as [st1 [events [rest [_ [_ [Hthrow _]]]]]];
      [reflexivity | reflexivity | left; reflexivity | exact Hthrow].
  - destruct (runSecurityAudit_malformed_packages (host := Cases.host) yarn_1_22
                (start (project number_pattern_manifest))
                {| hasWorkspaces := true;
                   packages := JArray [JNumber (5 # 1); JString "packages/*"] |})
      as [st1 [events [rest [_ [_ [Hthrow _]]]]]];
      [reflexivity | reflexivity | | exact Hthrow].
    right. exists [JNumber (5 # 1); JString "packages/*"], (JNumber (5 # 1)).
    split; [reflexivity|]. split; [left; reflexivity | intros p; discriminate].
Defined.

(** X18 on the packages ["ab"]. *)
Lemma string_packages_walked_by_letter_witness :
  exists st0 dirs,
    patterns_walk (host := Cases.host) yarn_1_22 [JString "a"; JString "b"] st0 dirs
                  (runSecurityAudit (host := Cases.host) yarn_1_22
                                    (start (project string_packages_manifest))) /\
    Forall (fun dir => exists letter entry,
              In letter ["a"; "b"] /\ dir = join ["/repo"; letter; entry]) dirs.
Proof.
  destruct (string_packages_walked_by_letter (host := Cases.host) yarn_1_22
              (start (project string_packages_manifest)) "ab")
    as [st0 [dirs [_ [Hwalk [_ Hdirs]]]]]; [reflexivity|].
  exists st0, dirs. split; [exact Hwalk | exact Hdirs].
Defined.

(** X19 without a manifest, with a manifest that is not JSON, and with a
    manifest that is a directory. *)
Lemma checkProjectValidity_messages_witness :
  fst (checkProjectValidity "/repo" (start empty_world)) = Failed NoPackageJsonFound /\
  fst (checkProjectValidity "/repo" (start broken_world)) = Failed ErrorReadingPackageJson /\
  fst (checkProjectValidity (host := Cases.host) "/repo" (start unreadable_world))
    = Failed ErrorReadingPackageJson.
Proof.
  split; [|split].
  - apply (proj1 (proj2 (checkProjectValidity_messages "/repo" (start empty_world)))).
    reflexivity.
  - apply (proj1 (proj2 (proj2 (checkProjectValidity_messages "/repo" (start broken_world))))).
    split; reflexivity.
  - apply (proj1 (proj2 (proj2 (checkProjectValidity_messages (host := Cases.host) "/repo"
                                   (start unreadable_world))))).
    split; [reflexivity | exact I].
Defined.

(** X20 on a manifest with the record form. *)
Lemma workspaces_only_in_a_valid_project_witness :
  exists fields ws,
    fst (checkProjectValidity "/repo" (start nohoist_world)) = Ok (JObject fields) /\
    Json.lookup "workspaces" fields = Some ws /\
    Json.get ws "packages" = Some (Some (JArray [JString "packages/*"; JString "tools/*"])).
Proof.
  destruct (workspaces_only_in_a_valid_project "/repo" (start nohoist_world)
              {| hasWorkspaces := true;
                 packages := JArray [JString "packages/*"; JString "tools/*"] |})
    as [fields [ws [Hcheck [Hws [_ Hpackages]]]]]; [reflexivity | reflexivity |].
  exists fields, ws. split; [exact Hcheck|]. split; [exact Hws|].
  destruct Hpackages as [E|E]; [|exact E].
  cbn [packages] in E. subst ws.
  cbv in Hcheck. inversion Hcheck; subst fields. cbv in Hws. discriminate Hws.
Defined.

(** X21 on a directory without a manifest and on the npm project. *)
Lemma getProjectInfo_parts_witness :
  getProjectInfo "/repo" (start empty_world) = (Failed NoPackageJsonFound, start empty_world) /\
  exists pm st1 wi,
    detectPackageManager "/repo" (start plain_world) = (Return pm, st1) /\
    getWorkspaceInfo "/repo" st1 = (Return wi, st1) /\
    getProjectInfo "/repo" (start plain_world) =
      (Ok {| packageManager := pm; workspace := wi;
             packageJson := JObject [("name", JString "a")] |}, st1).
Proof.
  split.
  - apply (proj1 (getProjectInfo_parts "/repo" (start empty_world))). reflexivity.
  - apply (proj2 (getProjectInfo_parts "/repo" (start plain_world))). reflexivity.
Defined.

(** X22 on the manifest of the npm project. *)
Lemma parsePackageJson_and_checkProjectValidity_witness :
  fst (parsePackageJson "/repo/package.json" (start plain_world))
  = Ok (JObject [("name", JString "a")]).
Proof.
  refine (proj1 (proj2 (proj2 (parsePackageJson_and_checkProjectValidity "/repo"
                                 (start plain_world)))) (JObject [("name", JString "a")]) _).
  reflexivity.
Defined.

(** X25 on the output ["Audit complete"]. *)
Lemma report_without_a_count_witness :
  Printer.displayYarnAuditResults "Audit complete" "" =
  [Printer.VulnerabilitiesHeader; Printer.NoVulnerabilities].
Proof.
  apply PrinterFacts.report_without_a_count; reflexivity.
Defined.

(** X26 on a line of yarn 1 and on a count above 2^53. *)
Lemma count_line_reads_the_leading_count_witness :
  Printer.count_line (Printer.Exactly 0) "12 vulnerabilities found - Packages audited: 345"
    = Printer.Exactly 12 /\
  Printer.count_line (Printer.Exactly 7) "9007199254740993 vulnerabilities found"
    = Printer.Rounded ["9";"0";"0";"7";"1";"9";"9";"2";"5";"4";"7";"4";"0";"9";"9";"3"]%char.
Proof.
  split.
  - refine (proj1 (PrinterFacts.count_line_reads_the_leading_count
                     ["1"; "2"]%char "vulnerabilities found" " - Packages audited: 345"
                     (Printer.Exactly 0) _ _ _));
      [discriminate | reflexivity | left; reflexivity].
  - refine (proj1 (PrinterFacts.count_line_reads_the_leading_count
                     ["9";"0";"0";"7";"1";"9";"9";"2";"5";"4";"7";"4";"0";"9";"9";"3"]%char
                     "vulnerabilities found" "" (Printer.Exactly 7) _ _ _));
      [discriminate | reflexivity | left; reflexivity].
Defined.

(** X27 in a directory without a manifest. *)
Lemma securityCommand_invalid_project_witness :
  securityCommand (mkSession empty_world []) =
  (Exited 1, mkSession empty_world [Said (ErrorRunningSecurityCheck NoPackageJsonFound)]).
Proof.
  refine (proj1 (securityCommand_invalid_project (mkSession empty_world [])
                   NoPackageJsonFound _)).
  reflexivity.
Defined.

(** X29 on the npm project. *)
Lemma securityCommand_plain_project_witness :
  fst (securityCommand (mkSession plain_world [])) = Finished.
Proof.
  refine (securityCommand_plain_project (mkSession plain_world [])
            (mkSession plain_world [])
            {| packageManager := npm_info "npm";
               workspace := no_workspaces;
               packageJson := JObject [("name", JString "a")] |} _ _); reflexivity.
Defined.
